(** * Hydration state engine of the water-bottle tracker

    Shallow embedding of the state engine of [App.tsx] (two revisions:
    [src/unnamed/part_001], the later one, and [src/src/App.tsx]).

    Conventions of the embedding.
    - A JS [number] holding a quantity (millilitres, a fill fraction) is a
      rational ([Q]); NaN and infinities are outside the model.  Arithmetic
      on quantities is exact, with one exception: the volume attributed to a
      rhythm window is added by [updateDailyLogRhythm] and subtracted again
      by [undo], and what comes back depends on the rounding of doubles, so
      that sum and that difference are rounded to the nearest double
      ([fadd], [fsub]).  Counts, minute offsets and epoch milliseconds are
      integers ([Z]); [Math.round] of such a value is the value itself.
    - A [Date] is its epoch time in milliseconds.  The local zone is a fixed
      offset [tz] (milliseconds east of UTC); daylight-saving shifts are
      outside the model.
    - [dayKey] formats the local calendar date as [YYYY-MM-DD].  A key is
      modelled by the number of the local day it names (days since the
      epoch): the format is one-to-one on days, and for four-digit years
      the order of the strings is the order of the days.
    - [setState (s => ...)] updaters are functions on the state; clock reads
      ([new Date()], [Date.now()]) are explicit arguments. *)

From Stdlib Require Import ZArith QArith Qround Qminmax Qabs Lia Lqa String.
From stdpp Require Import base option list sorting gmap.

Local Open Scope Z_scope.

(** ** JS numeric helpers *)

Module Math.
(** [Math.round x]: the nearest integer, halves upward. *)
Definition round (x : Q) : Z := Qfloor (x + (1 # 2)).
(** [Math.ceil x] and [Math.floor x]. *)
Definition ceil (x : Q) : Z := Qceiling x.
Definition floor (x : Q) : Z := Qfloor x.
End Math.

(** [clamp(n, a, b) = Math.max(a, Math.min(b, n))], on integers and on
    rationals. *)
Definition clamp (n a b : Z) : Z := Z.max a (Z.min b n).
Definition clampQ (n a b : Q) : Q := Qmax a (Qmin b n).

(** [x < y] on rationals, as a boolean. *)
Definition Qlt_bool (x y : Q) : bool := negb (Qle_bool y x).

(** ** Doubles

    The doubles are the rationals [m * 2^e] with [|m| < 2^53] and
    [e >= -1074]; a rational is rounded to the nearest of them, a tie going
    to the even [m] (overflow to an infinity is outside the model). *)

(** [2^e] for an integer exponent. *)
Definition pow2 (e : Z) : Q :=
  if 0 <=? e then inject_Z (2 ^ e) else (1 / inject_Z (2 ^ (- e)))%Q.

(** The integer nearest to [x], a half going to the even neighbour. *)
Definition roundHalfEven (x : Q) : Z :=
  let f := Qfloor x in
  match (x - inject_Z f ?= 1 # 2)%Q with
  | Lt => f
  | Gt => f + 1
  | Eq => if Z.even f then f else f + 1
  end.

(** The double nearest to [x].  [k] is the binary exponent of [|x|]
    ([2^k <= |x| < 2^(k+1)]) and [ulp] the spacing of the doubles there. *)
Definition toDouble (x : Q) : Q :=
  let x := Qred x in
  if Qeq_bool x 0 then 0%Q
  else
    let a := Qabs x in
    let e0 := Z.log2 (Qnum a) - Z.log2 (Zpos (Qden a)) in
    let k := if Qlt_bool a (pow2 e0) then e0 - 1 else e0 in
    let ulp := pow2 (Z.max k (-1022) - 52) in
    let r := (inject_Z (roundHalfEven (a / ulp)) * ulp)%Q in
    if Qlt_bool x 0 then (- r)%Q else r.

(** [x + y] and [x - y] on doubles. *)
Definition fadd (x y : Q) : Q := toDouble (x + y).
Definition fsub (x y : Q) : Q := toDouble (x - y).

(** [x || 0] on a number: [0] when [x] is zero, [x] otherwise. *)
Definition orZero (x : Q) : Q := if Qeq_bool x 0 then 0%Q else x.

(** [ceilDiv(a, b) = b <= 0 ? 0 : Math.ceil(a / b)]. *)
Definition ceilDiv (a b : Q) : Z :=
  if Qle_bool b 0 then 0 else Math.ceil (a / b).

(** [l.slice(-n)]: the last [n] elements; [-0] is [0], so [n = 0] gives the
    whole list. *)
Definition sliceLast {A} (n : nat) (l : list A) : list A :=
  match n with
  | O => l
  | S _ => drop (length l - n) l
  end.

(** [l.slice(0, -1)]: all but the last element. *)
Definition sliceInit {A} (l : list A) : list A :=
  take (length l - 1) l.

(** ** Data model *)

Abbreviation DayKey := Z (only parsing).

Module Day.
(** A [dailyLog] entry.  The optional arrays are [None] when the property is
    absent; [windowTotalsMl] is declared in the type and never read. *)
Record entry := {
  consumedML : Q;
  goalML : Q;
  bottleML : Q;
  carryML : Q;
  extraML : Q;
  at_ : Z;
  windowHitCounts : option (list Z);
  windowHits : option (list bool);
  windowConsumedML : option (list Q);
  lastEventAt : option Z
}.
End Day.

Module Hist.
(** A [history] entry.  [t], [prevCarry] and [prevExtra] are numbers by
    their declared type, so the [typeof ... === "number"] guards of [undo]
    on them always hold. *)
Record entry := {
  t : Z;
  prevRemaining : Q;
  prevCompleted : Z;
  prevCarry : Q;
  prevExtra : Q;
  action : option string;
  ml : option Q;
  rhythmWindowIndex : option Z;
  rhythmDelta : option Z;
  rhythmMlDelta : option Q
}.
End Hist.

Inductive CelebrateType := bottle | goal.

Record Celebrate := {
  c_type : CelebrateType;
  c_pct : Z;
  c_consumedML : Q
}.

Module St.
(** The fields of [AppState] that the engine reads or writes; the
    onboarding and presentation fields are left out. *)
Record t := {
  goalML : Q;
  bottleML : Q;
  wakeMins : Z;
  sleepMins : Z;
  dayKey : DayKey;
  completedBottles : Z;
  remaining : Q;
  carryML : Q;
  extraML : Q;
  dailyLog : gmap Z Day.entry;
  history : list Hist.entry;
  celebrate : option Celebrate
}.

(** [{ ...s, field: v }] for each field that the engine spreads over. *)
Definition with_remaining (v : Q) (s : t) : t :=
  {| goalML := goalML s; bottleML := bottleML s; wakeMins := wakeMins s;
     sleepMins := sleepMins s; dayKey := dayKey s;
     completedBottles := completedBottles s; remaining := v;
     carryML := carryML s; extraML := extraML s; dailyLog := dailyLog s;
     history := history s; celebrate := celebrate s |}.

Definition with_completedBottles (v : Z) (s : t) : t :=
  {| goalML := goalML s; bottleML := bottleML s; wakeMins := wakeMins s;
     sleepMins := sleepMins s; dayKey := dayKey s;
     completedBottles := v; remaining := remaining s;
     carryML := carryML s; extraML := extraML s; dailyLog := dailyLog s;
     history := history s; celebrate := celebrate s |}.

Definition with_carryML (v : Q) (s : t) : t :=
  {| goalML := goalML s; bottleML := bottleML s; wakeMins := wakeMins s;
     sleepMins := sleepMins s; dayKey := dayKey s;
     completedBottles := completedBottles s; remaining := remaining s;
     carryML := v; extraML := extraML s; dailyLog := dailyLog s;
     history := history s; celebrate := celebrate s |}.

Definition with_extraML (v : Q) (s : t) : t :=
  {| goalML := goalML s; bottleML := bottleML s; wakeMins := wakeMins s;
     sleepMins := sleepMins s; dayKey := dayKey s;
     completedBottles := completedBottles s; remaining := remaining s;
     carryML := carryML s; extraML := v; dailyLog := dailyLog s;
     history := history s; celebrate := celebrate s |}.

Definition with_dailyLog (v : gmap Z Day.entry) (s : t) : t :=
  {| goalML := goalML s; bottleML := bottleML s; wakeMins := wakeMins s;
     sleepMins := sleepMins s; dayKey := dayKey s;
     completedBottles := completedBottles s; remaining := remaining s;
     carryML := carryML s; extraML := extraML s; dailyLog := v;
     history := history s; celebrate := celebrate s |}.

Definition with_history (v : list Hist.entry) (s : t) : t :=
  {| goalML := goalML s; bottleML := bottleML s; wakeMins := wakeMins s;
     sleepMins := sleepMins s; dayKey := dayKey s;
     completedBottles := completedBottles s; remaining := remaining s;
     carryML := carryML s; extraML := extraML s; dailyLog := dailyLog s;
     history := v; celebrate := celebrate s |}.

Definition with_celebrate (v : option Celebrate) (s : t) : t :=
  {| goalML := goalML s; bottleML := bottleML s; wakeMins := wakeMins s;
     sleepMins := sleepMins s; dayKey := dayKey s;
     completedBottles := completedBottles s; remaining := remaining s;
     carryML := carryML s; extraML := extraML s; dailyLog := dailyLog s;
     history := history s; celebrate := v |}.

(** [{ ...ss, dayKey: today, completedBottles: 0, remaining: 1, carryML: 0,
    extraML: 0, history: [], celebrate: null }]. *)
Definition freshDay (today : DayKey) (s : t) : t :=
  {| goalML := goalML s; bottleML := bottleML s; wakeMins := wakeMins s;
     sleepMins := sleepMins s; dayKey := today;
     completedBottles := 0; remaining := 1;
     carryML := 0; extraML := 0; dailyLog := dailyLog s;
     history := []; celebrate := None |}.
End St.

(** ** Consumption state *)

(** [totalConsumedFromState] (the same in both revisions). *)
Definition totalConsumedFromState (s : St.t) : Q :=
  let n := ceilDiv (St.goalML s) (St.bottleML s) in
  let completed := (inject_Z (clamp (St.completedBottles s) 0 n) * St.bottleML s)%Q in
  let consumedCurrent := Math.round ((1 - St.remaining s) * St.bottleML s) in
  let carry := clamp (Math.round (orZero (St.carryML s))) 0 100000 in
  let extra := clamp (Math.round (orZero (St.extraML s))) 0 100000 in
  Qmin (St.goalML s)
       (completed + inject_Z consumedCurrent + inject_Z carry + inject_Z extra).

(** [advanceBottle]. *)
Definition advanceBottle (s : St.t) : St.t :=
  let n := ceilDiv (St.goalML s) (St.bottleML s) in
  if n <=? 0 then s
  else
    let completed := St.completedBottles s in
    let completed := if completed <? n then completed + 1 else completed in
    St.with_remaining 1 (St.with_completedBottles completed s).

(** ** Clock and day keys *)

Definition msPerMinute : Z := 60 * 1000.
Definition msPerHour : Z := 60 * msPerMinute.
Definition msPerDay : Z := 24 * msPerHour.

Section Engine.
(** Offset of the local zone, in milliseconds. *)
Variable tz : Z.

(** [dayKey(d)]: the local calendar day of [d]. *)
Definition dayKey (d : Z) : DayKey := (d + tz) / msPerDay.

(** [d.getHours() * 60 + d.getMinutes()]. *)
Definition minutesSinceMidnight (d : Z) : Z :=
  ((d + tz) / msPerMinute) mod 1440.

(** [wakeBoundaryMins]: [((m % 1440) + 1440) % 1440], with JS's truncating
    remainder; [m = Math.round(wakeMins)] is [wakeMins], an integer. *)
Definition wakeBoundaryMins (wakeMins : Z) : Z :=
  Z.rem (Z.rem wakeMins 1440 + 1440) 1440.

(** [sleepBoundaryMins] of [src/src/App.tsx]: the same normalisation. *)
Definition sleepBoundaryMins (sleepMins : Z) : Z :=
  Z.rem (Z.rem sleepMins 1440 + 1440) 1440.

(** [dayKeyByWake] ([part_001]). *)
Definition dayKeyByWake (d : Z) (wakeMins : Z) : DayKey :=
  let boundary := wakeBoundaryMins wakeMins in
  let shifted := d - boundary * 60 * 1000 in
  dayKey shifted.

(** [dayKeyBySleep] ([src/src/App.tsx]). *)
Definition dayKeyBySleep (d : Z) (sleepMins : Z) : DayKey :=
  let boundary := sleepBoundaryMins sleepMins in
  let shifted := d - boundary * 60 * 1000 in
  dayKey shifted.

(** ** Pacing model *)

(** The loop of [expectedPctAt] over the checkpoints, [prev] being the
    checkpoint before the head of [cps]. *)
Fixpoint interpolate (progress : Q) (prev : Q * Q) (cps : list (Q * Q)) : Q :=
  match cps with
  | [] => 1
  | (t, pct) :: rest =>
      if Qle_bool progress t then
        let span := t - fst prev in
        let ratio := if Qeq_bool span 0 then 0 else (progress - fst prev) / span in
        snd prev + (pct - snd prev) * ratio
      else interpolate progress (t, pct) rest
  end%Q.

Definition checkpoints : list (Q * Q) :=
  [ (25 # 100, 3 # 10); (5 # 10, 55 # 100); (7 # 10, 75 # 100);
    (87 # 100, 9 # 10); (1, 1) ]%Q.

(** [expectedPctAt]; the minutes are integers, so [Math.round] leaves them
    as they are. *)
Definition expectedPctAt (d : Z) (wakeMins sleepMins : Z) : Q :=
  let start := clamp wakeMins 0 1439 in
  let end_ := clamp sleepMins 0 2879 in
  let now := minutesSinceMidnight d in
  let end_ := if end_ <=? start then end_ + 1440 else end_ in
  let now := if now <? start then now + 1440 else now in
  if now <=? start then 0
  else if now >=? end_ then 1
  else
    let duration := clamp (end_ - start) (6 * 60) (20 * 60) in
    let progress :=
      if 0 <? duration then (inject_Z (now - start) / inject_Z duration)%Q else 1%Q in
    interpolate progress (0, 0)%Q checkpoints.

(** [expectedMlAt]. *)
Definition expectedMlAt (goalML : Q) (d : Z) (wakeMins sleepMins : Z) : Z :=
  Math.round (goalML * expectedPctAt d wakeMins sleepMins).

(** [makeDefaultState], the engine's fields; [now] is its [new Date()]. *)
Definition makeDefaultState (now : Z) : St.t :=
  {| St.goalML := 2000; St.bottleML := 500;
     St.wakeMins := 480; St.sleepMins := 1320;
     St.dayKey := dayKeyByWake now 480;
     St.completedBottles := 0; St.remaining := 1;
     St.carryML := 0; St.extraML := 0;
     St.dailyLog := ∅; St.history := []; St.celebrate := None |}.

(** ** Rhythm tracker *)

(** [getHydrationWindowBoundsForDayKey]: the key names a local day; [base] is
    its local midnight, and [setHours(h, m, 0, 0)] adds [h] hours and [m]
    minutes to it.  Returns [(start, end)] as epoch milliseconds. *)
Definition getHydrationWindowBoundsForDayKey
    (key : DayKey) (wakeMins sleepMins : Z) : Z * Z :=
  let base := key * msPerDay - tz in
  let start := base + (wakeMins / 60) * msPerHour + Z.rem wakeMins 60 * msPerMinute in
  let end_ :=
    base + (Z.rem sleepMins 1440 / 60) * msPerHour + Z.rem sleepMins 60 * msPerMinute in
  let end_ := if sleepMins <? wakeMins then end_ + msPerDay else end_ in
  (start, end_).

(** [getRhythmWindowIndexForDayKey]. *)
Definition getRhythmWindowIndexForDayKey
    (atMs : Z) (key : DayKey) (wakeMins sleepMins : Z) : Z :=
  let '(start, end_) := getHydrationWindowBoundsForDayKey key wakeMins sleepMins in
  let total := end_ - start in
  if total <=? 0 then 0
  else if atMs >=? end_ then 4
  else
    let elapsed := clamp (atMs - start) 0 (total - 1) in
    let segment := (inject_Z total / 5)%Q in
    Z.min 4 (Z.max 0 (Math.floor (inject_Z elapsed / segment))).

(** The reading of a day's [windowHitCounts], written out in
    [updateDailyLogRhythm], [undo] and the score breakdown: the counts when
    they are an array of length 5, else the legacy [windowHits] flags as
    0/1, else five zeros. *)
Definition readWindowHitCounts (day : option Day.entry) : list Z :=
  match day ≫= Day.windowHitCounts with
  | Some counts =>
      if (length counts =? 5)%nat then counts
      else
        match day ≫= Day.windowHits with
        | Some hits =>
            if (length hits =? 5)%nat
            then map (fun hit : bool => if hit then 1 else 0) hits
            else [0; 0; 0; 0; 0]
        | None => [0; 0; 0; 0; 0]
        end
  | None =>
      match day ≫= Day.windowHits with
      | Some hits =>
          if (length hits =? 5)%nat
          then map (fun hit : bool => if hit then 1 else 0) hits
          else [0; 0; 0; 0; 0]
      | None => [0; 0; 0; 0; 0]
      end
  end.

(** The same for [windowConsumedML]. *)
Definition readWindowConsumedML (day : option Day.entry) : list Q :=
  match day ≫= Day.windowConsumedML with
  | Some mls => if (length mls =? 5)%nat then mls else [0; 0; 0; 0; 0]%Q
  | None => [0; 0; 0; 0; 0]%Q
  end.

(** [a[i]] for an index that the callers keep inside the array. *)
Definition getZ (a : list Z) (i : Z) : Z := default 0 (a !! Z.to_nat i).
Definition getQ (a : list Q) (i : Z) : Q := default 0%Q (a !! Z.to_nat i).

(** [updateDailyLogRhythm] (the development-only logging is left out). *)
Definition updateDailyLogRhythm (s : St.t) (atMs : Z) (deltaMl : Q)
    : gmap Z Day.entry :=
  let key := dayKeyByWake atMs (St.wakeMins s) in
  let existing := St.dailyLog s !! key in
  let windowHitCounts := readWindowHitCounts existing in
  let windowConsumedML := readWindowConsumedML existing in
  let idx := getRhythmWindowIndexForDayKey atMs key (St.wakeMins s) (St.sleepMins s) in
  let windowHitCounts :=
    if Qle_bool 120 deltaMl
    then <[Z.to_nat idx := Z.max 0 (getZ windowHitCounts idx + 1)]> windowHitCounts
    else windowHitCounts in
  let windowConsumedML :=
    if Qle_bool 120 deltaMl
    then <[Z.to_nat idx := Qmax 0 (fadd (getQ windowConsumedML idx) deltaMl)]>
           windowConsumedML
    else windowConsumedML in
  <[key := {| Day.consumedML := totalConsumedFromState s;
             Day.goalML := St.goalML s;
             Day.bottleML := St.bottleML s;
             Day.carryML := St.carryML s;
             Day.extraML := St.extraML s;
             Day.at_ := match existing with Some e => Day.at_ e | None => atMs end;
             Day.windowHitCounts := Some windowHitCounts;
             Day.windowHits := None;
             Day.windowConsumedML := Some windowConsumedML;
             Day.lastEventAt := Some atMs |}]> (St.dailyLog s).

(** ** Mutations ([part_001]) *)

Definition isTrack (action : option string) : bool :=
  match action with
  | Some a => String.eqb a "track"
  | None => false
  end.

(** [setRemaining(nextRemaining, meta)]; [now] is the [new Date()] of the
    day check and [eventAt] the later [Date.now()]. *)
Definition setRemaining (now eventAt : Z) (nextRemaining : Q)
    (action : option string) (s : St.t) : St.t :=
  let today := dayKeyByWake now (St.wakeMins s) in
  let ss := if negb (St.dayKey s =? today) then St.freshDay today s else s in
  let prev := St.remaining ss in
  let prevCompleted := St.completedBottles ss in
  let prevCarry := orZero (St.carryML ss) in
  let prevExtra := orZero (St.extraML ss) in
  let beforeConsumed := totalConsumedFromState ss in
  let r := clampQ nextRemaining 0 1 in
  let didEmptyBottle :=
    isTrack action && Qlt_bool (1 # 10000) prev && Qle_bool r (1 # 10000) in
  let nextState := St.with_remaining r ss in
  let nextState :=
    if Qle_bool r (1 # 10000) then advanceBottle nextState else nextState in
  let afterConsumed := totalConsumedFromState nextState in
  let pct :=
    if Qlt_bool 0 (St.goalML nextState)
    then Math.round (afterConsumed / St.goalML nextState * 100)
    else 0 in
  let hitGoal :=
    isTrack action && Qlt_bool 0 (St.goalML nextState)
    && Qle_bool (St.goalML nextState) afterConsumed in
  let rhythmDelta := Qmax 0 (afterConsumed - beforeConsumed) in
  let rhythmWindowIndex :=
    if Qle_bool 120 rhythmDelta
    then Some (getRhythmWindowIndexForDayKey eventAt
                 (dayKeyByWake eventAt (St.wakeMins ss))
                 (St.wakeMins ss) (St.sleepMins ss))
    else None in
  let entry :=
    {| Hist.t := eventAt;
       Hist.prevRemaining := prev;
       Hist.prevCompleted := prevCompleted;
       Hist.prevCarry := prevCarry;
       Hist.prevExtra := prevExtra;
       Hist.action := action;
       Hist.ml := None;
       Hist.rhythmWindowIndex := rhythmWindowIndex;
       Hist.rhythmDelta := match rhythmWindowIndex with Some _ => Some 1 | None => None end;
       Hist.rhythmMlDelta :=
         match rhythmWindowIndex with Some _ => Some rhythmDelta | None => None end |} in
  let history := sliceLast 50 (St.history ss ++ [entry]) in
  let nextState := St.with_history history nextState in
  let nextState :=
    if isTrack action
    then St.with_dailyLog (updateDailyLogRhythm nextState eventAt rhythmDelta) nextState
    else nextState in
  let nextState :=
    if isTrack action && (hitGoal || didEmptyBottle)
    then St.with_celebrate
           (Some {| c_type := if hitGoal then goal else bottle;
                    c_pct := clamp pct 0 100;
                    c_consumedML := afterConsumed |})
           nextState
    else nextState in
  nextState.

(** [addExtra(ml)], the state updater (the nudge bookkeeping after it does
    not touch the state). *)
Definition addExtra (now eventAt : Z) (ml : Q) (s : St.t) : St.t :=
  let today := dayKeyByWake now (St.wakeMins s) in
  let ss := if negb (St.dayKey s =? today) then St.freshDay today s else s in
  let prev := St.remaining ss in
  let prevCompleted := St.completedBottles ss in
  let prevCarry := orZero (St.carryML ss) in
  let prevExtra := orZero (St.extraML ss) in
  let nextExtra := clampQ (orZero (St.extraML ss) + ml) 0 100000 in
  let rhythmWindowIndex :=
    if Qle_bool 120 ml
    then Some (getRhythmWindowIndexForDayKey eventAt
                 (dayKeyByWake eventAt (St.wakeMins ss))
                 (St.wakeMins ss) (St.sleepMins ss))
    else None in
  let entry :=
    {| Hist.t := eventAt;
       Hist.prevRemaining := prev;
       Hist.prevCompleted := prevCompleted;
       Hist.prevCarry := prevCarry;
       Hist.prevExtra := prevExtra;
       Hist.action := Some "extra"%string;
       Hist.ml := Some ml;
       Hist.rhythmWindowIndex := rhythmWindowIndex;
       Hist.rhythmDelta := match rhythmWindowIndex with Some _ => Some 1 | None => None end;
       Hist.rhythmMlDelta :=
         match rhythmWindowIndex with Some _ => Some ml | None => None end |} in
  let history := sliceLast 50 (St.history ss ++ [entry]) in
  let next := St.with_history history (St.with_extraML nextExtra ss) in
  St.with_dailyLog (updateDailyLogRhythm next eventAt ml) next.

(** [addExtra(ml)] of [src/src/App.tsx]: the day is keyed by sleep and the
    daily log is left alone. *)
Definition addExtra_App (now eventAt : Z) (ml : Q) (s : St.t) : St.t :=
  let today := dayKeyBySleep now (St.sleepMins s) in
  let ss := if negb (St.dayKey s =? today) then St.freshDay today s else s in
  let prev := St.remaining ss in
  let prevCompleted := St.completedBottles ss in
  let prevCarry := orZero (St.carryML ss) in
  let prevExtra := orZero (St.extraML ss) in
  let nextExtra := clampQ (orZero (St.extraML ss) + ml) 0 100000 in
  let entry :=
    {| Hist.t := eventAt;
       Hist.prevRemaining := prev;
       Hist.prevCompleted := prevCompleted;
       Hist.prevCarry := prevCarry;
       Hist.prevExtra := prevExtra;
       Hist.action := Some "extra"%string;
       Hist.ml := Some ml;
       Hist.rhythmWindowIndex := None;
       Hist.rhythmDelta := None;
       Hist.rhythmMlDelta := None |} in
  let history := sliceLast 50 (St.history ss ++ [entry]) in
  St.with_history history (St.with_extraML nextExtra ss).

(** [undo], the state updater. *)
Definition undo (s : St.t) : St.t :=
  let h := St.history s in
  match last h with
  | None => s
  | Some last =>
      let nextState :=
        St.with_history (sliceInit h)
          (St.with_extraML (Hist.prevExtra last)
             (St.with_carryML (Hist.prevCarry last)
                (St.with_completedBottles (Hist.prevCompleted last)
                   (St.with_remaining (Hist.prevRemaining last) s)))) in
      match Hist.rhythmWindowIndex last with
      | Some windowIndex =>
          let eventAt := Hist.t last in
          let key := dayKeyByWake eventAt (St.wakeMins nextState) in
          let day := St.dailyLog nextState !! key in
          let windowHitCounts := readWindowHitCounts day in
          let windowConsumedML := readWindowConsumedML day in
          let delta := default 1 (Hist.rhythmDelta last) in
          let windowHitCounts :=
            <[Z.to_nat windowIndex := Z.max 0 (getZ windowHitCounts windowIndex - delta)]>
              windowHitCounts in
          let mlDelta := default 0%Q (Hist.rhythmMlDelta last) in
          let windowConsumedML :=
            if Qlt_bool 0 mlDelta
            then <[Z.to_nat windowIndex :=
                     Qmax 0 (fsub (getQ windowConsumedML windowIndex) mlDelta)]>
                   windowConsumedML
            else windowConsumedML in
          let dailyLog :=
            <[key := {| Day.consumedML := totalConsumedFromState nextState;
                       Day.goalML := from_option Day.goalML (St.goalML nextState) day;
                       Day.bottleML := from_option Day.bottleML (St.bottleML nextState) day;
                       Day.carryML := from_option Day.carryML (St.carryML nextState) day;
                       Day.extraML := from_option Day.extraML (St.extraML nextState) day;
                       Day.at_ := from_option Day.at_ eventAt day;
                       Day.windowHitCounts := Some windowHitCounts;
                       Day.windowHits := None;
                       Day.windowConsumedML := Some windowConsumedML;
                       Day.lastEventAt := Some eventAt |}]> (St.dailyLog nextState) in
          St.with_dailyLog dailyLog nextState
      | None => nextState
      end
  end.

(** ** Rollover *)

(** [Object.keys(log).sort()]: the keys in increasing order. *)
Definition sortedKeys (log : gmap Z Day.entry) : list Z :=
  merge_sort Z.le (map_to_list log).*1.

(** The updater inside [resetToTodayIfNeeded], shared by the two revisions,
    which differ in how [today] is computed and in how many keys are kept
    ([keepN]).  [at_] is the [Date.now()] of the snapshot; [persistNow] has
    no effect on the state. *)
Definition resetUpdater (keepN : nat) (today : DayKey) (at_ : Z) (s : St.t) : St.t :=
  if St.dayKey s =? today then s
  else
    let prevKey := St.dayKey s in
    let consumed := totalConsumedFromState s in
    let nextLog :=
      <[prevKey := {| Day.consumedML := consumed;
                     Day.goalML := St.goalML s;
                     Day.bottleML := St.bottleML s;
                     Day.carryML := inject_Z (Math.round (orZero (St.carryML s)));
                     Day.extraML := inject_Z (Math.round (orZero (St.extraML s)));
                     Day.at_ := at_;
                     Day.windowHitCounts := None;
                     Day.windowHits := None;
                     Day.windowConsumedML := None;
                     Day.lastEventAt := None |}]> (St.dailyLog s) in
    let keys := sortedKeys nextLog in
    let keep := sliceLast keepN keys in
    let pruned :=
      foldl (fun (pruned : gmap Z Day.entry) k =>
               match nextLog !! k with
               | Some v => <[k := v]> pruned
               | None => pruned
               end) ∅ keep in
    St.with_dailyLog pruned (St.freshDay today s).

(** [resetToTodayIfNeeded] of [part_001]: keyed by wake, 365 days kept.
    [cur] is [stateRef.current]. *)
Definition resetToTodayIfNeeded (now at_ : Z) (cur s : St.t) : St.t :=
  let today := dayKeyByWake now (St.wakeMins cur) in
  resetUpdater 365 today at_ s.

(** [resetToTodayIfNeeded] of [src/src/App.tsx]: keyed by sleep, 14 days
    kept. *)
Definition resetToTodayIfNeeded_App (now at_ : Z) (cur s : St.t) : St.t :=
  let today := dayKeyBySleep now (St.sleepMins cur) in
  resetUpdater 14 today at_ s.

End Engine.

(** ** Fill estimation: the retry policy of [estimatePercentFull]

    The requests, the random draws and the clock are given by a [World];
    cancellation through the abort signal and a [fetch] that throws are
    outside the model. *)

Module Estimate.

(** The [retry-after] header as [Number] and [Date.parse] read it: [None]
    stands for NaN (or a non-finite number). *)
Record RetryAfter := {
  asNumber : option Q;
  asDate : option Z
}.

(** A response: the status, the header ([None] when absent or empty), the
    two numeric fields of the JSON body when they are numbers, the
    [error]/[message] of the body and the raw text. *)
Record Response := {
  status : Z;
  retryAfter : option RetryAfter;
  percent_full : option Q;
  fill_fraction : option Q;
  apiMessage : option string;
  raw : string
}.

(** [res.ok]. *)
Definition ok (res : Response) : bool :=
  (200 <=? status res) && (status res <=? 299).

(** What the outside gives to the attempt numbered [attempt]: the response
    of [fetch], the draw of [Math.random()] and the value of [Date.now()]. *)
Record World := {
  fetch : Z -> Response;
  random : Z -> Q;
  dateNow : Z -> Z
}.

Inductive Outcome :=
| Returned (percent : Q)
| RateLimitError (retryAfterMs : option Z)
| ScanFailed (status : Z) (detail : string)
| UnexpectedShape.

(** The result of a run: the outcome, the waits slept through (oldest
    first) and the number of requests sent. *)
Record Run := {
  outcome : Outcome;
  sleeps : list Z;
  requests : nat
}.

(** [parseRetryAfterToMs]. *)
Definition parseRetryAfterToMs (now : Z) (retryAfter : option RetryAfter) : option Z :=
  match retryAfter with
  | None => None
  | Some h =>
      match asNumber h with
      | Some seconds =>
          if Qle_bool 0 seconds then Some (Math.round (seconds * 1000))
          else
            match asDate h with
            | Some asDate => Some (Z.max 0 (asDate - now))
            | None => None
            end
      | None =>
          match asDate h with
          | Some asDate => Some (Z.max 0 (asDate - now))
          | None => None
          end
      end
  end.

Definition MAX_ATTEMPTS : Z := 2.

(** [backoffMs] and [jitterMs] of an attempt. *)
Definition backoffMs (attempt : Z) : Z := Z.min 20000 (1200 * 2 ^ (attempt - 1)).
Definition jitterMs (w : World) (attempt : Z) : Z := Math.floor (random w attempt * 450).

(** [waitMs] of a rate-limited attempt. *)
Definition waitMs (w : World) (attempt : Z) : Z :=
  let res := fetch w attempt in
  let retryAfterMs := parseRetryAfterToMs (dateNow w attempt) (retryAfter res) in
  match retryAfterMs with
  | Some ms => if 0 <? ms then ms else backoffMs attempt + jitterMs w attempt
  | None => backoffMs attempt + jitterMs w attempt
  end.

(** The [for] loop, [fuel] bounding the attempts still to make. *)
Fixpoint attempts (fuel : nat) (w : World) (attempt : Z) (lastWaitMs : option Z)
    (slept : list Z) (sent : nat) : Run :=
  match fuel with
  | O => {| outcome := RateLimitError lastWaitMs; sleeps := slept; requests := sent |}
  | S fuel' =>
      let res := fetch w attempt in
      let sent := S sent in
      if status res =? 429 then
        let waitMs := waitMs w attempt in
        if attempt <? MAX_ATTEMPTS
        then attempts fuel' w (attempt + 1) (Some waitMs) (slept ++ [waitMs]) sent
        else {| outcome := RateLimitError (Some waitMs); sleeps := slept; requests := sent |}
      else if negb (ok res) then
        let detail :=
          match apiMessage res with
          | Some m => m
          | None => String.substring 0 220 (raw res)
          end in
        {| outcome := ScanFailed (status res) detail; sleeps := slept; requests := sent |}
      else
        match percent_full res, fill_fraction res with
        | Some p, _ =>
            {| outcome := Returned (clampQ p 0 100); sleeps := slept; requests := sent |}
        | None, Some f =>
            {| outcome := Returned (clampQ (f * 100) 0 100); sleeps := slept; requests := sent |}
        | None, None =>
            {| outcome := UnexpectedShape; sleeps := slept; requests := sent |}
        end
  end.

(** [estimatePercentFull]: attempts 1 to [MAX_ATTEMPTS]. *)
Definition estimatePercentFull (w : World) : Run :=
  attempts (Z.to_nat MAX_ATTEMPTS) w 1 None [] 0.

End Estimate.

(** ** Auxiliary definitions of the statements *)

(** The stored day is the day of [now] ([part_001], keyed by wake). *)
Definition sameDay (tz now : Z) (s : St.t) : Prop :=
  St.dayKey s = dayKeyByWake tz now (St.wakeMins s).


(** The state that a mutation works on after its day check: [ss]. *)
Definition dayChecked (tz now : Z) (s : St.t) : St.t :=
  let today := dayKeyByWake tz now (St.wakeMins s) in
  if negb (St.dayKey s =? today) then St.freshDay today s else s.

(** The state of [setRemaining] once the level is set and a finished bottle
    is advanced: its first two assignments to [nextState]. *)
Definition levelSet (nextRemaining : Q) (ss : St.t) : St.t :=
  let r := clampQ nextRemaining 0 1 in
  if Qle_bool r (1 # 10000)
  then advanceBottle (St.with_remaining r ss)
  else St.with_remaining r ss.

(** [u] has the consumption fields of [s], and the history of [s] up to the
    bound of 50 entries that a push enforces. *)
Definition consumptionRestored (s u : St.t) : Prop :=
  St.remaining u = St.remaining s
  /\ St.completedBottles u = St.completedBottles s
  /\ (St.carryML u == St.carryML s)%Q
  /\ (St.extraML u == St.extraML s)%Q
  /\ St.history u = sliceLast 49 (St.history s)
  /\ ((length (St.history s) < 50)%nat -> St.history u = St.history s).

(** Every day of the log of [u] reads the same window hit counts as in
    [s]. *)
Definition hitsRestored (s u : St.t) : Prop :=
  forall k : Z,
    readWindowHitCounts (St.dailyLog u !! k) = readWindowHitCounts (St.dailyLog s !! k).

(** Every day of the log of [u] reads the same window volumes as in [s]. *)
Definition volumesRestored (s u : St.t) : Prop :=
  forall k : Z,
    Forall2 Qeq (readWindowConsumedML (St.dailyLog u !! k))
                (readWindowConsumedML (St.dailyLog s !! k)).

(** The days other than [key] hold the same entry in [u] as in [s]. *)
Definition otherDaysKept (key : DayKey) (s u : St.t) : Prop :=
  forall k : Z, k <> key -> St.dailyLog u !! k = St.dailyLog s !! k.

(** A volume of whole millilitres, from 0 to below [2^52]: sums and
    differences of two such volumes are doubles, computed without
    rounding. *)
Definition wholeMl (m : Q) : bool :=
  Qeq_bool m (inject_Z (Qfloor m)) && Qle_bool 0 m
  && Qlt_bool m (inject_Z (2 ^ 52)).

(** The end-of-day snapshot that [resetToTodayIfNeeded] writes under the
    stored day key. *)
Definition snapshotOf (at_ : Z) (s : St.t) : Day.entry :=
  {| Day.consumedML := totalConsumedFromState s;
     Day.goalML := St.goalML s;
     Day.bottleML := St.bottleML s;
     Day.carryML := inject_Z (Math.round (orZero (St.carryML s)));
     Day.extraML := inject_Z (Math.round (orZero (St.extraML s)));
     Day.at_ := at_;
     Day.windowHitCounts := None;
     Day.windowHits := None;
     Day.windowConsumedML := None;
     Day.lastEventAt := None |}.

(** The loop that copies the kept keys of [nextLog] into [pruned]. *)
Definition copyKept (nextLog : gmap Z Day.entry) (keep : list Z) : gmap Z Day.entry :=
  foldl (fun (pruned : gmap Z Day.entry) k =>
           match nextLog !! k with
           | Some v => <[k := v]> pruned
           | None => pruned
           end) ∅ keep.

(** The window of [expectedPctAt]: its [start], its [end] after the
    next-day adjustment, the wrapped [now] of an instant, and the [progress]
    at a wrapped minute. *)
Definition pacingStart (wakeMins : Z) : Z := clamp wakeMins 0 1439.

Definition pacingEnd (wakeMins sleepMins : Z) : Z :=
  let start := pacingStart wakeMins in
  let end_ := clamp sleepMins 0 2879 in
  if end_ <=? start then end_ + 1440 else end_.

Definition pacingNow (tz d : Z) (wakeMins : Z) : Z :=
  let start := pacingStart wakeMins in
  let now := minutesSinceMidnight tz d in
  if now <? start then now + 1440 else now.

Definition pacingProgress (wakeMins sleepMins : Z) (now : Z) : Q :=
  let start := pacingStart wakeMins in
  let end_ := pacingEnd wakeMins sleepMins in
  let duration := clamp (end_ - start) (6 * 60) (20 * 60) in
  if 0 <? duration then (inject_Z (now - start) / inject_Z duration)%Q else 1%Q.

(** The pacing curve of [expectedPctAt] as a function of the progress. *)
Definition curve (p : Q) : Q := interpolate p (0, 0)%Q checkpoints.

(** The five segments of the curve, each in slope-intercept form. *)
Definition curveLinear (p : Q) : Q :=
  (if Qle_bool p (25 # 100) then (6 # 5) * p
   else if Qle_bool p (5 # 10) then p + (1 # 20)
   else if Qle_bool p (7 # 10) then p + (1 # 20)
   else if Qle_bool p (87 # 100) then (3 # 4) + (15 # 17) * (p - (7 # 10))
   else if Qle_bool p 1 then (9 # 10) + (10 # 13) * (p - (87 # 100))
   else 1)%Q.

(** ** Further functions of the engine *)

(** *** Input helpers *)





Inductive Meridiem := AM | PM.

Module Tp.
Record t := {
  h12 : Z;
  min : Z;
  ampm : Meridiem;
  dayOffset : Z
}.
End Tp.

(** [timeParts]. *)
Definition timeParts (mins : Z) : Tp.t :=
  let m := clamp mins 0 2879 in
  let dayOffset := if m >=? 1440 then 1 else 0 in
  let local := Z.rem m 1440 in
  let h24 := local / 60 in
  let min := Z.rem local 60 in
  let ampm := if h24 >=? 12 then PM else AM in
  let h12 := if Z.rem h24 12 =? 0 then 12 else Z.rem h24 12 in
  {| Tp.h12 := h12; Tp.min := min; Tp.ampm := ampm; Tp.dayOffset := dayOffset |}.

(** [toMinutes]. *)
Definition toMinutes (h12 min : Z) (ampm : Meridiem) : Z :=
  let h := clamp h12 1 12 in
  let m := clamp min 0 59 in
  let h24 := Z.rem h 12 + (match ampm with PM => 12 | AM => 0 end) in
  h24 * 60 + m.

(** [normalizeHourInput] and [normalizeMinuteInput]; the argument is
    [Number(rawValue)], [None] when that is not a finite number. *)
Definition normalizeHourInput (n : option Q) : Z :=
  match n with
  | None => 1
  | Some n =>
      let h := Math.round n in
      if h <=? 0 then 12 else if h >? 12 then 1 else h
  end.

Definition normalizeMinuteInput (n : option Q) : Z :=
  match n with
  | None => 0
  | Some n => clamp (Math.round n) 0 59
  end.

(** [hydrationWindowFromInputs]: [(startMins, endMins)].  [String] of a finite
    number reads back as that number. *)
Definition hydrationWindowFromInputs
    (wakeHour wakeMinute : Q) (wakeMeridiem : Meridiem)
    (sleepHour sleepMinute : Q) (sleepMeridiem : Meridiem) : Z * Z :=
  let wakeH := normalizeHourInput (Some wakeHour) in
  let wakeM := normalizeMinuteInput (Some wakeMinute) in
  let sleepH := normalizeHourInput (Some sleepHour) in
  let sleepM := normalizeMinuteInput (Some sleepMinute) in
  let startMins := toMinutes wakeH wakeM wakeMeridiem in
  let endMins := toMinutes sleepH sleepM sleepMeridiem in
  let endMins := if endMins <=? startMins then endMins + 1440 else endMins in
  (startMins, endMins).

(** *** Day boundary *)

(** [prevDayKeyByWake]: [setDate(getDate() - 1)] goes back one local day. *)
Definition prevDayKeyByWake (tz d : Z) (wakeMins : Z) : DayKey :=
  let boundary := wakeBoundaryMins wakeMins in
  let shifted := d - boundary * 60 * 1000 in
  let shifted := shifted - msPerDay in
  dayKey tz shifted.

(** [msUntilNextWake]: [setHours(0, 0, 0, 0)] gives the local midnight of
    [d] and [setMinutes(boundary, 0, 0)] adds the boundary to it. *)
Definition msUntilNextWake (tz d : Z) (wakeMins : Z) : Z :=
  let boundary := wakeBoundaryMins wakeMins in
  let next := (d + tz) / msPerDay * msPerDay - tz in
  let next := next + boundary * msPerMinute in
  let next := if d >=? next then next + msPerDay else next in
  Z.max 0 (next - d).

(** *** Bottle switch, refill and morning reset *)

(** A [Partial<AppState>] over the fields of the state that
    [switchBottleKeepingConsumed] does not overwrite itself. *)
Record Patch := {
  p_goalML : option Q;
  p_bottleML : option Q;
  p_wakeMins : option Z;
  p_sleepMins : option Z;
  p_dayKey : option Z;
  p_dailyLog : option (gmap Z Day.entry)
}.

(** [switchBottleKeepingConsumed(patch)], the state updater. *)
Definition switchBottleKeepingConsumed (patch : Patch) (s : St.t) : St.t :=
  let consumed := totalConsumedFromState s in
  {| St.goalML := default (St.goalML s) (p_goalML patch);
     St.bottleML := default (St.bottleML s) (p_bottleML patch);
     St.wakeMins := default (St.wakeMins s) (p_wakeMins patch);
     St.sleepMins := default (St.sleepMins s) (p_sleepMins patch);
     St.dayKey := default (St.dayKey s) (p_dayKey patch);
     St.completedBottles := 0;
     St.remaining := 1;
     St.carryML := consumed;
     St.extraML := 0;
     St.dailyLog := default (St.dailyLog s) (p_dailyLog patch);
     St.history := [];
     St.celebrate := None |}.

(** The state updater of [handleRefill], run after the pending level is
    committed. *)
Definition refillUpdater (s : St.t) : St.t :=
  let consumed := totalConsumedFromState s in
  let pct :=
    if Qlt_bool 0 (St.goalML s)
    then Math.round (consumed / St.goalML s * 100)
    else 0 in
  let completed :=
    clamp (St.completedBottles s) 0 (ceilDiv (St.goalML s) (St.bottleML s)) in
  let extra := clampQ (orZero (St.extraML s)) 0 100000 in
  let newCarry :=
    clamp (Math.round (consumed - inject_Z completed * St.bottleML s - extra)) 0 100000 in
  St.with_remaining 1
    (St.with_carryML (inject_Z newCarry)
       (St.with_celebrate
          (Some {| c_type := bottle; c_pct := clamp pct 0 100; c_consumedML := consumed |})
          s)).

(** [handleRefill] on the state: [commitScanToDailyProgress] tracks the
    pending level, then the updater runs. *)
Definition handleRefill (tz now eventAt : Z) (pendingRemaining : Q) (s : St.t) : St.t :=
  refillUpdater (setRemaining tz now eventAt pendingRemaining (Some "track"%string) s).

(** *** Pacing status *)

Inductive PacingStatus := ahead | behind.

(** [pacingToleranceMl] and [pacingStatus]. *)
Definition pacingToleranceMl (goalML : Q) : Q := Qmax (goalML * (5 # 100)) 150.

Definition pacingStatus (diffMl pacingToleranceMl : Q) : PacingStatus :=
  if Qlt_bool pacingToleranceMl diffMl then ahead
  else if Qlt_bool diffMl (- pacingToleranceMl) then behind
  else if Qle_bool 0 diffMl then ahead else behind.

(** *** Weekly score *)

(** [Number(x.toFixed(2))]: the nearest hundredth, halves away from zero. *)
Definition toFixed2 (x : Q) : Q :=
  if Qlt_bool x 0
  then (- (inject_Z (Qfloor (- x * 100 + (1 # 2))) / 100))%Q
  else (inject_Z (Qfloor (x * 100 + (1 # 2))) / 100)%Q.

Definition weights : list Z := [18; 16; 14; 12; 10].

(** One element of [days] in [computeDebloatEloBreakdown]: the spread score,
    the volume score and their sum for the entry of a day key. *)
Definition spreadScoreOf (day : option Day.entry) : Z :=
  let windowHitCounts := readWindowHitCounts day in
  let hits := map (fun count => 0 <? count) windowHitCounts in
  foldl (fun sum '(idx, hit) =>
           if hit : bool then sum + default 0 (weights !! idx) else sum)
        0 (imap pair hits).

Definition pctOfGoalOf (day : option Day.entry) : Q :=
  match day with
  | Some d =>
      if Qeq_bool (Day.goalML d) 0 then 0%Q
      else toFixed2 (orZero (Day.consumedML d) / Day.goalML d)
  | None => 0%Q
  end.

Definition volumeScoreOf (day : option Day.entry) : Z :=
  let pct := pctOfGoalOf day in
  if Qlt_bool pct (4 # 10) then 0
  else if Qlt_bool pct (6 # 10) then 10
  else if Qlt_bool pct (8 # 10) then 20
  else 30.

Definition dailyScoreOf (day : option Day.entry) : Z :=
  spreadScoreOf day + volumeScoreOf day.

(** [last7DayKeys]: [setDate(getDate() - (6 - i))] goes back whole days. *)
Definition last7DayKeys (tz now : Z) (wakeMins : Z) : list Z :=
  map (fun i : Z => dayKeyByWake tz (now - (6 - i) * msPerDay) wakeMins)
      [0; 1; 2; 3; 4; 5; 6].

(** [debloatElo] of [computeDebloatEloBreakdown]. *)
Definition debloatElo (tz now : Z) (s : St.t) : Z :=
  let days := map (fun k => dailyScoreOf (St.dailyLog s !! k))
                  (last7DayKeys tz now (St.wakeMins s)) in
  Math.round (inject_Z (foldl Z.add 0 days) / 7).

(** *** Notification window *)

(** [getWindowForSchedule]: [(wake, sleep)] as epoch milliseconds. *)
Definition getWindowForSchedule (tz now : Z) (wakeMins sleepMins : Z) : Z * Z :=
  let midnight := (now + tz) / msPerDay * msPerDay - tz in
  let wake := midnight + wakeMins / 60 * msPerHour + Z.rem wakeMins 60 * msPerMinute in
  let sleep :=
    midnight + Z.rem sleepMins 1440 / 60 * msPerHour
    + Z.rem sleepMins 60 * msPerMinute in
  let sleep := if sleepMins <=? wakeMins then sleep + msPerDay else sleep in
  if now >? sleep then (wake + msPerDay, sleep + msPerDay) else (wake, sleep).

(** [computeWindowProgress]. *)
Definition computeWindowProgress (now wake sleep : Z) : Q :=
  if now <=? wake then 0
  else if now >=? sleep then 1
  else
    let total := sleep - wake in
    if 0 <? total then clampQ (inject_Z (now - wake) / inject_Z total) 0 1 else 0.

(** *** The mutations of the earlier revision ([src/src/App.tsx]) *)

(** [setRemaining] of [src/src/App.tsx]. *)
Definition setRemaining_App (tz now eventAt : Z) (nextRemaining : Q)
    (action : option string) (s : St.t) : St.t :=
  let today := dayKeyBySleep tz now (St.sleepMins s) in
  let ss := if negb (St.dayKey s =? today) then St.freshDay today s else s in
  let prev := St.remaining ss in
  let prevCompleted := St.completedBottles ss in
  let prevCarry := orZero (St.carryML ss) in
  let prevExtra := orZero (St.extraML ss) in
  let r := clampQ nextRemaining 0 1 in
  let entry :=
    {| Hist.t := eventAt;
       Hist.prevRemaining := prev;
       Hist.prevCompleted := prevCompleted;
       Hist.prevCarry := prevCarry;
       Hist.prevExtra := prevExtra;
       Hist.action := action;
       Hist.ml := None;
       Hist.rhythmWindowIndex := None;
       Hist.rhythmDelta := None;
       Hist.rhythmMlDelta := None |} in
  let history := sliceLast 50 (St.history ss ++ [entry]) in
  let didEmptyBottle :=
    isTrack action && Qlt_bool (1 # 10000) prev && Qle_bool r (1 # 10000) in
  let nextState := St.with_history history (St.with_remaining r ss) in
  let nextState :=
    if Qle_bool r (1 # 10000)
    then St.with_history history (advanceBottle nextState)
    else nextState in
  let afterConsumed := totalConsumedFromState nextState in
  let pct :=
    if Qlt_bool 0 (St.goalML nextState)
    then Math.round (afterConsumed / St.goalML nextState * 100)
    else 0 in
  let hitGoal :=
    isTrack action && Qlt_bool 0 (St.goalML nextState)
    && Qle_bool (St.goalML nextState) afterConsumed in
  if isTrack action && (hitGoal || didEmptyBottle)
  then St.with_celebrate
         (Some {| c_type := if hitGoal then goal else bottle;
                  c_pct := clamp pct 0 100;
                  c_consumedML := afterConsumed |})
         nextState
  else nextState.

(** [undo] of [src/src/App.tsx]. *)
Definition undo_App (s : St.t) : St.t :=
  let h := St.history s in
  match last h with
  | None => s
  | Some last =>
      St.with_history (sliceInit h)
        (St.with_extraML (Hist.prevExtra last)
           (St.with_carryML (Hist.prevCarry last)
              (St.with_completedBottles (Hist.prevCompleted last)
                 (St.with_remaining (Hist.prevRemaining last) s))))
  end.

(** *** Praise notification *)

(** The notification that [maybeSendPraiseNotification] decides on: on pace,
    or ahead by [Math.round(deltaBottles * 10)] tenths of a bottle. *)
Inductive Praise := onPace | aheadBy (tenths : Z).

(** The component state that the guards read: the platform is native, the
    app was opened today, a praise was sent today, a behind nudge fired
    today. *)
Record PraiseFlags := {
  native : bool;
  openedToday : bool;
  praisedToday : bool;
  behindNudgeFiredToday : bool
}.

(** [maybeSendPraiseNotification] up to the permission request: the
    notification it goes on to schedule, [None] where it returns early. *)
Definition praiseNotification (tz now : Z) (fl : PraiseFlags)
    (actualConsumedMlOverride : option Q) (s : St.t) : option Praise :=
  if negb (native fl) then None
  else if Qle_bool (St.bottleML s) 0 then None
  else if negb (openedToday fl) then None
  else if praisedToday fl then None
  else if behindNudgeFiredToday fl then None
  else
    let '(wake, sleep) := getWindowForSchedule tz now (St.wakeMins s) (St.sleepMins s) in
    let windowProgress := computeWindowProgress now wake sleep in
    if Qlt_bool windowProgress (25 # 100) then None
    else
      let expectedBottlesNow :=
        (inject_Z (expectedMlAt tz (St.goalML s) now (St.wakeMins s) (St.sleepMins s))
         / St.bottleML s)%Q in
      let actualConsumedMl :=
        default (totalConsumedFromState s) actualConsumedMlOverride in
      let actualBottlesNow := (actualConsumedMl / St.bottleML s)%Q in
      let deltaBottles := (actualBottlesNow - expectedBottlesNow)%Q in
      if Qlt_bool deltaBottles 0 then None
      else
        let absDelta := Qabs deltaBottles in
        if Qle_bool absDelta (2 # 10) then Some onPace
        else if Qle_bool (3 # 10) deltaBottles
             then Some (aheadBy (Math.round (deltaBottles * 10)))
             else None.

(** *** Auxiliary notions for the statements *)

(** The total of [totalConsumedFromState] read on integers, for a goal of
    [g] ml and a bottle of [b] ml. *)
Definition totalZ (g b : Z) (s : St.t) : Z :=
  Z.min g
    (clamp (St.completedBottles s) 0 (ceilDiv (St.goalML s) (St.bottleML s)) * b
     + Math.round ((1 - St.remaining s) * St.bottleML s)
     + clamp (Math.round (orZero (St.carryML s))) 0 100000
     + clamp (Math.round (orZero (St.extraML s))) 0 100000).

(** A history entry without its rhythm fields, as the earlier revision
    writes it. *)
Definition stripRhythm (e : Hist.entry) : Hist.entry :=
  {| Hist.t := Hist.t e;
     Hist.prevRemaining := Hist.prevRemaining e;
     Hist.prevCompleted := Hist.prevCompleted e;
     Hist.prevCarry := Hist.prevCarry e;
     Hist.prevExtra := Hist.prevExtra e;
     Hist.action := Hist.action e;
     Hist.ml := Hist.ml e;
     Hist.rhythmWindowIndex := None;
     Hist.rhythmDelta := None;
     Hist.rhythmMlDelta := None |}.


(** * Properties *)

(** ** Arithmetic of the helpers *)

Lemma clamp_range (n a b : Z) : a <= b -> a <= clamp n a b <= b.
Proof. unfold clamp. lia. Qed.

Lemma clamp_lower (n a b : Z) : a <= clamp n a b.
Proof. unfold clamp. lia. Qed.

Lemma clamp_id (n a b : Z) : a <= n <= b -> clamp n a b = n.
Proof. unfold clamp. lia. Qed.

Lemma orZero_eq (x : Q) : (orZero x == x)%Q.
Proof.
  unfold orZero. destruct (Qeq_bool x 0) eqn:E; [|reflexivity].
  apply Qeq_bool_iff in E. now rewrite E.
Qed.

Lemma round_orZero (x : Q) : Math.round (orZero x) = Math.round x.
Proof. unfold Math.round. now rewrite orZero_eq. Qed.

Lemma round_nonneg (x : Q) : (0 <= x)%Q -> 0 <= Math.round x.
Proof.
  intros Hx. unfold Math.round.
  change 0 with (Qfloor 0). apply Qfloor_resp_le. lra.
Qed.

Lemma ceilDiv_pos (a b : Q) : (0 < b)%Q -> ceilDiv a b = Math.ceil (a / b).
Proof.
  intros Hb. unfold ceilDiv. destruct (Qle_bool b 0) eqn:E; [|reflexivity].
  apply Qle_bool_iff in E. lra.
Qed.

Lemma inject_Z_nonneg (z : Z) : 0 <= z -> (0 <= inject_Z z)%Q.
Proof. intros H. change 0%Q with (inject_Z 0). now rewrite <- Zle_Qle. Qed.

Lemma Qle_bool_false (x y : Q) : Qle_bool x y = false -> (y < x)%Q.
Proof.
  intros E. apply Qnot_le_lt. intros H. apply Qle_bool_iff in H. congruence.
Qed.

(** ** Whole numbers are doubles *)

Lemma pow2_pos (e : Z) : (0 < pow2 e)%Q.
Proof.
  unfold pow2. destruct (Z.leb_spec 0 e).
  - change 0%Q with (inject_Z 0). rewrite <- Zlt_Qlt. apply Z.pow_pos_nonneg; lia.
  - assert (0 < inject_Z (2 ^ (- e)))%Q
      by (change 0%Q with (inject_Z 0); rewrite <- Zlt_Qlt; apply Z.pow_pos_nonneg; lia).
    apply Qlt_shift_div_l; [assumption|]. lra.
Qed.

Lemma pow2_nonpos (e : Z) : e <= 0 -> (pow2 e * inject_Z (2 ^ (- e)) == 1)%Q.
Proof.
  intros He. unfold pow2. destruct (Z.leb_spec 0 e).
  - assert (e = 0) as -> by lia. reflexivity.
  - assert (0 < inject_Z (2 ^ (- e)))%Q
      by (change 0%Q with (inject_Z 0); rewrite <- Zlt_Qlt; apply Z.pow_pos_nonneg; lia).
    field. lra.
Qed.

Lemma roundHalfEven_whole (x : Q) (n : Z) : (x == inject_Z n)%Q -> roundHalfEven x = n.
Proof.
  intros Hx. unfold roundHalfEven.
  assert (Qfloor x = n) as -> by (rewrite Hx; apply Qfloor_Z).
  assert ((x - inject_Z n ?= 1 # 2)%Q = Lt) as ->; [|reflexivity].
  rewrite <- Qlt_alt. lra.
Qed.

Lemma Qred_inject_Z (z : Z) : Qred (inject_Z z) = inject_Z z.
Proof.
  unfold Qred, inject_Z.
  pose proof (Z.ggcd_gcd z 1) as Hg. pose proof (Z.ggcd_correct_divisors z 1) as Hd.
  destruct (Z.ggcd z 1) as [g [aa bb]]. cbn [fst snd] in *.
  rewrite Z.gcd_1_r in Hg. subst g. destruct Hd as [-> Hb].
  assert (bb = 1) as -> by lia. f_equal. lia.
Qed.

Lemma toDouble_whole (x : Q) (z : Z) :
  (x == inject_Z z)%Q -> Z.abs z < 2 ^ 53 -> (toDouble x == inject_Z z)%Q.
Proof.
  intros Hx Hz. unfold toDouble.
  assert (Qred x = inject_Z z) as ->.
  { rewrite (Qred_complete _ _ Hx). apply Qred_inject_Z. }
  cbv zeta.
  destruct (Qeq_bool (inject_Z z) 0) eqn:E0.
  { apply Qeq_bool_iff in E0. now rewrite E0. }
  assert (z <> 0) as Hnz.
  { intros ->. discriminate E0. }
  change (Qabs (inject_Z z)) with (inject_Z (Z.abs z)).
  cbn [Qnum Qden inject_Z]. change (Z.log2 1) with 0. rewrite Z.sub_0_r.
  set (L := Z.log2 (Z.abs z)).
  assert (0 <= L < 53) as HL.
  { subst L. split; [apply Z.log2_nonneg|]. apply Z.log2_lt_pow2; lia. }
  assert (2 ^ L <= Z.abs z) as Hlo.
  { subst L. apply Z.log2_spec. lia. }
  assert (Qlt_bool (inject_Z (Z.abs z)) (pow2 L) = false) as ->.
  { unfold Qlt_bool. apply negb_false_iff. apply Qle_bool_iff.
    unfold pow2. destruct (Z.leb_spec 0 L); [|lia]. now rewrite <- Zle_Qle. }
  rewrite Z.max_l by lia.
  fold (inject_Z (Z.abs z)).
  pose proof (pow2_pos (L - 52)) as Hp.
  pose proof (pow2_nonpos (L - 52) ltac:(lia)) as Hq.
  set (u := pow2 (L - 52)) in *.
  set (c := 2 ^ (- (L - 52))) in *.
  assert (inject_Z (Z.abs z) / u == inject_Z (Z.abs z * c))%Q as Hdiv.
  { rewrite inject_Z_mult.
    assert (inject_Z (Z.abs z) / u
            == inject_Z (Z.abs z) * (u * inject_Z c) / u)%Q as ->
      by (rewrite Hq; field; lra).
    field. lra. }
  rewrite (roundHalfEven_whole _ _ Hdiv).
  assert (inject_Z (Z.abs z * c) * u == inject_Z (Z.abs z))%Q as Hback.
  { rewrite inject_Z_mult, <- Qmult_assoc, (Qmult_comm (inject_Z c)), Hq. ring. }
  unfold Qlt_bool.
  destruct (Qle_bool 0 (inject_Z z)) eqn:Es; cbn [negb].
  - apply Qle_bool_iff in Es. change 0%Q with (inject_Z 0) in Es.
    rewrite <- Zle_Qle in Es. rewrite Hback, Z.abs_eq by lia. reflexivity.
  - apply Qle_bool_false in Es. change 0%Q with (inject_Z 0) in Es.
    rewrite <- Zlt_Qlt in Es. rewrite Hback, Z.abs_neq by lia.
    rewrite inject_Z_opp. ring.
Qed.

Lemma Qmin_inject_Z (a b : Z) : (Qmin (inject_Z a) (inject_Z b) == inject_Z (Z.min a b))%Q.
Proof.
  destruct (Z.le_ge_cases a b) as [H|H].
  - rewrite Z.min_l by exact H. apply Q.min_l. now rewrite <- Zle_Qle.
  - rewrite Z.min_r by exact H. apply Q.min_r. now rewrite <- Zle_Qle.
Qed.

Lemma Qmax_inject_Z (a b : Z) : (Qmax (inject_Z a) (inject_Z b) == inject_Z (Z.max a b))%Q.
Proof.
  destruct (Z.le_ge_cases a b) as [H|H].
  - rewrite Z.max_r by exact H. apply Q.max_r. now rewrite <- Zle_Qle.
  - rewrite Z.max_l by exact H. apply Q.max_l. now rewrite <- Zle_Qle.
Qed.

Lemma wholeMl_spec (m : Q) :
  wholeMl m = true -> exists z, (m == inject_Z z)%Q /\ 0 <= z < 2 ^ 52.
Proof.
  unfold wholeMl, Qlt_bool. intros H.
  apply andb_true_iff in H as [H H3]. apply andb_true_iff in H as [H1 H2].
  apply Qeq_bool_iff in H1. apply Qle_bool_iff in H2.
  apply negb_true_iff, Qle_bool_false in H3.
  exists (Qfloor m). split; [exact H1|].
  rewrite H1 in H2, H3. change 0%Q with (inject_Z 0) in H2.
  rewrite <- Zle_Qle in H2. rewrite <- Zlt_Qlt in H3. lia.
Qed.

Lemma wholeMl_intro (m : Q) (z : Z) :
  (m == inject_Z z)%Q -> 0 <= z < 2 ^ 52 -> wholeMl m = true.
Proof.
  intros Hm Hz. unfold wholeMl, Qlt_bool.
  assert (Qfloor m = z) as -> by (rewrite Hm; apply Qfloor_Z).
  apply andb_true_iff. split; [apply andb_true_iff; split|].
  - apply Qeq_bool_iff. exact Hm.
  - apply Qle_bool_iff. rewrite Hm. apply inject_Z_nonneg. lia.
  - apply negb_true_iff. destruct (Qle_bool (inject_Z (2 ^ 52)) m) eqn:E; [|reflexivity].
    apply Qle_bool_iff in E. rewrite Hm, <- Zle_Qle in E. lia.
Qed.

(** The volume of an event between two whole totals is whole. *)
Lemma wholeMl_diff (a b : Q) :
  wholeMl a = true -> wholeMl b = true -> wholeMl (Qmax 0 (b - a)) = true.
Proof.
  intros Ha Hb.
  apply wholeMl_spec in Ha as (za & Ea & Hza).
  apply wholeMl_spec in Hb as (zb & Eb & Hzb).
  apply (wholeMl_intro _ (Z.max 0 (zb - za))); [|lia].
  assert (b - a == inject_Z (zb - za))%Q as ->
    by (rewrite Ea, Eb; unfold Z.sub; rewrite inject_Z_plus, inject_Z_opp; ring).
  change 0%Q with (inject_Z 0). rewrite Qmax_inject_Z. reflexivity.
Qed.

(** Adding a whole volume to a whole volume and taking it off again gives
    the volume back: no rounding happens. *)
Lemma whole_volume_roundtrip (a d : Q) :
  wholeMl a = true -> wholeMl d = true ->
  (Qmax 0 (fsub (Qmax 0 (fadd a d)) d) == a)%Q.
Proof.
  intros Ha Hd.
  apply wholeMl_spec in Ha as (za & Ea & Hza).
  apply wholeMl_spec in Hd as (zd & Ed & Hzd).
  assert (2 ^ 53 = 2 * 2 ^ 52) as P by reflexivity.
  assert (fadd a d == inject_Z (za + zd))%Q as Hadd.
  { unfold fadd. apply toDouble_whole; [rewrite Ea, Ed, inject_Z_plus; reflexivity | lia]. }
  assert (0 <= inject_Z (za + zd))%Q as Hnn by (apply inject_Z_nonneg; lia).
  assert (Qmax 0 (fadd a d) == inject_Z (za + zd))%Q as Hv
    by (rewrite Hadd; apply Q.max_r; exact Hnn).
  assert (fsub (Qmax 0 (fadd a d)) d == inject_Z za)%Q as Hsub.
  { unfold fsub. apply toDouble_whole; [|lia].
    rewrite Hv, Ed, inject_Z_plus. ring. }
  rewrite Hsub, Ea. apply Q.max_r. apply inject_Z_nonneg. lia.
Qed.

(** ** Total consumed *)

(** C1. With a positive goal and bottle size and a fill fraction in [0,1],
    the derived total is the minimum of the goal and the sum of the capped
    completed bottles, the rounded part of the current bottle, the clamped
    carry and the clamped extra; it lies between 0 and the goal. *)
Theorem totalConsumed_formula_and_bounds (s : St.t) :
  (0 < St.goalML s)%Q -> (0 < St.bottleML s)%Q ->
  (0 <= St.remaining s <= 1)%Q ->
  totalConsumedFromState s =
    Qmin (St.goalML s)
      (inject_Z (clamp (St.completedBottles s) 0
                   (Math.ceil (St.goalML s / St.bottleML s))) * St.bottleML s
       + inject_Z (Math.round ((1 - St.remaining s) * St.bottleML s))
       + inject_Z (clamp (Math.round (St.carryML s)) 0 100000)
       + inject_Z (clamp (Math.round (St.extraML s)) 0 100000))%Q
  /\ (0 <= totalConsumedFromState s <= St.goalML s)%Q.
Proof.
  intros Hg Hb [Hr0 Hr1].
  unfold totalConsumedFromState.
  rewrite (ceilDiv_pos _ _ Hb), !round_orZero.
  split; [reflexivity|]. split.
  - apply Q.min_glb; [lra|].
    pose proof (inject_Z_nonneg _ (clamp_lower (St.completedBottles s) 0
                   (Math.ceil (St.goalML s / St.bottleML s)))) as Hc.
    pose proof (inject_Z_nonneg _ (clamp_lower (Math.round (St.carryML s)) 0 100000)) as Hcarry.
    pose proof (inject_Z_nonneg _ (clamp_lower (Math.round (St.extraML s)) 0 100000)) as Hextra.
    assert (0 <= (1 - St.remaining s) * St.bottleML s)%Q as Hcur.
    { apply Qmult_le_0_compat; lra. }
    pose proof (inject_Z_nonneg _ (round_nonneg _ Hcur)) as Hround.
    pose proof (Qmult_le_0_compat _ _ Hc (Qlt_le_weak _ _ Hb)).
    lra.
  - apply Q.le_min_l.
Qed.

Lemma totalConsumed_formula_and_bounds_witness :
  let s := {| St.goalML := 2000; St.bottleML := 500; St.wakeMins := 480;
              St.sleepMins := 1320; St.dayKey := 0; St.completedBottles := 2;
              St.remaining := 1 # 2; St.carryML := 30; St.extraML := 250;
              St.dailyLog := ∅; St.history := []; St.celebrate := None |} in
  (0 <= totalConsumedFromState s <= St.goalML s)%Q.
Proof.
  intros s.
  apply (totalConsumed_formula_and_bounds s); vm_compute; intuition discriminate.
Defined.

(** ** Day keys: wake boundary against sleep boundary *)

Lemma boundary_range (m : Z) : 0 <= wakeBoundaryMins m < 1440.
Proof.
  unfold wakeBoundaryMins.
  pose proof (Z.rem_bound_abs m 1440 ltac:(lia)) as Hb.
  assert (-1440 < Z.rem m 1440 < 1440) as Hr by lia.
  assert (0 <= Z.rem m 1440 + 1440) as Hnn by lia.
  pose proof (Z.rem_bound_pos (Z.rem m 1440 + 1440) 1440 Hnn ltac:(lia)).
  lia.
Qed.

Lemma dayKey_shift_split (tz a b : Z) :
  0 <= a < b -> b < 1440 ->
  dayKey tz (b * 60 * 1000 - 1 - tz - a * 60 * 1000) = 0 /\
  dayKey tz (b * 60 * 1000 - 1 - tz - b * 60 * 1000) = -1.
Proof.
  intros Ha Hb. unfold dayKey, msPerDay, msPerHour, msPerMinute. split.
  - apply Z.div_small. lia.
  - replace (b * 60 * 1000 - 1 - tz - b * 60 * 1000 + tz) with (-1) by lia.
    reflexivity.
Qed.

Lemma div_interval (a D k : Z) : 0 < D -> k * D <= a < (k + 1) * D -> a / D = k.
Proof.
  intros HD H. symmetry. apply (Z.div_unique a D k (a - k * D)); lia.
Qed.

Lemma dayKey_interval (tz d k : Z) :
  dayKey tz d = k <-> k * msPerDay - tz <= d < (k + 1) * msPerDay - tz.
Proof.
  unfold dayKey. assert (0 < msPerDay) as HD by reflexivity. split.
  - intros <-.
    pose proof (Z.div_mod (d + tz) msPerDay ltac:(lia)) as E.
    pose proof (Z.mod_pos_bound (d + tz) msPerDay HD). lia.
  - intros H. apply div_interval; lia.
Qed.

Lemma wakeBoundaryMins_mod (m : Z) : wakeBoundaryMins m = m mod 1440.
Proof. unfold wakeBoundaryMins. Z.to_euclidean_division_equations. lia. Qed.

(** C4. The later revision starts the day at the wake minute of the day and
    the earlier one at the sleep minute: an instant has the key [k] by wake
    exactly when its local time lies in the 24 hours that start
    [wakeMins mod 1440] minutes after the midnight of day [k], and the key
    [k] by sleep exactly when it lies in the 24 hours that start
    [sleepMins mod 1440] minutes after that midnight.  Whenever the two
    minutes of the day differ, some instant gets different day keys from
    the two revisions. *)
Theorem dayKey_wake_sleep_differ (tz wakeMins sleepMins : Z) :
  wakeMins mod 1440 <> sleepMins mod 1440 ->
  (forall d k,
     dayKeyByWake tz d wakeMins = k <->
     k * 86400000 + (wakeMins mod 1440) * 60000 <= d + tz
       < (k + 1) * 86400000 + (wakeMins mod 1440) * 60000)
  /\ (forall d k,
        dayKeyBySleep tz d sleepMins = k <->
        k * 86400000 + (sleepMins mod 1440) * 60000 <= d + tz
          < (k + 1) * 86400000 + (sleepMins mod 1440) * 60000)
  /\ exists d : Z, dayKeyByWake tz d wakeMins <> dayKeyBySleep tz d sleepMins.
Proof.
  intros Hne.
  assert (sleepBoundaryMins sleepMins = sleepMins mod 1440) as Es
    by apply (wakeBoundaryMins_mod sleepMins).
  pose proof (wakeBoundaryMins_mod wakeMins) as Ew.
  split; [|split].
  - intros d k. unfold dayKeyByWake. cbv zeta. rewrite Ew, dayKey_interval.
    change msPerDay with 86400000. lia.
  - intros d k. unfold dayKeyBySleep. cbv zeta. rewrite Es, dayKey_interval.
    change msPerDay with 86400000. lia.
  - pose proof (boundary_range wakeMins) as Hw.
    pose proof (boundary_range sleepMins) as Hs.
    change (wakeBoundaryMins sleepMins) with (sleepBoundaryMins sleepMins) in Hs.
    unfold dayKeyByWake, dayKeyBySleep.
    rewrite <- Ew, <- Es in Hne.
    set (w := wakeBoundaryMins wakeMins) in *.
    set (s := sleepBoundaryMins sleepMins) in *.
    destruct (Z.lt_ge_cases w s) as [Hlt | Hge].
    + exists (s * 60 * 1000 - 1 - tz).
      destruct (dayKey_shift_split tz w s) as [E1 E2]; [lia | lia |].
      rewrite E1, E2. lia.
    + assert (s < w) as Hlt by lia.
      exists (w * 60 * 1000 - 1 - tz).
      destruct (dayKey_shift_split tz s w) as [E1 E2]; [lia | lia |].
      rewrite E1, E2. lia.
Qed.

Lemma dayKey_wake_sleep_differ_witness :
  480 mod 1440 <> 1320 mod 1440
  /\ (forall d k,
        dayKeyByWake 0 d 480 = k <->
        k * 86400000 + (480 mod 1440) * 60000 <= d + 0
          < (k + 1) * 86400000 + (480 mod 1440) * 60000)
  /\ exists d : Z, dayKeyByWake 0 d 480 <> dayKeyBySleep 0 d 1320.
Proof.
  assert (480 mod 1440 <> 1320 mod 1440) as Hne by (vm_compute; discriminate).
  split; [exact Hne|].
  split; [exact (proj1 (dayKey_wake_sleep_differ 0 480 1320 Hne))
         |exact (proj2 (proj2 (dayKey_wake_sleep_differ 0 480 1320 Hne)))].
Defined.

(** ** Pacing curve *)

Ltac qbools :=
  repeat match goal with
  | H : Qle_bool _ _ = true |- _ => apply Qle_bool_iff in H
  | H : Qle_bool _ _ = false |- _ => apply Qle_bool_false in H
  end.

Lemma curve_linear (p : Q) : (curve p == curveLinear p)%Q.
Proof.
  unfold curve, curveLinear, checkpoints, interpolate.
  repeat match goal with
  | |- context [Qle_bool p ?b] => destruct (Qle_bool p b) eqn:?
  end; cbn [fst snd];
  try match goal with
  | |- context [Qeq_bool ?a 0] =>
      let b := eval vm_compute in (Qeq_bool a 0) in
      change (Qeq_bool a 0) with b
  end; cbv iota; try field; try reflexivity.
Qed.

Lemma curveLinear_mono (p q : Q) : (p <= q)%Q -> (curveLinear p <= curveLinear q)%Q.
Proof.
  intros Hpq. unfold curveLinear.
  repeat match goal with
  | |- context [Qle_bool ?a ?b] => destruct (Qle_bool a b) eqn:?
  end; qbools; lra.
Qed.

Lemma curveLinear_range (p : Q) : (0 < p)%Q -> (0 < curveLinear p <= 1)%Q.
Proof.
  intros Hp. unfold curveLinear.
  repeat match goal with
  | |- context [Qle_bool ?a ?b] => destruct (Qle_bool a b) eqn:?
  end; qbools; lra.
Qed.

(** ** Expected fraction *)

Lemma pacingStart_range (w : Z) : 0 <= pacingStart w <= 1439.
Proof. unfold pacingStart. apply clamp_range. lia. Qed.

Lemma pacingEnd_after_start (w s : Z) : pacingStart w < pacingEnd w s.
Proof.
  pose proof (pacingStart_range w) as Hs.
  unfold pacingEnd.
  pose proof (clamp_range s 0 2879 ltac:(lia)) as He.
  destruct (Z.leb_spec (clamp s 0 2879) (pacingStart w)); lia.
Qed.

Lemma minutesSinceMidnight_range (tz d : Z) : 0 <= minutesSinceMidnight tz d < 1440.
Proof. unfold minutesSinceMidnight. apply Z.mod_pos_bound. lia. Qed.

Lemma pacingNow_cases (tz d w : Z) :
  (minutesSinceMidnight tz d < pacingStart w
   /\ pacingNow tz d w = minutesSinceMidnight tz d + 1440)
  \/ (pacingStart w <= minutesSinceMidnight tz d
      /\ pacingNow tz d w = minutesSinceMidnight tz d).
Proof.
  unfold pacingNow.
  destruct (Z.ltb_spec (minutesSinceMidnight tz d) (pacingStart w)); [left|right]; lia.
Qed.

Lemma pacingNow_ge_start (tz d w : Z) : pacingStart w <= pacingNow tz d w.
Proof.
  pose proof (pacingStart_range w). pose proof (minutesSinceMidnight_range tz d).
  destruct (pacingNow_cases tz d w) as [[? ->]|[? ->]]; lia.
Qed.

Lemma pacingNow_eq_start (tz d w : Z) :
  pacingNow tz d w = pacingStart w <-> minutesSinceMidnight tz d = pacingStart w.
Proof.
  pose proof (pacingStart_range w). pose proof (minutesSinceMidnight_range tz d).
  destruct (pacingNow_cases tz d w) as [[? ->]|[? ->]]; lia.
Qed.

(** The progress through the window at the wrapped minute [now]. *)
Lemma pacingProgress_pos (w s now : Z) :
  pacingStart w < now ->
  (0 < pacingProgress w s now)%Q.
Proof.
  intros Hn. unfold pacingProgress.
  pose proof (clamp_range (pacingEnd w s - pacingStart w) (6 * 60) (20 * 60) ltac:(lia)) as Hd.
  set (duration := clamp _ _ _) in *.
  destruct (Z.ltb_spec 0 duration); [|lia].
  apply Qlt_shift_div_l.
  - change 0%Q with (inject_Z 0). rewrite <- Zlt_Qlt. lia.
  - rewrite Qmult_0_l. change 0%Q with (inject_Z 0). rewrite <- Zlt_Qlt. lia.
Qed.

Lemma pacingProgress_mono (w s n1 n2 : Z) :
  n1 <= n2 -> (pacingProgress w s n1 <= pacingProgress w s n2)%Q.
Proof.
  intros Hn. unfold pacingProgress.
  pose proof (clamp_range (pacingEnd w s - pacingStart w) (6 * 60) (20 * 60) ltac:(lia)) as Hd.
  set (duration := clamp _ _ _) in *.
  destruct (Z.ltb_spec 0 duration); [|lia].
  unfold Qdiv. apply Qmult_le_compat_r.
  - rewrite <- Zle_Qle. lia.
  - apply Qinv_le_0_compat. change 0%Q with (inject_Z 0). rewrite <- Zle_Qle. lia.
Qed.

Lemma expectedPctAt_cases (tz d w s : Z) :
  let now := pacingNow tz d w in
  (now = pacingStart w /\ expectedPctAt tz d w s = 0%Q)
  \/ (pacingStart w < now /\ pacingEnd w s <= now /\ expectedPctAt tz d w s = 1%Q)
  \/ (pacingStart w < now < pacingEnd w s
      /\ expectedPctAt tz d w s = curve (pacingProgress w s now)).
Proof.
  intros now. pose proof (pacingNow_ge_start tz d w) as Hge. fold now in Hge.
  change (expectedPctAt tz d w s) with
    (if now <=? pacingStart w then 0%Q
     else if now >=? pacingEnd w s then 1%Q
     else curve (pacingProgress w s now)).
  destruct (Z.leb_spec now (pacingStart w)); [left; split; [lia|reflexivity]|].
  right. destruct (Z.geb_spec now (pacingEnd w s)); [left|right].
  - repeat split; [lia|lia].
  - split; [lia|reflexivity].
Qed.

Lemma expectedPctAt_range (tz d w s : Z) : (0 <= expectedPctAt tz d w s <= 1)%Q.
Proof.
  destruct (expectedPctAt_cases tz d w s) as [[_ ->]|[(_ & _ & ->)|([Hn _] & ->)]];
    [lra | lra |].
  rewrite curve_linear.
  pose proof (curveLinear_range _ (pacingProgress_pos w s _ Hn)). lra.
Qed.

(** C5, as the code has it.  For every wake/sleep configuration the expected
    fraction lies in [0,1], does not decrease as the wrapped minute (the
    elapsed time since wake) grows, and is 1 from the sleep minute on.  It is
    0 exactly at the wake minute: a minute of the day before wake is counted
    as 1440 minutes later, past the wake minute, and gets a positive
    fraction. *)
Theorem expectedPctAt_shape (tz w s : Z) :
  (forall d, (0 <= expectedPctAt tz d w s <= 1)%Q)
  /\ (forall d1 d2,
        pacingNow tz d1 w - pacingStart w <= pacingNow tz d2 w - pacingStart w ->
        (expectedPctAt tz d1 w s <= expectedPctAt tz d2 w s)%Q)
  /\ (forall d, pacingEnd w s <= pacingNow tz d w -> expectedPctAt tz d w s = 1%Q)
  /\ (forall d, (expectedPctAt tz d w s == 0)%Q <->
                minutesSinceMidnight tz d = pacingStart w)
  /\ (forall d, minutesSinceMidnight tz d < pacingStart w ->
                pacingNow tz d w = minutesSinceMidnight tz d + 1440
                /\ (0 < expectedPctAt tz d w s)%Q).
Proof.
  assert (forall d, (expectedPctAt tz d w s == 0)%Q <->
                    minutesSinceMidnight tz d = pacingStart w) as Hzero.
  { intros d. rewrite <- pacingNow_eq_start.
    destruct (expectedPctAt_cases tz d w s) as [[E ->]|[(Hn & _ & ->)|([Hn _] & ->)]].
    - split; [intros _; exact E | reflexivity].
    - split; [intros H; discriminate H | lia].
    - rewrite curve_linear.
      pose proof (curveLinear_range _ (pacingProgress_pos w s _ Hn)).
      split; [intros H0; lra | lia]. }
  split; [intros d; apply expectedPctAt_range|]. split; [|split; [|split; [exact Hzero|]]].
  - intros d1 d2 Hle.
    pose proof (expectedPctAt_range tz d2 w s) as R2.
    pose proof (expectedPctAt_range tz d1 w s) as R1.
    destruct (expectedPctAt_cases tz d1 w s) as [[_ E1]|[(Hn1 & He1 & E1)|([Hn1 He1] & E1)]].
    + rewrite E1. lra.
    + destruct (expectedPctAt_cases tz d2 w s) as [[? _]|[(_ & _ & E2)|([_ ?] & _)]];
        [lia | rewrite E1, E2; lra | lia].
    + destruct (expectedPctAt_cases tz d2 w s) as [[? _]|[(_ & _ & E2)|([_ ?] & E2)]];
        [lia | rewrite E2; lra |].
      rewrite E1, E2, !curve_linear.
      apply curveLinear_mono, pacingProgress_mono. lia.
  - intros d He. pose proof (pacingEnd_after_start w s).
    destruct (expectedPctAt_cases tz d w s) as [[? _]|[(_ & _ & E)|([_ ?] & _)]];
      [lia | exact E | lia].
  - intros d Hlt.
    destruct (pacingNow_cases tz d w) as [[_ E]|[? _]]; [|lia].
    split; [exact E|].
    pose proof (expectedPctAt_range tz d w s) as R.
    destruct (Qle_lt_or_eq _ _ (proj1 R)) as [Hpos|Heq]; [exact Hpos|].
    symmetry in Heq. apply Hzero in Heq. lia.
Qed.

(** C5, counterexample: with wake at 08:00 and sleep at 22:00, the instant
    07:00 is before the wake time and the expected fraction there is 1. *)
Lemma expectedPctAt_before_wake_not_zero :
  minutesSinceMidnight 0 (420 * 60000) < pacingStart 480
  /\ expectedPctAt 0 (420 * 60000) 480 1320 = 1%Q
  /\ ~ (expectedPctAt 0 (420 * 60000) 480 1320 == 0)%Q.
Proof. vm_compute. repeat split; discriminate. Qed.

(** ** Expected volume, the 12:30 scenario *)

(** C6, as the code has it.  With wake 480, sleep 1320 and a goal of 2000 ml,
    at 12:30 the progress is 270/840, between the 25% and 50% checkpoints;
    the interpolation between them gives 13/35 (about 37.1%) of the goal,
    which rounds to 743 ml. *)
Theorem expectedMl_scenario (tz d : Z) :
  minutesSinceMidnight tz d = 750 ->
  (pacingProgress 480 1320 (pacingNow tz d 480) == 270 # 840)%Q
  /\ ((25 # 100) < (270 # 840) <= (5 # 10))%Q
  /\ (expectedPctAt tz d 480 1320
      == (3 # 10) + ((55 # 100) - (3 # 10))
                    * (((270 # 840) - (25 # 100)) / ((5 # 10) - (25 # 100))))%Q
  /\ (expectedPctAt tz d 480 1320 == 13 # 35)%Q
  /\ expectedMlAt tz 2000 d 480 1320 = 743.
Proof.
  intros H.
  unfold expectedMlAt, expectedPctAt, pacingNow. rewrite H.
  vm_compute. repeat split; congruence.
Qed.

Lemma expectedMl_scenario_witness :
  minutesSinceMidnight 0 (750 * 60000) = 750
  /\ expectedMlAt 0 2000 (750 * 60000) 480 1320 = 743.
Proof.
  split; [reflexivity|].
  apply (expectedMl_scenario 0 (750 * 60000)). reflexivity.
Defined.

(** C6, counterexample: at 12:30 the expected fraction is above 37%, not
    about 31.3%, and the expected volume is 743 ml, not about 626 ml. *)
Lemma scenario_1230_is_743_not_626 :
  minutesSinceMidnight 0 (750 * 60000) = 750
  /\ ((37 # 100) < expectedPctAt 0 (750 * 60000) 480 1320)%Q
  /\ expectedMlAt 0 2000 (750 * 60000) 480 1320 = 743
  /\ ~ (621 <= expectedMlAt 0 2000 (750 * 60000) 480 1320 <= 631).
Proof. vm_compute. repeat split; try congruence. intros [_ H]. apply H. reflexivity. Qed.

(** ** Rhythm windows *)

Lemma rhythmIndex_range (tz atMs key wake sleep : Z) :
  0 <= getRhythmWindowIndexForDayKey tz atMs key wake sleep <= 4.
Proof.
  unfold getRhythmWindowIndexForDayKey.
  destruct (getHydrationWindowBoundsForDayKey tz key wake sleep) as [start end_].
  destruct (end_ - start <=? 0); [lia|].
  destruct (atMs >=? end_); lia.
Qed.

Lemma segment_quotient_ge5 (a total : Z) :
  0 < total -> total <= a ->
  (5 <= inject_Z a / (inject_Z total / 5))%Q.
Proof.
  intros Ht Ha.
  assert (0 < inject_Z total)%Q as Hq
    by (change 0%Q with (inject_Z 0); rewrite <- Zlt_Qlt; lia).
  apply Qle_shift_div_l.
  - apply Qlt_shift_div_l; lra.
  - rewrite Zle_Qle in Ha. field_simplify. lra.
Qed.

Lemma segment_quotient_neg (a total : Z) :
  0 < total -> a < 0 ->
  (inject_Z a / (inject_Z total / 5) < 0)%Q.
Proof.
  intros Ht Ha.
  assert (0 < inject_Z total)%Q as Hq
    by (change 0%Q with (inject_Z 0); rewrite <- Zlt_Qlt; lia).
  apply Qlt_shift_div_r.
  - apply Qlt_shift_div_l; lra.
  - rewrite Zlt_Qlt in Ha. change (inject_Z 0) with 0%Q in Ha. lra.
Qed.

Lemma floor_ge (z : Z) (x : Q) : (inject_Z z <= x)%Q -> z <= Math.floor x.
Proof.
  intros H. unfold Math.floor. rewrite <- (Qfloor_Z z). now apply Qfloor_resp_le.
Qed.

Lemma floor_neg (x : Q) : (x < 0)%Q -> Math.floor x < 0.
Proof.
  intros H. unfold Math.floor. pose proof (Qfloor_le x) as Hf.
  rewrite Zlt_Qlt. change (inject_Z 0) with 0%Q. lra.
Qed.

Lemma rhythmIndex_formula (tz atMs key wake sleep : Z) :
  let '(start, end_) := getHydrationWindowBoundsForDayKey tz key wake sleep in
  0 < end_ - start ->
  getRhythmWindowIndexForDayKey tz atMs key wake sleep
  = clamp (Math.floor (inject_Z (atMs - start) / (inject_Z (end_ - start) / 5))) 0 4
  /\ (end_ <= atMs -> getRhythmWindowIndexForDayKey tz atMs key wake sleep = 4).
Proof.
  unfold getRhythmWindowIndexForDayKey.
  destruct (getHydrationWindowBoundsForDayKey tz key wake sleep) as [start end_].
  intros Hpos.
  destruct (Z.leb_spec (end_ - start) 0) as [|_]; [lia|].
  destruct (Z.geb_spec atMs end_) as [Hge|Hlt].
  - split; [|reflexivity].
    pose proof (floor_ge 5 _ (segment_quotient_ge5 (atMs - start) (end_ - start)
                                Hpos ltac:(lia))).
    unfold clamp. lia.
  - split; [|lia].
    destruct (Z.lt_ge_cases (atMs - start) 0) as [Hbefore|Hin].
    + pose proof (floor_neg _ (segment_quotient_neg (atMs - start) (end_ - start)
                                 Hpos Hbefore)) as Hneg.
      replace (clamp (atMs - start) 0 (end_ - start - 1)) with 0
        by (unfold clamp; lia).
      replace (Math.floor (inject_Z 0 / (inject_Z (end_ - start) / 5))) with 0.
      * unfold clamp. lia.
      * unfold Math.floor. symmetry.
        assert (inject_Z 0 / (inject_Z (end_ - start) / 5) == inject_Z 0)%Q as ->
          by (unfold Qdiv; change (inject_Z 0) with 0%Q; ring).
        apply Qfloor_Z.
    + rewrite (clamp_id (atMs - start)) by lia. unfold clamp. lia.
Qed.

Lemma readWindowHitCounts_length (day : option Day.entry) :
  length (readWindowHitCounts day) = 5%nat.
Proof.
  unfold readWindowHitCounts.
  destruct (day ≫= Day.windowHitCounts) as [counts|];
    [destruct (Nat.eqb_spec (length counts) 5); [assumption|]|];
    (destruct (day ≫= Day.windowHits) as [hits|]; [|reflexivity];
     destruct (Nat.eqb_spec (length hits) 5); [|reflexivity];
     now rewrite length_map).
Qed.

Lemma readWindowConsumedML_length (day : option Day.entry) :
  length (readWindowConsumedML day) = 5%nat.
Proof.
  unfold readWindowConsumedML.
  destruct (day ≫= Day.windowConsumedML) as [mls|]; [|reflexivity].
  destruct (Nat.eqb_spec (length mls) 5); [assumption|reflexivity].
Qed.

(** A day entry written with both arrays of length 5 reads back as written. *)
Lemma read_written_counts (e : Day.entry) (counts : list Z) :
  Day.windowHitCounts e = Some counts -> length counts = 5%nat ->
  readWindowHitCounts (Some e) = counts.
Proof.
  intros E L. unfold readWindowHitCounts. cbn. rewrite E.
  now rewrite L.
Qed.

Lemma read_written_mls (e : Day.entry) (mls : list Q) :
  Day.windowConsumedML e = Some mls -> length mls = 5%nat ->
  readWindowConsumedML (Some e) = mls.
Proof.
  intros E L. unfold readWindowConsumedML. cbn. rewrite E.
  now rewrite L.
Qed.

Lemma getZ_insert_eq (a : list Z) (i v : Z) :
  (Z.to_nat i < length a)%nat -> getZ (<[Z.to_nat i := v]> a) i = v.
Proof. intros H. unfold getZ. now rewrite list_lookup_insert_eq. Qed.

Lemma getZ_insert_ne (a : list Z) (i j v : Z) :
  0 <= i -> 0 <= j -> i <> j -> getZ (<[Z.to_nat i := v]> a) j = getZ a j.
Proof. intros Hi Hj H. unfold getZ. rewrite list_lookup_insert_ne; [done|lia]. Qed.

Lemma getQ_insert_eq (a : list Q) (i : Z) (v : Q) :
  (Z.to_nat i < length a)%nat -> getQ (<[Z.to_nat i := v]> a) i = v.
Proof. intros H. unfold getQ. now rewrite list_lookup_insert_eq. Qed.

Lemma getQ_insert_ne (a : list Q) (i j : Z) (v : Q) :
  0 <= i -> 0 <= j -> i <> j -> getQ (<[Z.to_nat i := v]> a) j = getQ a j.
Proof. intros Hi Hj H. unfold getQ. rewrite list_lookup_insert_ne; [done|lia]. Qed.

Lemma getZ_nonneg (a : list Z) (i : Z) : Forall (fun c => 0 <= c) a -> 0 <= getZ a i.
Proof.
  intros H. unfold getZ. destruct (a !! Z.to_nat i) as [c|] eqn:E; cbn; [|lia].
  eapply Forall_lookup_1 in E; eauto.
Qed.

Lemma getQ_nonneg (a : list Q) (i : Z) :
  Forall (fun m => (0 <= m)%Q) a -> (0 <= getQ a i)%Q.
Proof.
  intros H. unfold getQ. destruct (a !! Z.to_nat i) as [c|] eqn:E; cbn; [|lra].
  eapply Forall_lookup_1 in E; eauto.
Qed.

(** What [updateDailyLogRhythm] leaves under the event's key. *)
Lemma updateDailyLogRhythm_lookup (tz : Z) (s : St.t) (atMs : Z) (deltaMl : Q) :
  let key := dayKeyByWake tz atMs (St.wakeMins s) in
  let idx := getRhythmWindowIndexForDayKey tz atMs key (St.wakeMins s) (St.sleepMins s) in
  let before := St.dailyLog s !! key in
  let after := updateDailyLogRhythm tz s atMs deltaMl !! key in
  readWindowHitCounts after
  = (if Qle_bool 120 deltaMl
     then <[Z.to_nat idx := Z.max 0 (getZ (readWindowHitCounts before) idx + 1)]>
            (readWindowHitCounts before)
     else readWindowHitCounts before)
  /\ readWindowConsumedML after
     = (if Qle_bool 120 deltaMl
        then <[Z.to_nat idx :=
                 Qmax 0 (fadd (getQ (readWindowConsumedML before) idx) deltaMl)]>
               (readWindowConsumedML before)
        else readWindowConsumedML before).
Proof.
  intros key idx before after. subst after. unfold updateDailyLogRhythm.
  fold key. fold before. fold idx. rewrite lookup_insert_eq.
  split.
  - apply read_written_counts; [reflexivity|].
    destruct (Qle_bool 120 deltaMl);
      rewrite ?length_insert; apply readWindowHitCounts_length.
  - apply read_written_mls; [reflexivity|].
    destruct (Qle_bool 120 deltaMl);
      rewrite ?length_insert; apply readWindowConsumedML_length.
Qed.

Lemma getQ_whole (a : list Q) (i : Z) :
  Forall (fun m => wholeMl m = true) a -> (Z.to_nat i < length a)%nat ->
  wholeMl (getQ a i) = true.
Proof.
  intros H Hi. unfold getQ.
  destruct (lookup_lt_is_Some_2 a (Z.to_nat i) Hi) as [m E]. rewrite E.
  exact (Forall_lookup_1 _ a (Z.to_nat i) m H E).
Qed.

(** X7. Where the bounds that the code computes have the end after the start,
    the segment of an event is the floor of its elapsed time over a fifth of
    the duration, clamped into [0,4], and 4 from the end on.  An event of at
    least 120 ml sets the hit count of its segment to the larger of 0 and
    the count plus one, and the volume of its segment to the larger of 0 and
    the double nearest to the volume plus its own (the exact sum for whole
    millilitres), touching no other segment; a smaller event leaves the
    counts and the volumes as they were. *)
Theorem rhythm_segment_and_hits
    (tz atMs key wake sleep : Z) (s : St.t) (eventAt : Z) (deltaMl : Q) :
  let start := fst (getHydrationWindowBoundsForDayKey tz key wake sleep) in
  let end_ := snd (getHydrationWindowBoundsForDayKey tz key wake sleep) in
  let evKey := dayKeyByWake tz eventAt (St.wakeMins s) in
  let idx := getRhythmWindowIndexForDayKey tz eventAt evKey
               (St.wakeMins s) (St.sleepMins s) in
  let before := St.dailyLog s !! evKey in
  let after := updateDailyLogRhythm tz s eventAt deltaMl !! evKey in
  0 < end_ - start ->
  (getRhythmWindowIndexForDayKey tz atMs key wake sleep
   = clamp (Math.floor (inject_Z (atMs - start) / (inject_Z (end_ - start) / 5))) 0 4
   /\ (end_ <= atMs -> getRhythmWindowIndexForDayKey tz atMs key wake sleep = 4))
  /\ ((120 <= deltaMl)%Q ->
      getZ (readWindowHitCounts after) idx
      = Z.max 0 (getZ (readWindowHitCounts before) idx + 1)
      /\ getQ (readWindowConsumedML after) idx
         = Qmax 0 (fadd (getQ (readWindowConsumedML before) idx) deltaMl)
      /\ (wholeMl (getQ (readWindowConsumedML before) idx) = true ->
          wholeMl deltaMl = true ->
          (getQ (readWindowConsumedML after) idx
           == getQ (readWindowConsumedML before) idx + deltaMl)%Q)
      /\ forall i, 0 <= i -> i <> idx ->
           getZ (readWindowHitCounts after) i = getZ (readWindowHitCounts before) i
           /\ getQ (readWindowConsumedML after) i = getQ (readWindowConsumedML before) i)
  /\ (~ (120 <= deltaMl)%Q ->
      readWindowHitCounts after = readWindowHitCounts before
      /\ readWindowConsumedML after = readWindowConsumedML before).
Proof.
  intros start end_ evKey idx before after Hpos.
  split.
  { pose proof (rhythmIndex_formula tz atMs key wake sleep) as H.
    subst start end_.
    destruct (getHydrationWindowBoundsForDayKey tz key wake sleep) as [st en].
    exact (H Hpos). }
  destruct (updateDailyLogRhythm_lookup tz s eventAt deltaMl) as [Ec Em].
  fold evKey in Ec, Em. fold idx in Ec, Em. fold before in Ec, Em. fold after in Ec, Em.
  pose proof (rhythmIndex_range tz eventAt evKey (St.wakeMins s) (St.sleepMins s)) as Hidx.
  fold idx in Hidx.
  pose proof (readWindowHitCounts_length before) as Lc.
  pose proof (readWindowConsumedML_length before) as Lm.
  split.
  - intros H120. apply Qle_bool_iff in H120. rewrite H120 in Ec, Em.
    rewrite Ec, Em. split; [|split; [|split]].
    + apply getZ_insert_eq. lia.
    + apply getQ_insert_eq. lia.
    + intros Ha Hd. rewrite getQ_insert_eq by lia.
      apply wholeMl_spec in Ha as (za & Ea & Hza).
      apply wholeMl_spec in Hd as (zd & Ed & Hzd).
      assert (2 ^ 53 = 2 * 2 ^ 52) as P by reflexivity.
      assert (fadd (getQ (readWindowConsumedML before) idx) deltaMl
              == inject_Z (za + zd))%Q as Hadd.
      { unfold fadd. apply toDouble_whole; [|lia].
        rewrite Ea, Ed, inject_Z_plus. reflexivity. }
      rewrite Hadd, Ea, Ed, <- inject_Z_plus. apply Q.max_r.
      apply inject_Z_nonneg. lia.
    + intros i Hi Hne. split.
      * apply getZ_insert_ne; lia.
      * apply getQ_insert_ne; lia.
  - intros Hsmall.
    destruct (Qle_bool 120 deltaMl) eqn:E; [apply Qle_bool_iff in E; contradiction|].
    now rewrite Ec, Em.
Qed.

Lemma rhythm_segment_and_hits_witness :
  let t := 600 * 60000 in
  let s := makeDefaultState 0 t in
  let evKey := dayKeyByWake 0 t (St.wakeMins s) in
  let idx := getRhythmWindowIndexForDayKey 0 t evKey (St.wakeMins s) (St.sleepMins s) in
  getZ (readWindowHitCounts (updateDailyLogRhythm 0 s t 250 !! evKey)) idx
  = Z.max 0 (getZ (readWindowHitCounts (St.dailyLog s !! evKey)) idx + 1).
Proof.
  intros t s evKey idx.
  assert (0 < snd (getHydrationWindowBoundsForDayKey 0 0 480 1320)
              - fst (getHydrationWindowBoundsForDayKey 0 0 480 1320)) as Hpos
    by reflexivity.
  assert (120 <= 250)%Q as H120 by (vm_compute; discriminate).
  exact (proj1 (proj1 (proj2 (rhythm_segment_and_hits 0 t 0 480 1320 s t 250 Hpos)) H120)).
Defined.

(** ** The mutations, field by field *)

Lemma dayChecked_same (tz now : Z) (s : St.t) :
  sameDay tz now s -> dayChecked tz now s = s.
Proof.
  unfold sameDay, dayChecked. intros H. rewrite <- H, Z.eqb_refl. reflexivity.
Qed.

Lemma totalConsumed_ext (a b : St.t) :
  St.goalML a = St.goalML b -> St.bottleML a = St.bottleML b ->
  St.completedBottles a = St.completedBottles b ->
  St.remaining a = St.remaining b ->
  St.carryML a = St.carryML b -> St.extraML a = St.extraML b ->
  totalConsumedFromState a = totalConsumedFromState b.
Proof.
  intros Hg Hb Hc Hr Hca He. unfold totalConsumedFromState.
  now rewrite Hg, Hb, Hc, Hr, Hca, He.
Qed.

Lemma advanceBottle_frame (s : St.t) :
  St.goalML (advanceBottle s) = St.goalML s
  /\ St.bottleML (advanceBottle s) = St.bottleML s
  /\ St.wakeMins (advanceBottle s) = St.wakeMins s
  /\ St.sleepMins (advanceBottle s) = St.sleepMins s
  /\ St.dayKey (advanceBottle s) = St.dayKey s
  /\ St.carryML (advanceBottle s) = St.carryML s
  /\ St.extraML (advanceBottle s) = St.extraML s
  /\ St.dailyLog (advanceBottle s) = St.dailyLog s
  /\ St.history (advanceBottle s) = St.history s
  /\ St.celebrate (advanceBottle s) = St.celebrate s.
Proof.
  unfold advanceBottle.
  destruct (ceilDiv (St.goalML s) (St.bottleML s) <=? 0); repeat split.
Qed.

Lemma levelSet_frame (r : Q) (s : St.t) :
  St.goalML (levelSet r s) = St.goalML s
  /\ St.bottleML (levelSet r s) = St.bottleML s
  /\ St.wakeMins (levelSet r s) = St.wakeMins s
  /\ St.sleepMins (levelSet r s) = St.sleepMins s
  /\ St.dayKey (levelSet r s) = St.dayKey s
  /\ St.carryML (levelSet r s) = St.carryML s
  /\ St.extraML (levelSet r s) = St.extraML s
  /\ St.dailyLog (levelSet r s) = St.dailyLog s
  /\ St.history (levelSet r s) = St.history s
  /\ St.celebrate (levelSet r s) = St.celebrate s.
Proof.
  unfold levelSet.
  destruct (Qle_bool (clampQ r 0 1) (1 # 10000)); [|repeat split].
  apply (advanceBottle_frame (St.with_remaining (clampQ r 0 1) s)).
Qed.

(** Every field of the result of [setRemaining] but the daily log and the
    celebration, in terms of the day-checked state and of [levelSet]. *)
Lemma setRemaining_fields (tz now eventAt : Z) (r : Q) (action : option string)
    (s : St.t) :
  let ss := dayChecked tz now s in
  let s' := setRemaining tz now eventAt r action s in
  St.goalML s' = St.goalML ss
  /\ St.bottleML s' = St.bottleML ss
  /\ St.wakeMins s' = St.wakeMins ss
  /\ St.sleepMins s' = St.sleepMins ss
  /\ St.dayKey s' = St.dayKey ss
  /\ St.carryML s' = St.carryML ss
  /\ St.extraML s' = St.extraML ss
  /\ St.completedBottles s' = St.completedBottles (levelSet r ss)
  /\ St.remaining s' = St.remaining (levelSet r ss)
  /\ totalConsumedFromState s' = totalConsumedFromState (levelSet r ss).
Proof.
  intros ss s'.
  assert (St.goalML s' = St.goalML (levelSet r ss)
          /\ St.bottleML s' = St.bottleML (levelSet r ss)
          /\ St.wakeMins s' = St.wakeMins (levelSet r ss)
          /\ St.sleepMins s' = St.sleepMins (levelSet r ss)
          /\ St.dayKey s' = St.dayKey (levelSet r ss)
          /\ St.carryML s' = St.carryML (levelSet r ss)
          /\ St.extraML s' = St.extraML (levelSet r ss)
          /\ St.completedBottles s' = St.completedBottles (levelSet r ss)
          /\ St.remaining s' = St.remaining (levelSet r ss))
    as (Hg & Hb & Hw & Hsl & Hd & Hca & He & Hc & Hr).
  { subst s'. unfold setRemaining. fold (dayChecked tz now s). fold ss.
    cbv zeta. fold (levelSet r ss).
    destruct (isTrack action); cbn [andb orb];
      repeat match goal with
      | |- context [if ?b then St.with_celebrate _ _ else _] => destruct b
      end; repeat split. }
  destruct (levelSet_frame r ss) as (Fg & Fb & Fw & Fsl & Fd & Fca & Fe & _).
  repeat split; try congruence.
  apply totalConsumed_ext; assumption.
Qed.

(** The celebration left by a track event. *)
Lemma setRemaining_celebrate_track (tz now eventAt : Z) (r : Q) (s : St.t) :
  let ss := dayChecked tz now s in
  let s' := setRemaining tz now eventAt r (Some "track"%string) s in
  let after := totalConsumedFromState (levelSet r ss) in
  let hitGoal := Qlt_bool 0 (St.goalML ss) && Qle_bool (St.goalML ss) after in
  let didEmptyBottle :=
    Qlt_bool (1 # 10000) (St.remaining ss) && Qle_bool (clampQ r 0 1) (1 # 10000) in
  St.celebrate s' =
    if hitGoal || didEmptyBottle
    then Some {| c_type := if hitGoal then goal else bottle;
                 c_pct := clamp (if Qlt_bool 0 (St.goalML ss)
                                 then Math.round (after / St.goalML ss * 100)
                                 else 0) 0 100;
                 c_consumedML := after |}
    else St.celebrate ss.
Proof.
  intros ss s' after hitGoal didEmptyBottle.
  destruct (levelSet_frame r ss) as (Fg & _ & _ & _ & _ & _ & _ & _ & _ & Fc).
  subst s' hitGoal didEmptyBottle after.
  unfold setRemaining. fold (dayChecked tz now s). fold ss.
  cbv zeta. fold (levelSet r ss). rewrite !Fg.
  change (isTrack (Some "track"%string)) with true. cbn [andb].
  destruct (_ || _); cbn; [reflexivity | exact Fc].
Qed.

(** The history entry pushed by [setRemaining], and the daily log after. *)
Lemma setRemaining_history (tz now eventAt : Z) (r : Q) (action : option string)
    (s : St.t) :
  let ss := dayChecked tz now s in
  let s' := setRemaining tz now eventAt r action s in
  let delta :=
    Qmax 0 (totalConsumedFromState (levelSet r ss) - totalConsumedFromState ss) in
  let idx := getRhythmWindowIndexForDayKey tz eventAt
               (dayKeyByWake tz eventAt (St.wakeMins ss))
               (St.wakeMins ss) (St.sleepMins ss) in
  exists e,
    St.history s' = sliceLast 50 (St.history ss ++ [e])
    /\ Hist.t e = eventAt
    /\ Hist.prevRemaining e = St.remaining ss
    /\ Hist.prevCompleted e = St.completedBottles ss
    /\ Hist.prevCarry e = orZero (St.carryML ss)
    /\ Hist.prevExtra e = orZero (St.extraML ss)
    /\ Hist.action e = action
    /\ Hist.rhythmWindowIndex e = (if Qle_bool 120 delta then Some idx else None)
    /\ Hist.rhythmDelta e = (if Qle_bool 120 delta then Some 1 else None)
    /\ Hist.rhythmMlDelta e = (if Qle_bool 120 delta then Some delta else None)
    /\ St.dailyLog s' =
         (if isTrack action
          then updateDailyLogRhythm tz
                 (St.with_history (St.history s') (levelSet r ss)) eventAt delta
          else St.dailyLog ss).
Proof.
  intros ss s' delta idx.
  destruct (levelSet_frame r ss) as (_ & _ & _ & _ & _ & _ & _ & Fl & _ & _).
  subst s' delta idx.
  unfold setRemaining. fold (dayChecked tz now s). fold ss.
  cbv zeta. fold (levelSet r ss).
  eexists. split; [|split; [|split; [|split; [|split; [|split; [|split;
    [|split; [|split; [|split]]]]]]]]].
  - destruct (isTrack action); cbn [andb];
      repeat match goal with
      | |- context [if ?b then St.with_celebrate _ _ else _] => destruct b
      end; cbn; reflexivity.
  - reflexivity.
  - reflexivity.
  - reflexivity.
  - reflexivity.
  - reflexivity.
  - reflexivity.
  - cbn. destruct (Qle_bool 120 _); reflexivity.
  - cbn. destruct (Qle_bool 120 _); reflexivity.
  - cbn. destruct (Qle_bool 120 _); reflexivity.
  - destruct (isTrack action); cbn [andb];
      repeat match goal with
      | |- context [if ?b then St.with_celebrate _ _ else _] => destruct b
      end; cbn; first [reflexivity | exact Fl].
Qed.

(** ** Four bottles of 500 ml against a goal of 2000 ml *)

(** One track event that empties the bottle, with [k] bottles completed
    before it. *)
Lemma track_empty_step (tz now eventAt : Z) (s : St.t) (k : Z) :
  sameDay tz now s ->
  St.goalML s = 2000%Q -> St.bottleML s = 500%Q ->
  St.completedBottles s = k -> 0 <= k <= 4 ->
  St.remaining s = 1%Q -> St.carryML s = 0%Q -> St.extraML s = 0%Q ->
  let s' := setRemaining tz now eventAt 0 (Some "track"%string) s in
  let k' := Z.min 4 (k + 1) in
  (St.goalML s' = 2000%Q /\ St.bottleML s' = 500%Q
   /\ St.remaining s' = 1%Q /\ St.carryML s' = 0%Q /\ St.extraML s' = 0%Q
   /\ St.dayKey s' = St.dayKey s /\ St.wakeMins s' = St.wakeMins s)
  /\ St.completedBottles s' = k'
  /\ totalConsumedFromState s' = inject_Z (500 * k')
  /\ St.celebrate s' =
       Some {| c_type := if 4 <=? k + 1 then goal else bottle;
               c_pct := 25 * k';
               c_consumedML := inject_Z (500 * k') |}.
Proof.
  intros Hday Hg Hb Hk Hrange Hr Hca He s' k'.
  pose proof (setRemaining_fields tz now eventAt 0 (Some "track"%string) s)
    as (Fg & Fb & Fw & _ & Fd & Fca & Fe & Fc & Fr & Ft).
  pose proof (setRemaining_celebrate_track tz now eventAt 0 s) as Fcel.
  cbv zeta in Fg, Fb, Fw, Fd, Fca, Fe, Fc, Fr, Ft, Fcel.
  rewrite (dayChecked_same _ _ _ Hday) in *.
  fold s' in Fg, Fb, Fw, Fd, Fca, Fe, Fc, Fr, Ft, Fcel.
  rewrite Fg, Fb, Fw, Fd, Fca, Fe, Fc, Fr, Ft, Fcel. clear Fg Fb Fw Fd Fca Fe Fc Fr Ft Fcel.
  rewrite Hg, Hr.
  subst k'. clear s' Hday.
  destruct s as [g b w sl dk c r ca ex lg hs ce]. cbn in Hg, Hb, Hk, Hr, Hca, He.
  subst g b c r ca ex.
  assert (k = 0 \/ k = 1 \/ k = 2 \/ k = 3 \/ k = 4) as Hcases by lia.
  destruct Hcases as [->|[->|[->|[->| ->]]]]; vm_compute; repeat split; reflexivity.
Qed.

(** C7. From a fresh day with a goal of 2000 ml and a bottle of 500 ml, four
    track events at level 0 on that day complete bottles 1 to 4, each leaving
    the level at 1; the cap [ceilDiv 2000 500] is 4 and a fifth such event
    leaves the count at 4; the total after the fourth is exactly 2000; the
    first three celebrate a bottle and the fourth the goal. *)
Theorem four_bottles_reach_goal
    (tz : Z) (s0 : St.t) (n1 e1 n2 e2 n3 e3 n4 e4 n5 e5 : Z) :
  St.goalML s0 = 2000%Q -> St.bottleML s0 = 500%Q ->
  St.completedBottles s0 = 0 -> St.remaining s0 = 1%Q ->
  St.carryML s0 = 0%Q -> St.extraML s0 = 0%Q ->
  sameDay tz n1 s0 -> sameDay tz n2 s0 -> sameDay tz n3 s0 ->
  sameDay tz n4 s0 -> sameDay tz n5 s0 ->
  let s1 := setRemaining tz n1 e1 0 (Some "track"%string) s0 in
  let s2 := setRemaining tz n2 e2 0 (Some "track"%string) s1 in
  let s3 := setRemaining tz n3 e3 0 (Some "track"%string) s2 in
  let s4 := setRemaining tz n4 e4 0 (Some "track"%string) s3 in
  let s5 := setRemaining tz n5 e5 0 (Some "track"%string) s4 in
  ceilDiv 2000 500 = 4
  /\ (St.completedBottles s1 = 1 /\ St.completedBottles s2 = 2
      /\ St.completedBottles s3 = 3 /\ St.completedBottles s4 = 4
      /\ St.completedBottles s5 = 4)
  /\ (St.remaining s1 = 1%Q /\ St.remaining s2 = 1%Q
      /\ St.remaining s3 = 1%Q /\ St.remaining s4 = 1%Q)
  /\ totalConsumedFromState s4 = 2000%Q
  /\ St.celebrate s1 = Some {| c_type := bottle; c_pct := 25; c_consumedML := 500 |}
  /\ St.celebrate s2 = Some {| c_type := bottle; c_pct := 50; c_consumedML := 1000 |}
  /\ St.celebrate s3 = Some {| c_type := bottle; c_pct := 75; c_consumedML := 1500 |}
  /\ St.celebrate s4 = Some {| c_type := goal; c_pct := 100; c_consumedML := 2000 |}.
Proof.
  intros Hg Hb Hc Hr Hca He D1 D2 D3 D4 D5 s1 s2 s3 s4 s5.
  unfold sameDay in *.
  destruct (track_empty_step tz n1 e1 s0 0) as ((G1 & B1 & R1 & Ca1 & E1 & K1 & W1) & C1 & T1 & Cel1);
    try assumption; try lia. fold s1 in G1, B1, R1, Ca1, E1, K1, W1, C1, T1, Cel1.
  destruct (track_empty_step tz n2 e2 s1 1) as ((G2 & B2 & R2 & Ca2 & E2 & K2 & W2) & C2 & T2 & Cel2);
    try assumption; try lia; [unfold sameDay; congruence|].
  fold s2 in G2, B2, R2, Ca2, E2, K2, W2, C2, T2, Cel2.
  destruct (track_empty_step tz n3 e3 s2 2) as ((G3 & B3 & R3 & Ca3 & E3 & K3 & W3) & C3 & T3 & Cel3);
    try assumption; try lia; [unfold sameDay; congruence|].
  fold s3 in G3, B3, R3, Ca3, E3, K3, W3, C3, T3, Cel3.
  destruct (track_empty_step tz n4 e4 s3 3) as ((G4 & B4 & R4 & Ca4 & E4 & K4 & W4) & C4 & T4 & Cel4);
    try assumption; try lia; [unfold sameDay; congruence|].
  fold s4 in G4, B4, R4, Ca4, E4, K4, W4, C4, T4, Cel4.
  destruct (track_empty_step tz n5 e5 s4 4) as (_ & C5 & _);
    try assumption; try lia; [unfold sameDay; congruence|].
  fold s5 in C5.
  repeat split; assumption || reflexivity.
Qed.

Lemma four_bottles_reach_goal_witness :
  let s0 := makeDefaultState 0 (600 * 60000) in
  let t := 600 * 60000 in
  let s4 := setRemaining 0 t t 0 (Some "track"%string)
              (setRemaining 0 t t 0 (Some "track"%string)
                 (setRemaining 0 t t 0 (Some "track"%string)
                    (setRemaining 0 t t 0 (Some "track"%string) s0))) in
  sameDay 0 t s0
  /\ St.completedBottles s4 = 4
  /\ totalConsumedFromState s4 = 2000%Q.
Proof.
  intros s0 t s4.
  pose proof (four_bottles_reach_goal 0 s0 t t t t t t t t t t
                eq_refl eq_refl eq_refl eq_refl eq_refl eq_refl
                eq_refl eq_refl eq_refl eq_refl eq_refl) as H.
  cbv zeta in H.
  split; [reflexivity|].
  split; [apply H | apply H].
Defined.

(** ** Quick-add *)

Lemma clampQ_range (n a b : Q) : (a <= b)%Q -> (a <= clampQ n a b <= b)%Q.
Proof.
  intros H. unfold clampQ. split.
  - apply Q.le_max_l.
  - apply Q.max_lub; [exact H | apply Q.le_min_l].
Qed.

Lemma clampQ_proper (n m a b : Q) : (n == m)%Q -> (clampQ n a b == clampQ m a b)%Q.
Proof. intros H. unfold clampQ. now rewrite H. Qed.

Lemma sliceLast_drop {A} (n : nat) (l : list A) :
  (0 < n)%nat -> sliceLast n l = drop (length l - n) l.
Proof. intros Hn. destruct n; [lia|reflexivity]. Qed.

Lemma sliceLast_snoc_last {A} (n : nat) (h : list A) (e : A) :
  (0 < n)%nat -> last (sliceLast n (h ++ [e])) = Some e.
Proof.
  intros Hn. rewrite sliceLast_drop by exact Hn. rewrite length_app. cbn [length].
  rewrite drop_app_le by lia. apply last_snoc.
Qed.

Lemma sliceLast_short {A} (n : nat) (l : list A) :
  (length l <= n)%nat -> sliceLast n l = l.
Proof.
  intros H. destruct n; [reflexivity|]. rewrite sliceLast_drop by lia.
  replace (length l - S n)%nat with 0%nat by lia. reflexivity.
Qed.

(** The result of [addExtra], field by field. *)
Lemma addExtra_fields (tz now eventAt : Z) (ml : Q) (s : St.t) :
  let ss := dayChecked tz now s in
  let s' := addExtra tz now eventAt ml s in
  let idx := getRhythmWindowIndexForDayKey tz eventAt
               (dayKeyByWake tz eventAt (St.wakeMins ss))
               (St.wakeMins ss) (St.sleepMins ss) in
  (St.goalML s' = St.goalML ss /\ St.bottleML s' = St.bottleML ss
   /\ St.wakeMins s' = St.wakeMins ss /\ St.sleepMins s' = St.sleepMins ss
   /\ St.dayKey s' = St.dayKey ss /\ St.celebrate s' = St.celebrate ss)
  /\ (St.remaining s' = St.remaining ss
      /\ St.completedBottles s' = St.completedBottles ss
      /\ St.carryML s' = St.carryML ss)
  /\ St.extraML s' = clampQ (orZero (St.extraML ss) + ml) 0 100000
  /\ (exists e,
        St.history s' = sliceLast 50 (St.history ss ++ [e])
        /\ Hist.t e = eventAt
        /\ Hist.prevRemaining e = St.remaining ss
        /\ Hist.prevCompleted e = St.completedBottles ss
        /\ Hist.prevCarry e = orZero (St.carryML ss)
        /\ Hist.prevExtra e = orZero (St.extraML ss)
        /\ Hist.action e = Some "extra"%string
        /\ Hist.ml e = Some ml
        /\ Hist.rhythmWindowIndex e = (if Qle_bool 120 ml then Some idx else None)
        /\ Hist.rhythmDelta e = (if Qle_bool 120 ml then Some 1 else None)
        /\ Hist.rhythmMlDelta e = (if Qle_bool 120 ml then Some ml else None))
  /\ St.dailyLog s' =
       updateDailyLogRhythm tz
         (St.with_history (St.history s')
            (St.with_extraML (St.extraML s') ss)) eventAt ml.
Proof.
  intros ss s' idx. subst s' idx.
  unfold addExtra. fold (dayChecked tz now s). fold ss. cbv zeta.
  split; [repeat split|]. split; [repeat split|]. split; [reflexivity|].
  split; [|reflexivity].
  eexists. split; [reflexivity|]. cbn.
  repeat split; destruct (Qle_bool 120 ml); reflexivity.
Qed.

Lemma updateDailyLogRhythm_other (tz : Z) (s : St.t) (atMs : Z) (deltaMl : Q) (k : Z) :
  k <> dayKeyByWake tz atMs (St.wakeMins s) ->
  updateDailyLogRhythm tz s atMs deltaMl !! k = St.dailyLog s !! k.
Proof.
  intros Hk. unfold updateDailyLogRhythm. now rewrite lookup_insert_ne.
Qed.




(** ** Rollover *)

Lemma sortedKeys_elem (log : gmap Z Day.entry) (k : Z) :
  k ∈ sortedKeys log <-> is_Some (log !! k).
Proof.
  unfold sortedKeys. rewrite merge_sort_Permutation.
  rewrite list_elem_of_fmap. split.
  - intros ([k' v] & -> & Hin). apply elem_of_map_to_list in Hin. now exists v.
  - intros [v Hv]. exists (k, v). split; [reflexivity|]. now apply elem_of_map_to_list.
Qed.

Lemma sortedKeys_NoDup (log : gmap Z Day.entry) : NoDup (sortedKeys log).
Proof.
  unfold sortedKeys. rewrite merge_sort_Permutation. apply NoDup_fst_map_to_list.
Qed.

Lemma sortedKeys_length (log : gmap Z Day.entry) : length (sortedKeys log) = size log.
Proof.
  unfold sortedKeys. rewrite merge_sort_Permutation, length_fmap.
  apply length_map_to_list.
Qed.

Lemma sortedKeys_sorted (log : gmap Z Day.entry) : StronglySorted Z.le (sortedKeys log).
Proof. unfold sortedKeys. apply StronglySorted_merge_sort; apply _. Qed.

Lemma copy_loop_lookup (nextLog acc : gmap Z Day.entry) (keep : list Z) (k : Z) :
  foldl (fun (pruned : gmap Z Day.entry) k =>
           match nextLog !! k with
           | Some v => <[k := v]> pruned
           | None => pruned
           end) acc keep !! k
  = match nextLog !! k with
    | Some v => if decide (k ∈ keep) then Some v else acc !! k
    | None => acc !! k
    end.
Proof.
  revert acc. induction keep as [|k0 keep IH]; intros acc; cbn [foldl].
  - destruct (nextLog !! k); [|reflexivity].
    rewrite decide_False; [reflexivity|]. apply not_elem_of_nil.
  - rewrite IH. destruct (nextLog !! k) as [v|] eqn:Ek.
    + destruct (decide (k ∈ keep)) as [Hin|Hnin].
      * rewrite decide_True; [reflexivity|]. apply elem_of_cons. now right.
      * destruct (decide (k = k0)) as [->|Hne].
        -- rewrite Ek, lookup_insert_eq.
           rewrite decide_True; [reflexivity|]. apply elem_of_cons. now left.
        -- rewrite decide_False.
           ++ destruct (nextLog !! k0); [now rewrite lookup_insert_ne|reflexivity].
           ++ intros Hin. apply elem_of_cons in Hin. tauto.
    + destruct (nextLog !! k0) eqn:Ek0; [|reflexivity].
      rewrite lookup_insert_ne; [reflexivity|]. congruence.
Qed.

Lemma copyKept_lookup (nextLog : gmap Z Day.entry) (keep : list Z) (k : Z) :
  (forall k', k' ∈ keep -> is_Some (nextLog !! k')) ->
  copyKept nextLog keep !! k = if decide (k ∈ keep) then nextLog !! k else None.
Proof.
  intros Hsub. unfold copyKept. rewrite copy_loop_lookup, lookup_empty.
  destruct (nextLog !! k) as [v|] eqn:Ek.
  - reflexivity.
  - destruct (decide (k ∈ keep)) as [Hin|]; [|reflexivity].
    apply Hsub in Hin. rewrite Ek in Hin. now destruct Hin.
Qed.

(** The pruned log: the largest [keepN] keys of [nextLog] with their
    entries. *)
Lemma pruned_spec (keepN : nat) (nextLog : gmap Z Day.entry) :
  (0 < keepN)%nat ->
  let pruned := copyKept nextLog (sliceLast keepN (sortedKeys nextLog)) in
  (forall k v, pruned !! k = Some v -> nextLog !! k = Some v)
  /\ size pruned = Nat.min keepN (size nextLog)
  /\ (forall k k', is_Some (nextLog !! k) -> pruned !! k = None ->
                   is_Some (pruned !! k') -> k < k').
Proof.
  intros Hpos pruned.
  set (keys := sortedKeys nextLog) in *.
  set (n := (length keys - keepN)%nat).
  assert (sliceLast keepN keys = drop n keys) as Ekeep
    by now apply sliceLast_drop.
  assert (forall k', k' ∈ drop n keys -> is_Some (nextLog !! k')) as Hsub.
  { intros k' Hin. apply sortedKeys_elem. fold keys. revert Hin. apply subseteq_drop. }
  assert (forall k, pruned !! k = if decide (k ∈ drop n keys) then nextLog !! k else None)
    as Hlook.
  { intros k. subst pruned. rewrite Ekeep. now apply copyKept_lookup. }
  pose proof (sortedKeys_NoDup nextLog) as Hnd. fold keys in Hnd.
  pose proof (sortedKeys_sorted nextLog) as Hsorted. fold keys in Hsorted.
  rewrite <- (take_drop n keys) in Hnd, Hsorted.
  split; [|split].
  - intros k v. rewrite Hlook. destruct (decide _); [tauto|discriminate].
  - rewrite <- size_dom.
    assert (dom pruned = list_to_set (drop n keys)) as ->.
    { apply set_eq. intros k. rewrite elem_of_dom, elem_of_list_to_set, Hlook.
      destruct (decide (k ∈ drop n keys)) as [Hin|Hnin].
      - split; [tauto|]. intros _. now apply Hsub.
      - split; [intros [? ?]; discriminate|tauto]. }
    rewrite size_list_to_set.
    + rewrite length_drop. subst n. rewrite <- (sortedKeys_length nextLog).
      fold keys. lia.
    + apply NoDup_app in Hnd. tauto.
  - intros k k' Hk Hnone Hsome. rewrite Hlook in Hnone, Hsome.
    destruct (decide (k' ∈ drop n keys)) as [Hin'|]; [|now destruct Hsome].
    destruct (decide (k ∈ drop n keys)) as [Hin|Hnin].
    { rewrite Hnone in Hk. now destruct Hk. }
    apply sortedKeys_elem in Hk. fold keys in Hk.
    rewrite <- (take_drop n keys), elem_of_app in Hk.
    destruct Hk as [Hk|Hk]; [|contradiction].
    pose proof (StronglySorted_app_1_elem_of _ _ _ _ _ Hsorted Hk Hin') as Hle.
    apply NoDup_app in Hnd. destruct Hnd as (_ & Hdisj & _).
    assert (k <> k') by (intros ->; now apply (Hdisj k')).
    lia.
Qed.

Lemma resetUpdater_unfold (keepN : nat) (today : DayKey) (at_ : Z) (s : St.t) :
  St.dayKey s <> today ->
  resetUpdater keepN today at_ s
  = St.with_dailyLog
      (copyKept (<[St.dayKey s := snapshotOf at_ s]> (St.dailyLog s))
         (sliceLast keepN
            (sortedKeys (<[St.dayKey s := snapshotOf at_ s]> (St.dailyLog s)))))
      (St.freshDay today s).
Proof.
  intros Hne. unfold resetUpdater.
  destruct (Z.eqb_spec (St.dayKey s) today); [contradiction|reflexivity].
Qed.

(** X25. The rollover as the code has it.  When the stored day key is not
    today's, [resetToTodayIfNeeded] puts the snapshot of the day (its final
    consumed total) under the stored key, replacing whatever that key held,
    keeps of the resulting log the [keepN] largest keys (365 in the later
    revision, 14 in the earlier), and resets the day.  The snapshot survives
    the pruning whenever no key of the log is later than the stored one. *)
Theorem rollover_snapshot_prune_reset
    (tz now at_ : Z) (keepN : nat) (today : DayKey) (cur s : St.t) :
  (0 < keepN)%nat ->
  St.dayKey s <> today ->
  let s' := resetUpdater keepN today at_ s in
  let nextLog := <[St.dayKey s := snapshotOf at_ s]> (St.dailyLog s) in
  (today = dayKeyByWake tz now (St.wakeMins cur) ->
   resetToTodayIfNeeded tz now at_ cur s = resetUpdater 365 today at_ s)
  /\ (today = dayKeyBySleep tz now (St.sleepMins cur) ->
      resetToTodayIfNeeded_App tz now at_ cur s = resetUpdater 14 today at_ s)
  /\ (St.dayKey s' = today /\ St.completedBottles s' = 0 /\ St.remaining s' = 1%Q
      /\ St.carryML s' = 0%Q /\ St.extraML s' = 0%Q /\ St.history s' = []
      /\ St.celebrate s' = None
      /\ St.goalML s' = St.goalML s /\ St.bottleML s' = St.bottleML s
      /\ St.wakeMins s' = St.wakeMins s /\ St.sleepMins s' = St.sleepMins s)
  /\ (nextLog !! St.dayKey s = Some (snapshotOf at_ s)
      /\ Day.consumedML (snapshotOf at_ s) = totalConsumedFromState s
      /\ forall k, k <> St.dayKey s -> nextLog !! k = St.dailyLog s !! k)
  /\ (forall k v, St.dailyLog s' !! k = Some v -> nextLog !! k = Some v)
  /\ size (St.dailyLog s') = Nat.min keepN (size nextLog)
  /\ (forall k k', is_Some (nextLog !! k) -> St.dailyLog s' !! k = None ->
                   is_Some (St.dailyLog s' !! k') -> k < k')
  /\ ((forall k, is_Some (St.dailyLog s !! k) -> k <= St.dayKey s) ->
      St.dailyLog s' !! St.dayKey s = Some (snapshotOf at_ s)).
Proof.
  intros Hpos Hne s' nextLog.
  assert (nextLog !! St.dayKey s = Some (snapshotOf at_ s)) as Hsnap
    by apply lookup_insert_eq.
  split; [intros ->; reflexivity|]. split; [intros ->; reflexivity|].
  subst s'. rewrite (resetUpdater_unfold _ _ _ _ Hne). fold nextLog.
  cbn [St.dailyLog St.with_dailyLog St.freshDay St.dayKey St.completedBottles
       St.remaining St.carryML St.extraML St.history St.celebrate St.goalML
       St.bottleML St.wakeMins St.sleepMins].
  destruct (pruned_spec keepN nextLog Hpos) as (Hsub & Hsize & Hold).
  split; [repeat split|].
  split; [split; [exact Hsnap|split; [reflexivity|]]|].
  { intros k Hk. subst nextLog. now rewrite lookup_insert_ne. }
  split; [exact Hsub|]. split; [exact Hsize|]. split; [exact Hold|].
  intros Hmax.
  set (pruned := copyKept nextLog (sliceLast keepN (sortedKeys nextLog))) in *.
  destruct (pruned !! St.dayKey s) as [v|] eqn:Ev.
  - apply Hsub in Ev. congruence.
  - exfalso.
    assert (0 < size pruned)%nat as Hnonempty.
    { rewrite Hsize.
      assert (0 < size nextLog)%nat; [|lia].
      subst nextLog. rewrite <- size_dom, dom_insert_L, size_union_alt.
      rewrite size_singleton. lia. }
    rewrite <- size_dom in Hnonempty.
    apply size_pos_elem_of in Hnonempty as [k' Hk'].
    apply elem_of_dom in Hk'.
    pose proof (Hold (St.dayKey s) k' ltac:(rewrite Hsnap; eauto) Ev Hk') as Hlt.
    destruct Hk' as [v' Hv']. apply Hsub in Hv'.
    subst nextLog. rewrite lookup_insert_ne in Hv' by lia.
    pose proof (Hmax k' ltac:(eauto)). lia.
Qed.

Lemma rollover_snapshot_prune_reset_witness :
  let t := 600 * 60000 in
  let s := setRemaining 0 t t 0 (Some "track"%string) (makeDefaultState 0 t) in
  let s' := resetUpdater 365 1 (t + msPerDay) s in
  (0 < 365)%nat
  /\ St.dayKey s <> 1
  /\ (forall k v, St.dailyLog s' !! k = Some v ->
        <[St.dayKey s := snapshotOf (t + msPerDay) s]> (St.dailyLog s) !! k = Some v).
Proof.
  intros t s s'.
  assert (0 < 365)%nat as Hpos by lia.
  assert (St.dayKey s <> 1) as Hne by (vm_compute; discriminate).
  split; [exact Hpos|]. split; [exact Hne|].
  apply (rollover_snapshot_prune_reset 0 (t + msPerDay) (t + msPerDay) 365 1 s s
           Hpos Hne).
Defined.

(** C3.  The rollover overwrites the entry of the day.  After one tracked
    bottle the daily log holds an entry for the day, with its window hit
    counts and window volumes, and the day scores 18 for its spread; the
    rollover of the next day replaces that entry by the snapshot, which has
    neither, and the day scores 0 for its spread from then on. *)
Theorem rollover_overwrites_existing_entry :
  let t := 600 * 60000 in
  let s := setRemaining 0 t t 0 (Some "track"%string) (makeDefaultState 0 t) in
  let s' := resetToTodayIfNeeded 0 (t + msPerDay) (t + msPerDay) s s in
  St.dayKey s = 0
  /\ St.dayKey s <> dayKeyByWake 0 (t + msPerDay) (St.wakeMins s)
  /\ (exists old, St.dailyLog s !! 0 = Some old
        /\ Day.windowHitCounts old = Some [1; 0; 0; 0; 0]
        /\ Day.at_ old = t)
  /\ (exists new, St.dailyLog s' !! 0 = Some new
        /\ Day.windowHitCounts new = None
        /\ Day.windowConsumedML new = None
        /\ Day.at_ new = t + msPerDay)
  /\ St.dailyLog s' !! 0 <> St.dailyLog s !! 0
  /\ readWindowHitCounts (St.dailyLog s !! 0) = [1; 0; 0; 0; 0]
  /\ readWindowHitCounts (St.dailyLog s' !! 0) = [0; 0; 0; 0; 0]
  /\ spreadScoreOf (St.dailyLog s !! 0) = 18
  /\ spreadScoreOf (St.dailyLog s' !! 0) = 0.
Proof.
  intros t s s'. split; [reflexivity|]. split; [vm_compute; discriminate|].
  split; [eexists; split; [vm_compute; reflexivity|split; reflexivity]|].
  split; [eexists; split; [vm_compute; reflexivity|repeat split; reflexivity]|].
  split; [vm_compute; discriminate|].
  repeat split; vm_compute; reflexivity.
Qed.

(** ** Undo *)

Lemma sliceInit_sliceLast_snoc {A} (n : nat) (h : list A) (e : A) :
  (0 < n)%nat -> sliceInit (sliceLast (S n) (h ++ [e])) = sliceLast n h.
Proof.
  intros Hn. rewrite !sliceLast_drop by lia.
  unfold sliceInit. rewrite length_app. cbn [length].
  replace (length h + 1 - S n)%nat with (length h - n)%nat by lia.
  rewrite drop_app_le by lia.
  rewrite length_app. cbn [length].
  replace (length (drop (length h - n) h) + 1 - 1)%nat
    with (length (drop (length h - n) h)) by lia.
  now rewrite take_app_length.
Qed.

(** The result of [undo] on a history that ends with [e]. *)
Lemma undo_fields (tz : Z) (s : St.t) (e : Hist.entry) :
  last (St.history s) = Some e ->
  let u := undo tz s in
  let key := dayKeyByWake tz (Hist.t e) (St.wakeMins s) in
  let counts := readWindowHitCounts (St.dailyLog s !! key) in
  let mls := readWindowConsumedML (St.dailyLog s !! key) in
  (St.remaining u = Hist.prevRemaining e
   /\ St.completedBottles u = Hist.prevCompleted e
   /\ St.carryML u = Hist.prevCarry e
   /\ St.extraML u = Hist.prevExtra e
   /\ St.history u = sliceInit (St.history s))
  /\ (St.goalML u = St.goalML s /\ St.bottleML u = St.bottleML s
      /\ St.wakeMins u = St.wakeMins s /\ St.sleepMins u = St.sleepMins s
      /\ St.dayKey u = St.dayKey s /\ St.celebrate u = St.celebrate s)
  /\ (Hist.rhythmWindowIndex e = None -> St.dailyLog u = St.dailyLog s)
  /\ (forall i, Hist.rhythmWindowIndex e = Some i ->
        (forall k, k <> key -> St.dailyLog u !! k = St.dailyLog s !! k)
        /\ readWindowHitCounts (St.dailyLog u !! key)
           = <[Z.to_nat i := Z.max 0 (getZ counts i - default 1 (Hist.rhythmDelta e))]>
               counts
        /\ readWindowConsumedML (St.dailyLog u !! key)
           = (if Qlt_bool 0 (default 0%Q (Hist.rhythmMlDelta e))
              then <[Z.to_nat i :=
                       Qmax 0 (fsub (getQ mls i) (default 0%Q (Hist.rhythmMlDelta e)))]> mls
              else mls)).
Proof.
  intros Hlast u key counts mls. subst u. unfold undo. rewrite Hlast.
  destruct (Hist.rhythmWindowIndex e) as [i|] eqn:Ei.
  - split; [repeat split|]. split; [repeat split|]. split; [discriminate|].
    intros i' [= <-].
    cbn [St.dailyLog St.with_dailyLog St.wakeMins St.with_history St.with_extraML
         St.with_carryML St.with_completedBottles St.with_remaining].
    fold key. fold counts. fold mls.
    split; [|split].
    + intros k Hk. now rewrite lookup_insert_ne.
    + rewrite lookup_insert_eq. apply read_written_counts; [reflexivity|].
      rewrite length_insert. apply readWindowHitCounts_length.
    + rewrite lookup_insert_eq. apply read_written_mls; [reflexivity|].
      destruct (Qlt_bool 0 _); rewrite ?length_insert;
        apply readWindowConsumedML_length.
  - split; [repeat split|]. split; [repeat split|]. split; [reflexivity|].
    intros i [=].
Qed.

Lemma Forall2_Qeq_refl (l : list Q) : Forall2 Qeq l l.
Proof. induction l; constructor; [reflexivity|assumption]. Qed.

Lemma Forall2_Qeq_insert_same (l : list Q) (i : Z) (v : Q) :
  (v == getQ l i)%Q -> Forall2 Qeq (<[Z.to_nat i := v]> l) l.
Proof.
  intros Hv. unfold getQ in Hv.
  destruct (l !! Z.to_nat i) as [x|] eqn:E.
  - rewrite <- (list_insert_id l (Z.to_nat i) x E) at 2.
    apply Forall2_insert; [apply Forall2_Qeq_refl|exact Hv].
  - rewrite list_insert_ge; [apply Forall2_Qeq_refl|].
    now apply lookup_ge_None.
Qed.

Lemma insert_back_Z (l : list Z) (i v : Z) :
  <[Z.to_nat i := getZ l i]> (<[Z.to_nat i := v]> l) = l.
Proof.
  rewrite list_insert_insert_eq. unfold getZ.
  destruct (l !! Z.to_nat i) as [x|] eqn:E; cbn.
  - now apply list_insert_id.
  - apply list_insert_ge. now apply lookup_ge_None.
Qed.

(** An event logged by [updateDailyLogRhythm] and recorded in the history
    entry [e] is taken back by [undo]: the other days keep their entries;
    every day reads the same window hit counts as before the event when the
    counts of the event's day were not negative, and the same window volumes
    when the volumes of the event's day and the volume of the event are
    whole millilitres. *)
Lemma rhythm_roundtrip (tz : Z) (X Y : St.t) (eventAt : Z) (delta : Q)
    (e : Hist.entry) :
  let key := dayKeyByWake tz eventAt (St.wakeMins X) in
  let idx := getRhythmWindowIndexForDayKey tz eventAt key
               (St.wakeMins X) (St.sleepMins X) in
  last (St.history Y) = Some e -> Hist.t e = eventAt ->
  Hist.rhythmWindowIndex e = (if Qle_bool 120 delta then Some idx else None) ->
  Hist.rhythmDelta e = (if Qle_bool 120 delta then Some 1 else None) ->
  Hist.rhythmMlDelta e = (if Qle_bool 120 delta then Some delta else None) ->
  St.wakeMins Y = St.wakeMins X ->
  St.dailyLog Y = updateDailyLogRhythm tz X eventAt delta ->
  (forall k, k <> key -> St.dailyLog (undo tz Y) !! k = St.dailyLog X !! k)
  /\ (Forall (fun c => 0 <= c) (readWindowHitCounts (St.dailyLog X !! key)) ->
      forall k, readWindowHitCounts (St.dailyLog (undo tz Y) !! k)
                = readWindowHitCounts (St.dailyLog X !! k))
  /\ (Forall (fun m => wholeMl m = true) (readWindowConsumedML (St.dailyLog X !! key)) ->
      wholeMl delta = true ->
      forall k, Forall2 Qeq (readWindowConsumedML (St.dailyLog (undo tz Y) !! k))
                            (readWindowConsumedML (St.dailyLog X !! k))).
Proof.
  intros key idx Hlast Ht Hi Hd Hm Hw Hlog.
  destruct (undo_fields tz Y e Hlast) as (_ & _ & Hnone & Hsome).
  rewrite Ht, Hw in Hsome. fold key in Hsome.
  destruct (updateDailyLogRhythm_lookup tz X eventAt delta) as [Ec Em].
  fold key in Ec, Em. fold idx in Ec, Em. rewrite <- Hlog in Ec, Em.
  pose proof (rhythmIndex_range tz eventAt key (St.wakeMins X) (St.sleepMins X))
    as Hidx. fold idx in Hidx.
  pose proof (readWindowHitCounts_length (St.dailyLog X !! key)) as Lc.
  pose proof (readWindowConsumedML_length (St.dailyLog X !! key)) as Lm.
  assert (forall k', k' <> key -> St.dailyLog Y !! k' = St.dailyLog X !! k') as Hother.
  { intros k' Hk'. rewrite Hlog. now apply updateDailyLogRhythm_other. }
  assert (forall k', k' <> key ->
            St.dailyLog (undo tz Y) !! k' = St.dailyLog X !! k') as Hother'.
  { intros k' Hk'. destruct (Qle_bool 120 delta).
    - destruct (Hsome idx Hi) as (Uother & _). rewrite Uother by exact Hk'.
      now apply Hother.
    - rewrite (Hnone Hi). now apply Hother. }
  split; [exact Hother'|]. split.
  - intros Hc k. destruct (decide (k = key)) as [->|Hk];
      [|now rewrite (Hother' k Hk)].
    destruct (Qle_bool 120 delta) eqn:E120.
    + destruct (Hsome idx Hi) as (_ & Uc & _).
      rewrite Uc, Ec, Hd. cbn [from_option id].
      rewrite getZ_insert_eq by lia.
      pose proof (getZ_nonneg _ idx Hc).
      replace (Z.max 0 (Z.max 0 (getZ (readWindowHitCounts (St.dailyLog X !! key)) idx + 1) - 1))
        with (getZ (readWindowHitCounts (St.dailyLog X !! key)) idx) by lia.
      apply insert_back_Z.
    + rewrite (Hnone Hi). exact Ec.
  - intros Hq Hdelta k. destruct (decide (k = key)) as [->|Hk];
      [|rewrite (Hother' k Hk); apply Forall2_Qeq_refl].
    destruct (Qle_bool 120 delta) eqn:E120.
    + destruct (Hsome idx Hi) as (_ & _ & Um).
      rewrite Um, Em, Hm. cbn [from_option id].
      apply Qle_bool_iff in E120.
      assert (Qlt_bool 0 delta = true) as ->.
      { unfold Qlt_bool. destruct (Qle_bool delta 0) eqn:E0; [|reflexivity].
        apply Qle_bool_iff in E0. lra. }
      rewrite getQ_insert_eq by lia. rewrite list_insert_insert_eq.
      apply Forall2_Qeq_insert_same.
      apply whole_volume_roundtrip; [|exact Hdelta].
      apply getQ_whole; [exact Hq|lia].
    + rewrite (Hnone Hi), Em. apply Forall2_Qeq_refl.
Qed.

Lemma consumptionRestored_intro (tz : Z) (s s' : St.t) (e : Hist.entry) :
  St.history s' = sliceLast 50 (St.history s ++ [e]) ->
  Hist.prevRemaining e = St.remaining s ->
  Hist.prevCompleted e = St.completedBottles s ->
  Hist.prevCarry e = orZero (St.carryML s) ->
  Hist.prevExtra e = orZero (St.extraML s) ->
  last (St.history s') = Some e /\ consumptionRestored s (undo tz s').
Proof.
  intros Hh Hr Hc Hca Hex.
  assert (last (St.history s') = Some e) as Hlast
    by (rewrite Hh; apply sliceLast_snoc_last; lia).
  split; [exact Hlast|].
  destruct (undo_fields tz s' e Hlast) as ((Ur & Uc & Uca & Uex & Uh) & _).
  assert (St.history (undo tz s') = sliceLast 49 (St.history s)) as Hhist.
  { rewrite Uh, Hh. apply sliceInit_sliceLast_snoc. lia. }
  unfold consumptionRestored. rewrite Ur, Uc, Uca, Uex, Hr, Hc, Hca, Hex.
  repeat split; try apply orZero_eq; try exact Hhist.
  intros Hlen. rewrite Hhist. apply sliceLast_short. lia.
Qed.

(** C2, as the code has it.  On the stored day, [undo] right after one
    [setRemaining] or one [addExtra] gives back the level, the completed
    bottles, the carry and the extra of before, and the history of before
    when it had fewer than 50 entries (its last 49 otherwise).  After a
    tracked [setRemaining] or an [addExtra] the entries of the days other
    than the event's are the same as before; every day of the log reads the
    same window hit counts as before when the counts of the event's day were
    not negative, and the same window volumes as before when the volumes of
    the event's day and the volume of the event (for [setRemaining], the
    totals before and after it) are whole millilitres.  The entry of the
    event's day itself is rewritten. *)
Theorem undo_after_single_mutation
    (tz now eventAt : Z) (r ml : Q) (action : option string) (s : St.t) :
  sameDay tz now s ->
  let key := dayKeyByWake tz eventAt (St.wakeMins s) in
  let tracked := setRemaining tz now eventAt r (Some "track"%string) s in
  let added := addExtra tz now eventAt ml s in
  (consumptionRestored s (undo tz (setRemaining tz now eventAt r action s))
   /\ consumptionRestored s (undo tz added))
  /\ (otherDaysKept key s (undo tz tracked) /\ otherDaysKept key s (undo tz added))
  /\ (Forall (fun c => 0 <= c) (readWindowHitCounts (St.dailyLog s !! key)) ->
      hitsRestored s (undo tz tracked) /\ hitsRestored s (undo tz added))
  /\ (Forall (fun m => wholeMl m = true) (readWindowConsumedML (St.dailyLog s !! key)) ->
      (wholeMl (totalConsumedFromState s) = true ->
       wholeMl (totalConsumedFromState tracked) = true ->
       volumesRestored s (undo tz tracked))
      /\ (wholeMl ml = true -> volumesRestored s (undo tz added))).
Proof.
  intros Hday key tracked added.
  set (delta :=
         Qmax 0 (totalConsumedFromState (levelSet r s) - totalConsumedFromState s)).
  assert (totalConsumedFromState tracked = totalConsumedFromState (levelSet r s)) as Etot.
  { pose proof (setRemaining_fields tz now eventAt r (Some "track"%string) s) as F.
    cbv zeta in F. rewrite (dayChecked_same _ _ _ Hday) in F. apply F. }
  assert (consumptionRestored s (undo tz (setRemaining tz now eventAt r action s))) as C1.
  { destruct (setRemaining_history tz now eventAt r action s)
      as (e & Eh & _ & Er & Ec & Eca & Eex & _).
    rewrite (dayChecked_same _ _ _ Hday) in *.
    now apply (consumptionRestored_intro tz s _ e). }
  assert (consumptionRestored s (undo tz added)) as C2.
  { destruct (addExtra_fields tz now eventAt ml s)
      as (_ & _ & _ & (e & Eh & _ & Er & Ec & Eca & Eex & _) & _).
    rewrite (dayChecked_same _ _ _ Hday) in *.
    now apply (consumptionRestored_intro tz s _ e). }
  assert ((forall k, k <> key -> St.dailyLog (undo tz tracked) !! k = St.dailyLog s !! k)
          /\ (Forall (fun c => 0 <= c) (readWindowHitCounts (St.dailyLog s !! key)) ->
              forall k, readWindowHitCounts (St.dailyLog (undo tz tracked) !! k)
                        = readWindowHitCounts (St.dailyLog s !! k))
          /\ (Forall (fun m => wholeMl m = true)
                 (readWindowConsumedML (St.dailyLog s !! key)) ->
              wholeMl delta = true ->
              forall k, Forall2 Qeq (readWindowConsumedML (St.dailyLog (undo tz tracked) !! k))
                                    (readWindowConsumedML (St.dailyLog s !! k))))
    as (T1 & T2 & T3).
  { destruct (setRemaining_history tz now eventAt r (Some "track"%string) s)
      as (e & Eh & Et & Er & Ec & Eca & Eex & _ & Ei & Ed & Em & El).
    pose proof (setRemaining_fields tz now eventAt r (Some "track"%string) s)
      as (_ & _ & Fw & _).
    cbv zeta in Fw.
    rewrite (dayChecked_same _ _ _ Hday) in *.
    destruct (consumptionRestored_intro tz s _ e Eh Er Ec Eca Eex) as [Hlast _].
    destruct (levelSet_frame r s) as (_ & _ & Lw & Lsl & _ & _ & _ & Ll & _).
    change (isTrack (Some "track"%string)) with true in El. cbv iota in El.
    fold tracked in Eh, El, Fw, Hlast.
    set (X := St.with_history (St.history tracked) (levelSet r s)) in *.
    assert (St.wakeMins X = St.wakeMins s) as Xw by exact Lw.
    assert (St.sleepMins X = St.sleepMins s) as Xs by exact Lsl.
    assert (St.dailyLog X = St.dailyLog s) as Xl by exact Ll.
    pose proof (rhythm_roundtrip tz X tracked eventAt delta e) as RT.
    cbv zeta in RT. rewrite Xw, Xs, Xl in RT. fold key in RT.
    apply RT; assumption. }
  assert ((forall k, k <> key -> St.dailyLog (undo tz added) !! k = St.dailyLog s !! k)
          /\ (Forall (fun c => 0 <= c) (readWindowHitCounts (St.dailyLog s !! key)) ->
              forall k, readWindowHitCounts (St.dailyLog (undo tz added) !! k)
                        = readWindowHitCounts (St.dailyLog s !! k))
          /\ (Forall (fun m => wholeMl m = true)
                 (readWindowConsumedML (St.dailyLog s !! key)) ->
              wholeMl ml = true ->
              forall k, Forall2 Qeq (readWindowConsumedML (St.dailyLog (undo tz added) !! k))
                                    (readWindowConsumedML (St.dailyLog s !! k))))
    as (A1 & A2 & A3).
  { destruct (addExtra_fields tz now eventAt ml s)
      as ((_ & _ & Fw & _) & _ & _ & (e & Eh & Et & Er & Ec & Eca & Eex & _ & _ & Ei & Ed & Em) & El).
    rewrite (dayChecked_same _ _ _ Hday) in *.
    destruct (consumptionRestored_intro tz s _ e Eh Er Ec Eca Eex) as [Hlast _].
    fold added in Eh, El, Fw, Hlast.
    set (X := St.with_history (St.history added) (St.with_extraML (St.extraML added) s)) in *.
    pose proof (rhythm_roundtrip tz X added eventAt ml e) as RT.
    cbv zeta in RT.
    change (St.wakeMins X) with (St.wakeMins s) in RT.
    change (St.sleepMins X) with (St.sleepMins s) in RT.
    change (St.dailyLog X) with (St.dailyLog s) in RT.
    fold key in RT.
    apply RT; assumption. }
  split; [split; assumption|]. split; [split; assumption|]. split.
  - intros Hc. split; [exact (T2 Hc) | exact (A2 Hc)].
  - intros Hq. split.
    + intros Hb Ha. rewrite Etot in Ha.
      exact (T3 Hq (wholeMl_diff _ _ Hb Ha)).
    + intros Hd. exact (A3 Hq Hd).
Qed.

Lemma undo_after_single_mutation_witness :
  let t := 600 * 60000 in
  let s := makeDefaultState 0 t in
  sameDay 0 t s
  /\ consumptionRestored s (undo 0 (setRemaining 0 t t (1 # 2) (Some "track"%string) s))
  /\ hitsRestored s (undo 0 (setRemaining 0 t t (1 # 2) (Some "track"%string) s))
  /\ volumesRestored s (undo 0 (addExtra 0 t t 250 s)).
Proof.
  intros t s.
  assert (sameDay 0 t s) as Hday by reflexivity.
  assert (Forall (fun c => 0 <= c)
            (readWindowHitCounts (St.dailyLog s !! dayKeyByWake 0 t (St.wakeMins s))))
    as Hc by (vm_compute; repeat constructor; discriminate).
  assert (Forall (fun m => wholeMl m = true)
            (readWindowConsumedML (St.dailyLog s !! dayKeyByWake 0 t (St.wakeMins s))))
    as Hq by (vm_compute; repeat constructor).
  assert (wholeMl 250 = true) as Hml by reflexivity.
  pose proof (undo_after_single_mutation 0 t t (1 # 2) 250 (Some "track"%string) s Hday)
    as (C & _ & H & V).
  split; [exact Hday|]. split; [exact (proj1 C)|].
  split; [exact (proj1 (H Hc)) | exact (proj2 (V Hq) Hml)].
Defined.

(** C2, counterexample.  On a fresh default day, tracking the bottle down to
    one half and undoing it leaves the level at 1 but not the daily log: the
    log was empty and now holds an entry for the day.  And with 50 entries
    in the history, a quick-add followed by undo leaves 49. *)
Lemma undo_does_not_restore_dailyLog :
  let t := 600 * 60000 in
  let s := makeDefaultState 0 t in
  let u := undo 0 (setRemaining 0 t t (1 # 2) (Some "track"%string) s) in
  let e0 := {| Hist.t := t; Hist.prevRemaining := 1; Hist.prevCompleted := 0;
               Hist.prevCarry := 0; Hist.prevExtra := 0;
               Hist.action := Some "extra"%string; Hist.ml := Some 0%Q;
               Hist.rhythmWindowIndex := None; Hist.rhythmDelta := None;
               Hist.rhythmMlDelta := None |} in
  let full := St.with_history (replicate 50 e0) s in
  sameDay 0 t s
  /\ St.remaining u = St.remaining s
  /\ St.dailyLog s !! 0 = None
  /\ (exists e, St.dailyLog u !! 0 = Some e /\ Day.lastEventAt e = Some t)
  /\ St.dailyLog u <> St.dailyLog s
  /\ sameDay 0 t full
  /\ length (St.history full) = 50%nat
  /\ length (St.history (undo 0 (addExtra 0 t t 50 full))) = 49%nat
  /\ St.history (undo 0 (addExtra 0 t t 50 full)) <> St.history full.
Proof.
  intros t s u e0 full.
  split; [reflexivity|]. split; [reflexivity|]. split; [reflexivity|].
  split; [eexists; split; [vm_compute; reflexivity|reflexivity]|].
  split.
  { intros H. apply (f_equal (fun m : gmap Z Day.entry => m !! 0)) in H.
    vm_compute in H. discriminate H. }
  split; [reflexivity|]. split; [reflexivity|].
  assert (length (St.history (undo 0 (addExtra 0 t t 50 full))) = 49%nat) as Hlen
    by (vm_compute; reflexivity).
  split; [exact Hlen|].
  intros H. rewrite H in Hlen. vm_compute in Hlen. discriminate Hlen.
Qed.

(** The window volume that [undo] leaves for a fractional volume.  With a
    bottle of 473.2 ml (the double nearest to it), tracking the bottle empty
    attributes that volume to the window; a quick-add of 250 ml adds to it,
    and undoing the quick-add leaves 473.20000000000005, the next double up,
    not the volume of before. *)
Lemma undo_leaves_rounding_residue :
  let t := 600 * 60000 in
  let s0 :=
    {| St.goalML := 2000; St.bottleML := toDouble (4732 # 10);
       St.wakeMins := 480; St.sleepMins := 1320; St.dayKey := 0;
       St.completedBottles := 0; St.remaining := 1;
       St.carryML := 0; St.extraML := 0;
       St.dailyLog := ∅; St.history := []; St.celebrate := None |} in
  let s1 := setRemaining 0 t t 0 (Some "track"%string) s0 in
  let u := undo 0 (addExtra 0 t t 250 s1) in
  let before := getQ (readWindowConsumedML (St.dailyLog s1 !! 0)) 0 in
  let after := getQ (readWindowConsumedML (St.dailyLog u !! 0)) 0 in
  sameDay 0 t s1
  /\ (before == 8324622436217651 # 17592186044416)%Q
  /\ (after == 2081155609054413 # 4398046511104)%Q
  /\ ~ (after == before)%Q.
Proof.
  intros t s0 s1 u before after.
  split; [reflexivity|].
  assert (before == 8324622436217651 # 17592186044416)%Q as Hb
    by (vm_compute; reflexivity).
  assert (after == 2081155609054413 # 4398046511104)%Q as Ha
    by (vm_compute; reflexivity).
  split; [exact Hb|]. split; [exact Ha|].
  rewrite Ha, Hb. vm_compute. discriminate.
Qed.

(** ** Rate-limited estimation *)

Lemma jitter_range (w : Estimate.World) (attempt : Z) :
  (0 <= Estimate.random w attempt < 1)%Q ->
  0 <= Estimate.jitterMs w attempt < 450.
Proof.
  intros [H0 H1]. unfold Estimate.jitterMs, Math.floor. split.
  - change 0 with (Qfloor 0). apply Qfloor_resp_le. lra.
  - pose proof (Qfloor_le (Estimate.random w attempt * 450)) as Hf.
    rewrite Zlt_Qlt. change (inject_Z 450) with 450%Q. lra.
Qed.

Lemma waitMs_cases (w : Estimate.World) (attempt : Z) :
  let parsed := Estimate.parseRetryAfterToMs (Estimate.dateNow w attempt)
                  (Estimate.retryAfter (Estimate.fetch w attempt)) in
  (exists ms, parsed = Some ms /\ 0 < ms /\ Estimate.waitMs w attempt = ms)
  \/ ((parsed = None \/ exists ms, parsed = Some ms /\ ms <= 0)
      /\ Estimate.waitMs w attempt
         = Estimate.backoffMs attempt + Estimate.jitterMs w attempt).
Proof.
  intros parsed. unfold Estimate.waitMs. fold parsed.
  destruct parsed as [ms|].
  - destruct (Z.ltb_spec 0 ms); [left; eauto|right; eauto].
  - right. eauto.
Qed.

(** C10, as the code has it.  A response 429 to the first request makes
    the caller sleep the wait of that attempt and send exactly one more
    request.  The wait is the parsed [Retry-After] (seconds, else an HTTP
    date) when that is positive, and otherwise the backoff
    [min 20000 (1200 * 2^(attempt-1))] plus the jitter
    [floor (random * 450)], which is one of 0 to 449: the wait is never
    below the backoff.  When the retry is rate-limited too the outcome is
    the rate-limit error carrying the wait of the second attempt; any other
    response that is not 2xx gives the generic failure carrying its
    status. *)
Theorem rate_limited_retry_once (w : Estimate.World) :
  (forall attempt, (0 <= Estimate.random w attempt < 1)%Q) ->
  let run := Estimate.estimatePercentFull w in
  let r1 := Estimate.fetch w 1 in
  let r2 := Estimate.fetch w 2 in
  (Estimate.status r1 = 429 ->
     Estimate.requests run = 2%nat
     /\ Estimate.sleeps run = [Estimate.waitMs w 1]
     /\ (Estimate.status r2 = 429 ->
           Estimate.outcome run = Estimate.RateLimitError (Some (Estimate.waitMs w 2)))
     /\ (Estimate.status r2 <> 429 -> Estimate.ok r2 = false ->
           exists detail,
             Estimate.outcome run = Estimate.ScanFailed (Estimate.status r2) detail))
  /\ (Estimate.status r1 <> 429 -> Estimate.ok r1 = false ->
        Estimate.requests run = 1%nat /\ Estimate.sleeps run = []
        /\ exists detail,
             Estimate.outcome run = Estimate.ScanFailed (Estimate.status r1) detail)
  /\ (forall attempt,
        let parsed := Estimate.parseRetryAfterToMs (Estimate.dateNow w attempt)
                        (Estimate.retryAfter (Estimate.fetch w attempt)) in
        let backoff := Z.min 20000 (1200 * 2 ^ (attempt - 1)) in
        let jitter := Qfloor (Estimate.random w attempt * 450) in
        (forall ms, parsed = Some ms -> 0 < ms -> Estimate.waitMs w attempt = ms)
        /\ ((parsed = None \/ exists ms, parsed = Some ms /\ ms <= 0) ->
              Estimate.waitMs w attempt = backoff + jitter
              /\ 0 <= jitter <= 449
              /\ backoff <= Estimate.waitMs w attempt <= backoff + 449))
  /\ (Estimate.backoffMs 1 = 1200 /\ Estimate.backoffMs 2 = 2400
      /\ forall attempt, 1 <= attempt ->
           Estimate.backoffMs attempt <= 20000
           /\ Estimate.backoffMs (attempt + 1)
              = Z.min 20000 (2 * (1200 * 2 ^ (attempt - 1))))
  /\ (forall now seconds date,
        (0 <= seconds)%Q ->
        Estimate.parseRetryAfterToMs now
          (Some {| Estimate.asNumber := Some seconds; Estimate.asDate := date |})
        = Some (Math.round (seconds * 1000)))
  /\ (forall now date,
        Estimate.parseRetryAfterToMs now
          (Some {| Estimate.asNumber := None; Estimate.asDate := Some date |})
        = Some (Z.max 0 (date - now))).
Proof.
  intros Hrand run r1 r2.
  split; [|split; [|split; [|split; [|split]]]].
  - intros H1. subst run. unfold Estimate.estimatePercentFull.
    change (Z.to_nat Estimate.MAX_ATTEMPTS) with 2%nat.
    cbn [Estimate.attempts]. fold r1. rewrite H1. cbn [Z.eqb Pos.eqb].
    change (1 <? Estimate.MAX_ATTEMPTS) with true. cbv iota.
    change (1 + 1) with 2. fold r2.
    destruct (Z.eqb_spec (Estimate.status r2) 429) as [H2|H2].
    + change (2 <? Estimate.MAX_ATTEMPTS) with false. cbv iota. cbn.
      split; [reflexivity|]. split; [reflexivity|].
      split; [reflexivity|]. intros Hne. contradiction.
    + destruct (Estimate.ok r2) eqn:Hok; cbn [negb].
      * destruct (Estimate.percent_full r2), (Estimate.fill_fraction r2); cbn;
          (split; [reflexivity|]; split; [reflexivity|];
           split; [intros; contradiction|intros; discriminate]).
      * cbn. split; [reflexivity|]. split; [reflexivity|].
        split; [intros; contradiction|]. intros _ _. eexists. reflexivity.
  - intros H1 Hok. subst run. unfold Estimate.estimatePercentFull.
    change (Z.to_nat Estimate.MAX_ATTEMPTS) with 2%nat.
    cbn [Estimate.attempts]. fold r1.
    destruct (Z.eqb_spec (Estimate.status r1) 429); [contradiction|].
    rewrite Hok. cbn. repeat split. eexists. reflexivity.
  - intros attempt parsed backoff jitter.
    pose proof (jitter_range w attempt (Hrand attempt)) as Hj.
    change (Estimate.jitterMs w attempt) with jitter in Hj.
    destruct (waitMs_cases w attempt) as [(ms & E & Hpos & Ew)|[Hno Ew]];
      fold parsed in E || fold parsed in Hno.
    + split.
      * intros ms' E' _. congruence.
      * intros [Hn|(ms' & E' & Hle)]; [congruence|].
        assert (ms' = ms) by congruence. lia.
    + change (Estimate.backoffMs attempt + Estimate.jitterMs w attempt)
        with (backoff + jitter) in Ew.
      split.
      * intros ms E Hpos. destruct Hno as [Hn|(ms' & E' & Hle)]; [congruence|].
        assert (ms' = ms) by congruence. lia.
      * intros _. rewrite Ew. lia.
  - split; [reflexivity|]. split; [reflexivity|].
    intros attempt Ha. unfold Estimate.backoffMs. split; [lia|].
    replace (attempt + 1 - 1) with (Z.succ (attempt - 1)) by lia.
    rewrite Z.pow_succ_r by lia. f_equal. lia.
  - intros now seconds date Hs. unfold Estimate.parseRetryAfterToMs. cbn.
    apply Qle_bool_iff in Hs. now rewrite Hs.
  - intros now date. reflexivity.
Qed.

(** A first answer 429 without a [Retry-After] header, then a success: the
    caller sleeps the backoff of 1200 ms plus the jitter of the draw 1/2,
    225 ms, and returns the percentage of the second answer. *)
Lemma rate_limited_retry_once_witness :
  let w := {| Estimate.fetch := fun attempt =>
                if attempt =? 1
                then {| Estimate.status := 429;
                        Estimate.retryAfter := None;
                        Estimate.percent_full := None;
                        Estimate.fill_fraction := None;
                        Estimate.apiMessage := None;
                        Estimate.raw := EmptyString |}
                else {| Estimate.status := 200;
                        Estimate.retryAfter := None;
                        Estimate.percent_full := Some 67%Q;
                        Estimate.fill_fraction := None;
                        Estimate.apiMessage := None;
                        Estimate.raw := EmptyString |};
              Estimate.random := fun _ => (1 # 2)%Q;
              Estimate.dateNow := fun _ => 0 |} in
  (forall attempt, (0 <= Estimate.random w attempt < 1)%Q)
  /\ Estimate.requests (Estimate.estimatePercentFull w) = 2%nat
  /\ Estimate.sleeps (Estimate.estimatePercentFull w) = [Estimate.waitMs w 1]
  /\ Estimate.waitMs w 1 = 1200 + 225
  /\ Estimate.outcome (Estimate.estimatePercentFull w) = Estimate.Returned 67.
Proof.
  intros w.
  assert (forall attempt, (0 <= Estimate.random w attempt < 1)%Q) as Hrand
    by (intros attempt; vm_compute; split; [discriminate|reflexivity]).
  split; [exact Hrand|].
  destruct (rate_limited_retry_once w Hrand) as (H429 & _ & Hwait & _).
  destruct (H429 eq_refl) as (Hreq & Hsleeps & _).
  split; [exact Hreq|]. split; [exact Hsleeps|].
  split; [|reflexivity].
  exact (proj1 (proj2 (Hwait 1) (or_introl eq_refl))).
Defined.

(** C10, counterexample: the jitter is not within 450 ms on either side of
    the backoff.  Without a [Retry-After] header the first wait is the
    backoff of 1200 ms itself for the least draw and 1649 ms for a draw
    next to 1, and whatever the draw it is never below the backoff, so none
    of the waits from 750 ms up to 1199 ms occurs. *)
Lemma jitter_is_one_sided :
  let w := fun draw : Q =>
    {| Estimate.fetch := fun _ =>
         {| Estimate.status := 429;
            Estimate.retryAfter := None;
            Estimate.percent_full := None;
            Estimate.fill_fraction := None;
            Estimate.apiMessage := None;
            Estimate.raw := EmptyString |};
       Estimate.random := fun _ => draw;
       Estimate.dateNow := fun _ => 0 |} in
  Estimate.waitMs (w 0%Q) 1 = 1200
  /\ Estimate.waitMs (w (999 # 1000)) 1 = 1649
  /\ (forall draw, (0 <= draw < 1)%Q ->
        1200 <= Estimate.waitMs (w draw) 1 <= 1649)
  /\ ~ (exists draw, (0 <= draw < 1)%Q
                     /\ 1200 - 450 <= Estimate.waitMs (w draw) 1 < 1200).
Proof.
  intros w.
  assert (forall draw, (0 <= draw < 1)%Q ->
            1200 <= Estimate.waitMs (w draw) 1 <= 1649) as Hall.
  { intros draw Hd.
    pose proof (jitter_range (w draw) 1 Hd) as Hj.
    change (Estimate.waitMs (w draw) 1)
      with (Estimate.backoffMs 1 + Estimate.jitterMs (w draw) 1).
    change (Estimate.backoffMs 1) with 1200. lia. }
  split; [reflexivity|]. split; [reflexivity|]. split; [exact Hall|].
  intros (draw & Hd & Hlo & Hhi). pose proof (Hall draw Hd). lia.
Qed.


(** * Further properties *)

(** ** Snapping *)

Lemma round_inject_Z (z : Z) : Math.round (inject_Z z) = z.
Proof.
  unfold Math.round. apply Z.le_antisymm.
  - assert (Qfloor (inject_Z z + (1 # 2)) < z + 1); [|lia].
    rewrite Zlt_Qlt. pose proof (Qfloor_le (inject_Z z + (1 # 2))) as H.
    rewrite inject_Z_plus. change (inject_Z 1) with 1%Q. lra.
  - rewrite <- (Qfloor_Z z) at 1. apply Qfloor_resp_le. lra.
Qed.





(** ** Day keys along the time line *)

(** X2. The day key by wake does not decrease with time and grows by exactly
    one every 24 hours; the previous-day key is the key minus one, which is
    the key of the instant 24 hours earlier; and wake minutes that differ by
    whole days give the same key. *)
Theorem dayKeyByWake_along_time (tz d wakeMins : Z) :
  (forall d', d <= d' -> dayKeyByWake tz d wakeMins <= dayKeyByWake tz d' wakeMins)
  /\ dayKeyByWake tz (d + msPerDay) wakeMins = dayKeyByWake tz d wakeMins + 1
  /\ prevDayKeyByWake tz d wakeMins = dayKeyByWake tz d wakeMins - 1
  /\ prevDayKeyByWake tz d wakeMins = dayKeyByWake tz (d - msPerDay) wakeMins
  /\ (forall n, dayKeyByWake tz d (wakeMins + 1440 * n) = dayKeyByWake tz d wakeMins).
Proof.
  assert (0 < msPerDay) as HD by reflexivity.
  unfold dayKeyByWake, prevDayKeyByWake, dayKey.
  set (b := wakeBoundaryMins wakeMins).
  split; [|split; [|split; [|split]]].
  - intros d' Hle. apply Z.div_le_mono; lia.
  - replace (d + msPerDay - b * 60 * 1000 + tz)
      with (d - b * 60 * 1000 + tz + 1 * msPerDay) by lia.
    apply Z.div_add. lia.
  - replace (d - b * 60 * 1000 - msPerDay + tz)
      with (d - b * 60 * 1000 + tz + (-1) * msPerDay) by lia.
    rewrite Z.div_add by lia. lia.
  - f_equal. lia.
  - intros n.
    assert (wakeBoundaryMins (wakeMins + 1440 * n) = b) as ->; [|reflexivity].
    subst b. rewrite !wakeBoundaryMins_mod.
    rewrite (Z.mul_comm 1440 n). apply Z_mod_plus_full.
Qed.

(** X3. The time until the next boundary is positive and at most 24 hours;
    the day key stays the same until then and is one more exactly from that
    instant on. *)
Theorem msUntilNextWake_is_next_key_change (tz d wakeMins : Z) :
  let ms := msUntilNextWake tz d wakeMins in
  0 < ms <= msPerDay
  /\ (forall x, 0 <= x < ms ->
        dayKeyByWake tz (d + x) wakeMins = dayKeyByWake tz d wakeMins)
  /\ dayKeyByWake tz (d + ms) wakeMins = dayKeyByWake tz d wakeMins + 1.
Proof.
  intros ms. subst ms.
  assert (0 < msPerDay) as HD by reflexivity.
  pose proof (boundary_range wakeMins) as Hb.
  unfold msUntilNextWake, dayKeyByWake.
  set (b := wakeBoundaryMins wakeMins) in *.
  pose proof (Z.div_mod (d + tz) msPerDay ltac:(lia)) as E.
  pose proof (Z.mod_pos_bound (d + tz) msPerDay HD) as Hr.
  set (q := (d + tz) / msPerDay) in *. set (r := (d + tz) mod msPerDay) in *.
  assert (msPerMinute = 60000) as Hm by reflexivity.
  assert (msPerDay = 86400000) as Hday by reflexivity.
  assert (b * 60 * 1000 = b * msPerMinute) as Hbm by lia.
  destruct (Z.geb_spec d (q * msPerDay - tz + b * msPerMinute)) as [Hge|Hlt].
  - assert (dayKey tz (d - b * 60 * 1000) = q) as K0
      by (apply dayKey_interval; lia).
    rewrite K0. split; [lia|]. split.
    + intros x Hx. apply dayKey_interval. lia.
    + apply dayKey_interval. lia.
  - assert (dayKey tz (d - b * 60 * 1000) = q - 1) as K0
      by (apply dayKey_interval; lia).
    rewrite K0. split; [lia|]. split.
    + intros x Hx. apply dayKey_interval. lia.
    + apply dayKey_interval. lia.
Qed.

(** ** Goal recommendation and clock inputs *)



(** X5. Splitting a minute count into 12-hour clock parts and putting the
    parts together again gives back the count (clamped into [0,2879]), the
    day offset counting the 1440 minutes of a next-day time; the parts are a
    12-hour clock reading. *)
Theorem timeParts_toMinutes_roundtrip (mins : Z) :
  let p := timeParts mins in
  toMinutes (Tp.h12 p) (Tp.min p) (Tp.ampm p) + 1440 * Tp.dayOffset p
  = clamp mins 0 2879
  /\ 1 <= Tp.h12 p <= 12 /\ 0 <= Tp.min p <= 59 /\ 0 <= Tp.dayOffset p <= 1
  /\ 0 <= toMinutes (Tp.h12 p) (Tp.min p) (Tp.ampm p) <= 1439.
Proof.
  intros p. subst p. unfold timeParts, toMinutes. cbn [Tp.h12 Tp.min Tp.ampm Tp.dayOffset].
  pose proof (clamp_range mins 0 2879 ltac:(lia)) as Hm.
  set (m := clamp mins 0 2879) in *.
  assert (Z.rem m 1440 = m mod 1440) as -> by (apply Z.rem_mod_nonneg; lia).
  pose proof (Z.mod_pos_bound m 1440 ltac:(lia)) as Hl.
  set (l := m mod 1440) in *.
  assert (m = l + 1440 * (if m >=? 1440 then 1 else 0)) as Hml.
  { subst l. destruct (Z.geb_spec m 1440).
    - pose proof (Z.div_mod m 1440 ltac:(lia)).
      assert (m / 1440 = 1) by (apply div_interval; lia). lia.
    - rewrite Z.mod_small by lia. lia. }
  assert (Z.rem l 60 = l mod 60) as -> by (apply Z.rem_mod_nonneg; lia).
  pose proof (Z.mod_pos_bound l 60 ltac:(lia)) as Hmin.
  pose proof (Z.div_mod l 60 ltac:(lia)) as Hdm.
  assert (0 <= l / 60 <= 23) as Hh.
  { split; [apply Z.div_pos; lia|].
    assert (l / 60 < 24); [apply Z.div_lt_upper_bound; lia | lia]. }
  set (h := l / 60) in *. set (mi := l mod 60) in *.
  assert (Z.rem h 12 = h mod 12) as -> by (apply Z.rem_mod_nonneg; lia).
  pose proof (Z.mod_pos_bound h 12 ltac:(lia)) as Hh12.
  pose proof (Z.div_mod h 12 ltac:(lia)) as Hd12.
  assert (h / 12 = if h >=? 12 then 1 else 0) as Hq.
  { destruct (Z.geb_spec h 12); apply div_interval; lia. }
  rewrite (clamp_id mi 0 59) by lia.
  assert (forall x, 1 <= x <= 12 -> Z.rem (clamp x 1 12) 12 = x mod 12) as Hc.
  { intros x Hx. rewrite clamp_id by lia. apply Z.rem_mod_nonneg; lia. }
  destruct (Z.eqb_spec (h mod 12) 0) as [E0|E0].
  - rewrite Hc by lia. change (12 mod 12) with 0.
    destruct (Z.geb_spec h 12); destruct (Z.geb_spec m 1440); lia.
  - rewrite Hc by lia. rewrite Z.mod_mod by lia.
    destruct (Z.geb_spec h 12); destruct (Z.geb_spec m 1440); lia.
Qed.

Lemma normalizeHourInput_range (n : option Q) : 1 <= normalizeHourInput n <= 12.
Proof.
  unfold normalizeHourInput. destruct n as [n|]; [|lia].
  destruct (Z.leb_spec (Math.round n) 0); [lia|].
  destruct (Z.gtb_spec (Math.round n) 12); lia.
Qed.

Lemma normalizeMinuteInput_range (n : option Q) : 0 <= normalizeMinuteInput n <= 59.
Proof.
  unfold normalizeMinuteInput. destruct n as [n|]; [|lia].
  apply clamp_range. lia.
Qed.

Lemma toMinutes_range (h m : Z) (ap : Meridiem) : 0 <= toMinutes h m ap <= 1439.
Proof.
  unfold toMinutes.
  pose proof (clamp_range h 1 12 ltac:(lia)) as Hh.
  pose proof (clamp_range m 0 59 ltac:(lia)) as Hm.
  set (hh := clamp h 1 12) in *.
  assert (Z.rem hh 12 = hh mod 12) as -> by (apply Z.rem_mod_nonneg; lia).
  pose proof (Z.mod_pos_bound hh 12 ltac:(lia)).
  destruct ap; lia.
Qed.

(** X6. Whatever hours and minutes are entered, the hydration window starts
    within the day, ends after it starts and lasts at most 24 hours; a sleep
    time not after the wake time is taken as next-day. *)
Theorem hydrationWindowFromInputs_positive
    (wakeHour wakeMinute : Q) (wakeMeridiem : Meridiem)
    (sleepHour sleepMinute : Q) (sleepMeridiem : Meridiem) :
  let '(startMins, endMins) :=
    hydrationWindowFromInputs wakeHour wakeMinute wakeMeridiem
      sleepHour sleepMinute sleepMeridiem in
  0 <= startMins <= 1439
  /\ startMins < endMins <= startMins + 1440
  /\ endMins <= 2879
  /\ endMins mod 1440
     = toMinutes (normalizeHourInput (Some sleepHour))
         (normalizeMinuteInput (Some sleepMinute)) sleepMeridiem.
Proof.
  unfold hydrationWindowFromInputs.
  pose proof (toMinutes_range (normalizeHourInput (Some wakeHour))
                (normalizeMinuteInput (Some wakeMinute)) wakeMeridiem) as Hs.
  pose proof (toMinutes_range (normalizeHourInput (Some sleepHour))
                (normalizeMinuteInput (Some sleepMinute)) sleepMeridiem) as He.
  set (st := toMinutes _ _ wakeMeridiem) in *.
  set (en := toMinutes _ _ sleepMeridiem) in *.
  destruct (Z.leb_spec en st).
  - repeat split; try lia.
    rewrite <- (Z.mul_1_l 1440) at 1. rewrite Z_mod_plus_full. apply Z.mod_small. lia.
  - repeat split; try lia. apply Z.mod_small. lia.
Qed.

(** ** Rhythm windows and the stored wake and sleep minutes *)

Lemma minutes_split (x : Z) :
  0 <= x -> x / 60 * msPerHour + Z.rem x 60 * msPerMinute = x * msPerMinute.
Proof.
  intros Hx. rewrite Z.rem_mod_nonneg by lia.
  pose proof (Z.div_mod x 60 ltac:(lia)).
  unfold msPerHour. lia.
Qed.

Lemma window_bounds_same_day (tz key wake sleep : Z) :
  0 <= wake -> wake <= sleep -> sleep <= 1439 ->
  getHydrationWindowBoundsForDayKey tz key wake sleep
  = (key * msPerDay - tz + wake * msPerMinute,
     key * msPerDay - tz + sleep * msPerMinute).
Proof.
  intros Hw Hws Hs. unfold getHydrationWindowBoundsForDayKey.
  destruct (Z.ltb_spec sleep wake); [lia|].
  rewrite (Z.rem_small sleep 1440) by lia.
  f_equal.
  - rewrite <- (minutes_split wake) by lia. lia.
  - rewrite <- (minutes_split sleep) by lia. lia.
Qed.

Lemma window_bounds_next_day (tz key wake sleep : Z) :
  0 <= wake <= 1439 -> 1440 <= sleep <= 2879 ->
  getHydrationWindowBoundsForDayKey tz key wake sleep
  = (key * msPerDay - tz + wake * msPerMinute,
     key * msPerDay - tz + (sleep - 1440) * msPerMinute).
Proof.
  intros Hw Hs. unfold getHydrationWindowBoundsForDayKey.
  destruct (Z.ltb_spec sleep wake).
  - exfalso. lia.
  - assert (Z.rem sleep 1440 = sleep - 1440) as E1.
    { rewrite Z.rem_mod_nonneg by lia. symmetry.
      apply (Z.mod_unique sleep 1440 1); lia. }
    assert (Z.rem sleep 60 = Z.rem (sleep - 1440) 60) as E2.
    { rewrite !Z.rem_mod_nonneg by lia.
      replace sleep with (sleep - 1440 + 24 * 60) at 1 by lia.
      apply Z_mod_plus_full. }
    rewrite E1, E2. f_equal.
    + rewrite <- (minutes_split wake) by lia. lia.
    + rewrite <- (minutes_split (sleep - 1440)) by lia. lia.
Qed.

(** C9.  A window that crosses midnight gets no segments.  When the sleep
    minute is stored as a next-day time (1440 or more, at most 24 hours
    after the wake minute, as the window inputs store it), the end that the
    code computes for the window of a day is not after its start, and every
    event, at any time of any day, is put in segment 0, where the floor of
    the elapsed time over a fifth of the duration ranges over 0 to 4. *)
Theorem rhythm_index_zero_for_next_day_sleep (tz atMs key wake sleep : Z) :
  0 <= wake <= 1439 -> 1440 <= sleep <= wake + 1440 ->
  (let '(start, end_) := getHydrationWindowBoundsForDayKey tz key wake sleep in
   end_ - start <= 0)
  /\ getRhythmWindowIndexForDayKey tz atMs key wake sleep = 0.
Proof.
  intros Hw Hs. unfold getRhythmWindowIndexForDayKey.
  rewrite window_bounds_next_day by lia.
  assert (msPerMinute = 60000) as Hm by reflexivity.
  split; [lia|].
  destruct (Z.leb_spec (key * msPerDay - tz + (sleep - 1440) * msPerMinute
                        - (key * msPerDay - tz + wake * msPerMinute)) 0); [reflexivity|lia].
Qed.

(** Wake at 08:00 and sleep at 01:00, stored as 480 and 1500: an event at
    23:00, 15 hours into the window of 17 hours, is put in segment 0; the
    floor of the elapsed time over a fifth of the duration is 4. *)
Lemma rhythm_index_zero_for_next_day_sleep_witness :
  let atMs := 23 * msPerHour in
  hydrationWindowFromInputs 8 0 AM 1 0 AM = (480, 1500)
  /\ getRhythmWindowIndexForDayKey 0 atMs 0 480 1500 = 0
  /\ clamp (Math.floor (inject_Z (atMs - 8 * msPerHour)
                        / (inject_Z (17 * msPerHour) / 5))) 0 4 = 4.
Proof.
  intros atMs. split; [reflexivity|]. split; [|reflexivity].
  refine (proj2 (rhythm_index_zero_for_next_day_sleep 0 atMs 0 480 1500 _ _));
    vm_compute; split; discriminate.
Defined.

Lemma floor_segment_quotient (a total : Z) :
  0 < total ->
  Math.floor (inject_Z a / (inject_Z total / 5)) = 5 * a / total.
Proof.
  intros Ht.
  assert (0 < inject_Z total)%Q as Hq
    by (change 0%Q with (inject_Z 0); rewrite <- Zlt_Qlt; lia).
  assert (inject_Z a / (inject_Z total / 5) == inject_Z (5 * a) / inject_Z total)%Q as E.
  { rewrite inject_Z_mult. change (inject_Z 5) with 5%Q. field. lra. }
  unfold Math.floor. rewrite E.
  pose proof (Z.div_mod (5 * a) total ltac:(lia)) as Hdm.
  pose proof (Z.mod_pos_bound (5 * a) total Ht) as Hr.
  set (q := 5 * a / total) in *.
  apply Z.le_antisymm.
  - assert (Qfloor (inject_Z (5 * a) / inject_Z total) < q + 1); [|lia].
    rewrite Zlt_Qlt.
    pose proof (Qfloor_le (inject_Z (5 * a) / inject_Z total)) as Hf.
    assert (inject_Z (5 * a) / inject_Z total < inject_Z (q + 1))%Q; [|lra].
    apply Qlt_shift_div_r; [exact Hq|].
    rewrite <- inject_Z_mult, <- Zlt_Qlt. lia.
  - rewrite <- (Qfloor_Z q) at 1. apply Qfloor_resp_le.
    apply Qle_shift_div_l; [exact Hq|].
    rewrite <- inject_Z_mult, <- Zle_Qle. lia.
Qed.

(** X8. With wake and sleep minutes on the same day, an event is never
    before the start of the window of its own day key and is less than 24
    hours after it; its segment is the whole number of fifths of the window
    elapsed since the start, capped at 4. *)
Theorem rhythm_index_of_own_day (tz atMs wake sleep : Z) :
  0 <= wake -> wake < sleep -> sleep <= 1439 ->
  let key := dayKeyByWake tz atMs wake in
  let start := fst (getHydrationWindowBoundsForDayKey tz key wake sleep) in
  let end_ := snd (getHydrationWindowBoundsForDayKey tz key wake sleep) in
  end_ - start = (sleep - wake) * msPerMinute
  /\ start <= atMs < start + msPerDay
  /\ getRhythmWindowIndexForDayKey tz atMs key wake sleep
     = Z.min 4 (5 * (atMs - start) / (end_ - start)).
Proof.
  intros Hw Hws Hs key start end_.
  subst start end_. unfold getRhythmWindowIndexForDayKey.
  rewrite window_bounds_same_day by lia. cbn [fst snd].
  assert (msPerMinute = 60000) as Hm by reflexivity.
  assert (msPerDay = 86400000) as Hday by reflexivity.
  assert (key * msPerDay - tz + wake * msPerMinute <= atMs
          < key * msPerDay - tz + wake * msPerMinute + msPerDay) as Hin.
  { assert (dayKey tz (atMs - wakeBoundaryMins wake * 60 * 1000) = key) as K
      by reflexivity.
    apply dayKey_interval in K.
    rewrite wakeBoundaryMins_mod, Z.mod_small in K by lia. lia. }
  set (start := key * msPerDay - tz + wake * msPerMinute) in *.
  set (end_ := key * msPerDay - tz + sleep * msPerMinute) in *.
  assert (end_ - start = (sleep - wake) * msPerMinute) as Htot by (subst start end_; lia).
  split; [exact Htot|]. split; [exact Hin|].
  destruct (Z.leb_spec (end_ - start) 0); [lia|].
  destruct (Z.geb_spec atMs end_) as [Hge|Hlt].
  - assert (5 <= 5 * (atMs - start) / (end_ - start)); [|lia].
    apply Z.div_le_lower_bound; lia.
  - rewrite clamp_id by lia.
    rewrite floor_segment_quotient by lia.
    assert (0 <= 5 * (atMs - start) / (end_ - start)); [|lia].
    apply Z.div_pos; lia.
Qed.

Lemma rhythm_index_of_own_day_witness :
  0 <= 480 /\ 480 < 1320 /\ 1320 <= 1439
  /\ getRhythmWindowIndexForDayKey 0 (15 * 3600000)
       (dayKeyByWake 0 (15 * 3600000) 480) 480 1320 = 2.
Proof.
  assert (0 <= 480) as H1 by lia. assert (480 < 1320) as H2 by lia.
  assert (1320 <= 1439) as H3 by lia.
  split; [exact H1|]. split; [exact H2|]. split; [exact H3|].
  destruct (rhythm_index_of_own_day 0 (15 * 3600000) 480 1320 H1 H2 H3)
    as (_ & _ & E).
  rewrite E. reflexivity.
Defined.

(** ** Invariants of the mutations *)

Lemma sliceLast_length {A} (n : nat) (l : list A) :
  (0 < n)%nat -> (length (sliceLast n l) <= n)%nat /\ (length (sliceLast n l) <= length l)%nat.
Proof.
  intros Hn. rewrite sliceLast_drop by exact Hn. rewrite length_drop. lia.
Qed.

Lemma dayChecked_dayKey (tz now : Z) (s : St.t) :
  St.dayKey (dayChecked tz now s) = dayKeyByWake tz now (St.wakeMins s)
  /\ St.wakeMins (dayChecked tz now s) = St.wakeMins s
  /\ St.sleepMins (dayChecked tz now s) = St.sleepMins s
  /\ St.goalML (dayChecked tz now s) = St.goalML s
  /\ St.bottleML (dayChecked tz now s) = St.bottleML s
  /\ St.dailyLog (dayChecked tz now s) = St.dailyLog s.
Proof.
  unfold dayChecked.
  destruct (Z.eqb_spec (St.dayKey s) (dayKeyByWake tz now (St.wakeMins s)));
    cbn [negb]; repeat split; assumption.
Qed.

Lemma levelSet_level (r : Q) (ss : St.t) :
  let cap := ceilDiv (St.goalML ss) (St.bottleML ss) in
  (0 <= St.remaining (levelSet r ss) <= 1)%Q
  /\ (0 < cap -> (1 # 10000 < St.remaining (levelSet r ss))%Q)
  /\ St.completedBottles ss <= St.completedBottles (levelSet r ss)
     <= St.completedBottles ss + 1
  /\ (St.completedBottles ss <= cap -> St.completedBottles (levelSet r ss) <= cap).
Proof.
  intros cap. unfold levelSet.
  pose proof (clampQ_range r 0 1 ltac:(lra)) as Hr.
  destruct (Qle_bool (clampQ r 0 1) (1 # 10000)) eqn:E.
  - unfold advanceBottle.
    cbn [St.goalML St.bottleML St.with_remaining St.completedBottles]. fold cap.
    destruct (Z.leb_spec cap 0).
    + cbn. repeat split; try lia; try apply Hr.
    + cbn [St.remaining St.with_remaining St.with_completedBottles St.completedBottles].
      destruct (Z.ltb_spec (St.completedBottles ss) cap);
        repeat split; try lia; try lra; reflexivity.
  - apply Qle_bool_false in E. cbn. repeat split; try lia; try apply Hr. intros _. exact E.
Qed.

(** X9. Whatever level is asked for, whatever the action and the day,
    [setRemaining] leaves a level in [0,1], and above 0.0001 when the goal
    needs at least one bottle (an emptied bottle is refilled); the completed
    count grows by at most one and stays within the cap when it was; the
    history has at most 50 entries; and the stored day is today's. *)
Theorem setRemaining_keeps_state_in_range
    (tz now eventAt : Z) (r : Q) (action : option string) (s : St.t) :
  let ss := dayChecked tz now s in
  let s' := setRemaining tz now eventAt r action s in
  let cap := ceilDiv (St.goalML s) (St.bottleML s) in
  (0 <= St.remaining s' <= 1)%Q
  /\ (0 < cap -> (1 # 10000 < St.remaining s')%Q)
  /\ St.completedBottles ss <= St.completedBottles s' <= St.completedBottles ss + 1
  /\ (0 <= St.completedBottles s <= cap -> 0 <= St.completedBottles s' <= cap)
  /\ (length (St.history s') <= 50)%nat
  /\ (length (St.history s') <= S (length (St.history s)))%nat
  /\ St.dayKey s' = dayKeyByWake tz now (St.wakeMins s)
  /\ ceilDiv (St.goalML s') (St.bottleML s') = cap.
Proof.
  intros ss s' cap.
  pose proof (setRemaining_fields tz now eventAt r action s)
    as (Fg & Fb & _ & _ & Fd & _ & _ & Fc & Fr & _).
  destruct (setRemaining_history tz now eventAt r action s) as (e & Eh & _).
  cbv zeta in Fg, Fb, Fd, Fc, Fr, Eh. fold ss in Fg, Fb, Fd, Fc, Fr, Eh.
  fold s' in Fg, Fb, Fd, Fc, Fr, Eh.
  destruct (dayChecked_dayKey tz now s) as (Dk & _ & _ & Dg & Db & _). fold ss in Dk, Dg, Db.
  destruct (levelSet_level r ss) as (Lr & Le & Lc & Lcap).
  rewrite Dg, Db in Le, Lcap. fold cap in Le, Lcap.
  rewrite Fr, Fc, Fd, Fg, Fb, Dg, Db, Eh.
  split; [exact Lr|]. split; [exact Le|]. split; [exact Lc|].
  split; [|split; [|split; [|split; [exact Dk|reflexivity]]]].
  - intros Hs.
    assert (0 <= St.completedBottles ss <= cap) as Hss.
    { subst ss. unfold dayChecked.
      destruct (negb (St.dayKey s =? dayKeyByWake tz now (St.wakeMins s)));
        cbn [St.completedBottles St.freshDay]; lia. }
    split; [lia|]. apply Lcap. lia.
  - apply sliceLast_length. lia.
  - pose proof (sliceLast_length 50 (St.history ss ++ [e]) ltac:(lia)) as [_ H].
    rewrite length_app in H. cbn [length] in H.
    assert (length (St.history ss) <= length (St.history s))%nat; [|lia].
    subst ss. unfold dayChecked.
    destruct (negb (St.dayKey s =? dayKeyByWake tz now (St.wakeMins s))); cbn; lia.
Qed.

Lemma dayChecked_stale (tz now : Z) (s : St.t) :
  St.dayKey s <> dayKeyByWake tz now (St.wakeMins s) ->
  dayChecked tz now s = St.freshDay (dayKeyByWake tz now (St.wakeMins s)) s.
Proof.
  intros H. unfold dayChecked.
  destruct (Z.eqb_spec (St.dayKey s) (dayKeyByWake tz now (St.wakeMins s)));
    [contradiction|reflexivity].
Qed.

(** X10. A mutation on a stale day starts the new day by itself: the
    progress of the stored day is dropped, the history holds only the new
    entry, and the stored day becomes today's.  Unlike the rollover it
    writes no snapshot: the daily log changes under the key of the event's
    day only, so when the event falls on today the entry of the stored day
    is what it was. *)
Theorem stale_day_mutation_resets_without_snapshot
    (tz now eventAt : Z) (r ml : Q) (s : St.t) :
  let today := dayKeyByWake tz now (St.wakeMins s) in
  St.dayKey s <> today ->
  dayKeyByWake tz eventAt (St.wakeMins s) = today ->
  let a := addExtra tz now eventAt ml s in
  let t := setRemaining tz now eventAt r (Some "track"%string) s in
  (St.dayKey a = today /\ St.dayKey t = today)
  /\ (length (St.history a) = 1%nat /\ length (St.history t) = 1%nat)
  /\ (St.completedBottles a = 0 /\ St.remaining a = 1%Q /\ St.carryML a = 0%Q
      /\ (St.extraML a == clampQ ml 0 100000)%Q)
  /\ (St.carryML t = 0%Q /\ St.extraML t = 0%Q /\ 0 <= St.completedBottles t <= 1)
  /\ (forall k, k <> today ->
        St.dailyLog a !! k = St.dailyLog s !! k
        /\ St.dailyLog t !! k = St.dailyLog s !! k)
  /\ St.dailyLog a !! St.dayKey s = St.dailyLog s !! St.dayKey s
  /\ St.dailyLog t !! St.dayKey s = St.dailyLog s !! St.dayKey s.
Proof.
  intros today Hstale Hev a t. subst today.
  pose proof (addExtra_fields tz now eventAt ml s)
    as ((_ & _ & _ & _ & Ad & _) & (Ar & Ac & Aca) & Ae & (ea & Ah & _) & Al).
  pose proof (setRemaining_fields tz now eventAt r (Some "track"%string) s)
    as (_ & _ & _ & _ & Td & Tca & Te & Tc & _).
  destruct (setRemaining_history tz now eventAt r (Some "track"%string) s)
    as (et & Th & _ & _ & _ & _ & _ & _ & _ & _ & _ & Tl).
  cbv zeta in Ad, Ar, Ac, Aca, Ae, Ah, Al, Td, Tca, Te, Tc, Th, Tl.
  rewrite (dayChecked_stale tz now s Hstale)
    in Ad, Ar, Ac, Aca, Ae, Ah, Al, Td, Tca, Te, Tc, Th, Tl.
  fold a in Ad, Ar, Ac, Aca, Ae, Ah, Al. fold t in Td, Tca, Te, Tc, Th, Tl.
  set (today := dayKeyByWake tz now (St.wakeMins s)) in *.
  change (isTrack (Some "track"%string)) with true in Tl. cbv iota in Tl.
  cbn [St.dayKey St.freshDay St.remaining St.completedBottles St.carryML
       St.extraML St.history] in Ad, Ar, Ac, Aca, Ae, Ah, Td, Tca, Te, Th.
  pose proof (levelSet_level r (St.freshDay today s)) as (_ & _ & Lc & _).
  cbn [St.completedBottles St.freshDay] in Lc.
  assert (forall k, k <> today ->
            St.dailyLog a !! k = St.dailyLog s !! k
            /\ St.dailyLog t !! k = St.dailyLog s !! k) as Hlog.
  { intros k Hk. split.
    - rewrite Al, updateDailyLogRhythm_other; [reflexivity|].
      cbn [St.wakeMins St.with_history St.with_extraML St.freshDay]. congruence.
    - rewrite Tl, updateDailyLogRhythm_other.
      + cbn [St.dailyLog St.with_history].
        now destruct (levelSet_frame r (St.freshDay today s))
          as (_ & _ & _ & _ & _ & _ & _ & -> & _).
      + cbn [St.wakeMins St.with_history].
        destruct (levelSet_frame r (St.freshDay today s))
          as (_ & _ & -> & _). cbn [St.wakeMins St.freshDay]. congruence. }
  split; [split; assumption|].
  split; [split; [rewrite Ah|rewrite Th]; reflexivity|].
  split; [repeat split; try assumption|].
  { rewrite Ae. apply clampQ_proper. change (orZero 0) with 0%Q. ring. }
  split; [rewrite Tc; repeat split; try assumption; lia|].
  split; [exact Hlog|]. split; apply Hlog; exact Hstale.
Qed.

Lemma stale_day_mutation_resets_without_snapshot_witness :
  let t0 := 600 * 60000 in
  let s := setRemaining 0 t0 t0 0 (Some "track"%string) (makeDefaultState 0 t0) in
  let a := addExtra 0 (t0 + msPerDay) (t0 + msPerDay) 250 s in
  St.dayKey s <> dayKeyByWake 0 (t0 + msPerDay) (St.wakeMins s)
  /\ dayKeyByWake 0 (t0 + msPerDay) (St.wakeMins s)
     = dayKeyByWake 0 (t0 + msPerDay) (St.wakeMins s)
  /\ St.dailyLog a !! St.dayKey s = St.dailyLog s !! St.dayKey s.
Proof.
  intros t0 s a.
  assert (St.dayKey s <> dayKeyByWake 0 (t0 + msPerDay) (St.wakeMins s)) as H1
    by (vm_compute; discriminate).
  split; [exact H1|]. split; [reflexivity|].
  apply (stale_day_mutation_resets_without_snapshot 0 (t0 + msPerDay) (t0 + msPerDay)
           0 250 s H1 eq_refl).
Defined.

(** X11. Undo is last-in first-out: after a quick-add followed by a level
    change on the same day, the first undo gives back the level, the
    completed bottles, the carry, the extra and the history that the
    quick-add left, and the second gives back those of the start (the
    history having room for the two entries). *)
Theorem undo_twice_restores_in_order
    (tz now1 e1 now2 e2 : Z) (ml r : Q) (action : option string) (s : St.t) :
  sameDay tz now1 s -> sameDay tz now2 s ->
  (length (St.history s) + 2 <= 50)%nat ->
  let s1 := addExtra tz now1 e1 ml s in
  let s2 := setRemaining tz now2 e2 r action s1 in
  let u1 := undo tz s2 in
  let u2 := undo tz u1 in
  (St.remaining u1 = St.remaining s1
   /\ St.completedBottles u1 = St.completedBottles s1
   /\ (St.carryML u1 == St.carryML s1)%Q
   /\ (St.extraML u1 == St.extraML s1)%Q
   /\ St.history u1 = St.history s1)
  /\ (St.remaining u2 = St.remaining s
      /\ St.completedBottles u2 = St.completedBottles s
      /\ (St.carryML u2 == St.carryML s)%Q
      /\ (St.extraML u2 == St.extraML s)%Q
      /\ St.history u2 = St.history s).
Proof.
  intros D1 D2 Hlen s1 s2 u1 u2.
  pose proof (addExtra_fields tz now1 e1 ml s)
    as ((_ & _ & Aw & _ & Ad & _) & _ & _ & (ea & Ah & _ & Ar & Ac & Aca & Aex & _) & _).
  cbv zeta in Aw, Ad, Ah, Ar, Ac, Aca, Aex.
  rewrite (dayChecked_same _ _ _ D1) in *.
  fold s1 in Aw, Ad, Ah.
  assert (St.history s1 = St.history s ++ [ea]) as Hh1.
  { rewrite Ah. apply sliceLast_short. rewrite length_app. cbn. lia. }
  assert (sameDay tz now2 s1) as D2' by (unfold sameDay in *; congruence).
  destruct (setRemaining_history tz now2 e2 r action s1)
    as (eb & Bh & _ & Br & Bc & Bca & Bex & _).
  rewrite (dayChecked_same _ _ _ D2') in *. fold s2 in Bh.
  assert (St.history s2 = St.history s1 ++ [eb]) as Hh2.
  { rewrite Bh. apply sliceLast_short. rewrite length_app, Hh1, length_app. cbn. lia. }
  assert (last (St.history s2) = Some eb) as L2 by (rewrite Hh2; apply last_snoc).
  destruct (undo_fields tz s2 eb L2) as ((Ur & Uc & Uca & Uex & Uh) & _).
  fold u1 in Ur, Uc, Uca, Uex, Uh.
  assert (St.history u1 = St.history s1) as Hu1.
  { rewrite Uh, Hh2. unfold sliceInit. rewrite length_app. cbn [length].
    replace (length (St.history s1) + 1 - 1)%nat with (length (St.history s1)) by lia.
    apply take_app_length. }
  assert (last (St.history u1) = Some ea) as L1
    by (rewrite Hu1, Hh1; apply last_snoc).
  destruct (undo_fields tz u1 ea L1) as ((Vr & Vc & Vca & Vex & Vh) & _).
  fold u2 in Vr, Vc, Vca, Vex, Vh.
  split.
  - rewrite Ur, Uc, Uca, Uex, Br, Bc, Bca, Bex.
    repeat split; try apply orZero_eq. exact Hu1.
  - rewrite Vr, Vc, Vca, Vex, Ar, Ac, Aca, Aex.
    repeat split; try apply orZero_eq.
    rewrite Vh, Hu1, Hh1. unfold sliceInit. rewrite length_app. cbn [length].
    replace (length (St.history s) + 1 - 1)%nat with (length (St.history s)) by lia.
    apply take_app_length.
Qed.

Lemma undo_twice_restores_in_order_witness :
  let t0 := 600 * 60000 in
  let s := makeDefaultState 0 t0 in
  let u2 := undo 0 (undo 0 (setRemaining 0 t0 t0 (1 # 2) (Some "track"%string)
                              (addExtra 0 t0 t0 250 s))) in
  sameDay 0 t0 s /\ (length (St.history s) + 2 <= 50)%nat
  /\ St.remaining u2 = St.remaining s /\ St.history u2 = St.history s.
Proof.
  intros t0 s u2.
  assert (sameDay 0 t0 s) as D by reflexivity.
  assert (length (St.history s) + 2 <= 50)%nat as L by (cbn; lia).
  split; [exact D|]. split; [exact L|].
  destruct (undo_twice_restores_in_order 0 t0 t0 t0 t0 250 (1 # 2)
              (Some "track"%string) s D D L) as (_ & Hr & _ & _ & _ & Hh).
  split; [exact Hr | exact Hh].
Defined.

(** X12. The rollover is idempotent and leaves a state on today's key: a
    second rollover at the same instant changes nothing (no second snapshot
    is written) and a mutation at that instant works on the state as it is;
    after a day change the total of a goal that is not negative starts at
    0. *)
Theorem rollover_idempotent (tz now at1 at2 : Z) (s : St.t) :
  let s' := resetToTodayIfNeeded tz now at1 s s in
  sameDay tz now s'
  /\ resetToTodayIfNeeded tz now at2 s' s' = s'
  /\ dayChecked tz now s' = s'
  /\ (sameDay tz now s -> s' = s)
  /\ (~ sameDay tz now s -> (0 <= St.goalML s)%Q ->
      (totalConsumedFromState s' == 0)%Q).
Proof.
  intros s'.
  assert (St.wakeMins s' = St.wakeMins s
          /\ St.dayKey s' = dayKeyByWake tz now (St.wakeMins s)
          /\ (sameDay tz now s -> s' = s)
          /\ (~ sameDay tz now s ->
              St.goalML s' = St.goalML s /\ St.completedBottles s' = 0
              /\ St.remaining s' = 1%Q /\ St.carryML s' = 0%Q
              /\ St.extraML s' = 0%Q)) as (Hw & Hd & Hsame & Hstale).
  { subst s'. unfold resetToTodayIfNeeded, resetUpdater, sameDay.
    destruct (Z.eqb_spec (St.dayKey s) (dayKeyByWake tz now (St.wakeMins s))) as [E|E].
    - split; [reflexivity|]. split; [exact E|]. split; [reflexivity|].
      intros Hn. contradiction.
    - cbn. split; [reflexivity|]. split; [reflexivity|].
      split; [intros Hs; contradiction|]. intros _. repeat split. }
  assert (sameDay tz now s') as Hday by (unfold sameDay; congruence).
  split; [exact Hday|]. split; [|split; [now apply dayChecked_same|split; [exact Hsame|]]].
  - unfold resetToTodayIfNeeded, resetUpdater. unfold sameDay in Hday.
    rewrite <- Hday, Z.eqb_refl. reflexivity.
  - intros Hn Hg. destruct (Hstale Hn) as (Eg & Ec & Er & Eca & Eex).
    unfold totalConsumedFromState. rewrite Eg, Ec, Er, Eca, Eex.
    replace (clamp 0 0 (ceilDiv (St.goalML s) (St.bottleML s' ))) with 0
      by (unfold clamp; lia).
    assert (Math.round ((1 - 1) * St.bottleML s') = 0) as ->.
    { unfold Math.round.
      assert ((1 - 1) * St.bottleML s' + (1 # 2) == 1 # 2)%Q as -> by ring.
      reflexivity. }
    change (clamp (Math.round (orZero 0)) 0 100000) with 0.
    assert (inject_Z 0 * St.bottleML s' + inject_Z 0 + inject_Z 0 + inject_Z 0 == 0)%Q
      as -> by ring.
    apply Q.min_r. exact Hg.
Qed.

(** ** Bottle switch and refill *)

Lemma round_proper (x y : Q) : (x == y)%Q -> Math.round x = Math.round y.
Proof. intros H. unfold Math.round. now rewrite H. Qed.

Lemma clampQ_inject_Z (x a b : Z) :
  (clampQ (inject_Z x) (inject_Z a) (inject_Z b) == inject_Z (clamp x a b))%Q.
Proof. unfold clampQ, clamp. now rewrite Qmin_inject_Z, Qmax_inject_Z. Qed.

(** With a whole number of ml for the goal and the bottle, the total is the
    whole number [totalZ]. *)
Lemma total_integer (g b : Z) (s : St.t) :
  (St.goalML s == inject_Z g)%Q -> (St.bottleML s == inject_Z b)%Q ->
  (totalConsumedFromState s == inject_Z (totalZ g b s))%Q.
Proof.
  intros Hg Hb. unfold totalConsumedFromState, totalZ. cbv zeta.
  set (cc := clamp _ 0 (ceilDiv _ _)).
  set (cur := Math.round _).
  set (cy := clamp (Math.round (orZero (St.carryML s))) 0 100000).
  set (xc := clamp (Math.round (orZero (St.extraML s))) 0 100000).
  rewrite Hg, Hb, <- inject_Z_mult, <- !inject_Z_plus.
  apply Qmin_inject_Z.
Qed.

Lemma totalZ_range (g b : Z) (s : St.t) :
  0 <= g -> 0 <= b -> (St.bottleML s == inject_Z b)%Q -> (St.remaining s <= 1)%Q ->
  0 <= totalZ g b s <= g.
Proof.
  intros Hg Hb Eb Hr. unfold totalZ.
  pose proof (clamp_lower (St.completedBottles s) 0
                (ceilDiv (St.goalML s) (St.bottleML s))) as Hc.
  pose proof (clamp_lower (Math.round (orZero (St.carryML s))) 0 100000) as Hy.
  pose proof (clamp_lower (Math.round (orZero (St.extraML s))) 0 100000) as Hx.
  assert (0 <= Math.round ((1 - St.remaining s) * St.bottleML s)) as Hcur.
  { apply round_nonneg. rewrite Eb. apply Qmult_le_0_compat; [lra|].
    now apply inject_Z_nonneg. }
  nia.
Qed.

Lemma round_zero_part (b : Q) : Math.round ((1 - 1) * b) = 0.
Proof.
  rewrite (round_proper _ 0); [reflexivity | ring].
Qed.

(** X13. With a goal and a bottle size of whole millilitres (goal at most
    100000) and a fill level of at most 1, switching the bottle folds the
    whole total into the carry: the new total is the minimum of the new goal
    and the old total, so it is the old total whenever the patch leaves the
    goal alone, whatever bottle size the patch sets; the bottle count, the
    extra and the history start again. *)
Theorem switchBottle_keeps_total (patch : Patch) (s : St.t) (g b : Z) :
  (St.goalML s == inject_Z g)%Q -> 0 <= g <= 100000 ->
  (St.bottleML s == inject_Z b)%Q -> 0 <= b ->
  (St.remaining s <= 1)%Q ->
  let s' := switchBottleKeepingConsumed patch s in
  (totalConsumedFromState s' == Qmin (St.goalML s') (totalConsumedFromState s))%Q
  /\ (p_goalML patch = None ->
      (totalConsumedFromState s' == totalConsumedFromState s)%Q)
  /\ St.completedBottles s' = 0
  /\ St.remaining s' = 1%Q
  /\ (St.extraML s' == 0)%Q
  /\ St.history s' = [].
Proof.
  intros Eg Hg Eb Hb Hr s'.
  pose proof (total_integer g b s Eg Eb) as Ht.
  pose proof (totalZ_range g b s ltac:(lia) Hb Eb Hr) as Hz.
  assert (totalConsumedFromState s'
          == Qmin (St.goalML s') (totalConsumedFromState s))%Q as Hmin.
  { unfold totalConsumedFromState at 1. subst s'.
    cbn [switchBottleKeepingConsumed St.goalML St.bottleML St.completedBottles
         St.remaining St.carryML St.extraML].
    set (goal' := default (St.goalML s) (p_goalML patch)).
    set (bottle' := default (St.bottleML s) (p_bottleML patch)).
    rewrite round_zero_part.
    rewrite (round_orZero (totalConsumedFromState s)),
            (round_proper _ _ Ht), round_inject_Z.
    rewrite (clamp_id (totalZ g b s)) by lia.
    assert (clamp 0 0 (ceilDiv goal' bottle') = 0) as ->
      by (pose proof (clamp_lower 0 0 (ceilDiv goal' bottle')); unfold clamp in *; lia).
    change (orZero 0) with 0%Q. change (Math.round 0) with 0.
    change (clamp 0 0 100000) with 0.
    apply Q.min_compat; [reflexivity|]. rewrite Ht. change (inject_Z 0) with 0%Q. ring. }
  repeat split; try reflexivity; [exact Hmin|].
  intros Hp. rewrite Hmin. subst s'.
  cbn [switchBottleKeepingConsumed St.goalML]. rewrite Hp. cbn [default from_option id].
  apply Q.min_r. rewrite Ht, Eg, <- Zle_Qle. lia.
Qed.

Lemma switchBottle_keeps_total_witness :
  let s := St.with_completedBottles 1
             (St.with_remaining (1 # 2) (makeDefaultState 0 0)) in
  let patch := {| p_goalML := None; p_bottleML := Some 750%Q; p_wakeMins := None;
                  p_sleepMins := None; p_dayKey := None; p_dailyLog := None |} in
  (totalConsumedFromState (switchBottleKeepingConsumed patch s)
   == totalConsumedFromState s)%Q.
Proof.
  intros s patch.
  refine (proj1 (proj2 (switchBottle_keeps_total patch s
                          (Qnum (St.goalML s)) (Qnum (St.bottleML s)) _ _ _ _ _)) _);
    vm_compute; try reflexivity; try (split; discriminate); discriminate.
Defined.

(** The updater of [handleRefill] keeps the total when goal, bottle and
    extra are whole millilitres. *)
Lemma refillUpdater_total (s : St.t) (g b x : Z) :
  (St.goalML s == inject_Z g)%Q -> g <= 100000 ->
  (St.bottleML s == inject_Z b)%Q -> 0 <= b ->
  (St.extraML s == inject_Z x)%Q ->
  (St.remaining s <= 1)%Q ->
  (totalConsumedFromState (refillUpdater s) == totalConsumedFromState s)%Q.
Proof.
  intros Eg Hg Eb Hb Ex Hr.
  pose proof (total_integer g b s Eg Eb) as Ht.
  assert (St.goalML (refillUpdater s) = St.goalML s) as Fg by reflexivity.
  assert (St.bottleML (refillUpdater s) = St.bottleML s) as Fb by reflexivity.
  rewrite (total_integer g b (refillUpdater s)), Ht;
    [|rewrite Fg; exact Eg | rewrite Fb; exact Eb].
  apply inject_Z_injective || f_equal.
  unfold totalZ at 1.
  cbn [refillUpdater St.with_remaining St.with_carryML St.with_celebrate
       St.goalML St.bottleML St.completedBottles St.remaining St.carryML St.extraML].
  rewrite round_zero_part, round_orZero, round_inject_Z.
  set (cc := clamp (St.completedBottles s) 0 (ceilDiv (St.goalML s) (St.bottleML s))).
  assert (Math.round (orZero (St.extraML s)) = x) as Hx.
  { rewrite round_orZero, (round_proper _ _ Ex). apply round_inject_Z. }
  rewrite Hx.
  assert (Math.round (totalConsumedFromState s - inject_Z cc * St.bottleML s
                      - clampQ (orZero (St.extraML s)) 0 100000)
          = totalZ g b s - cc * b - clamp x 0 100000) as Hn.
  { rewrite <- (round_inject_Z (totalZ g b s - cc * b - clamp x 0 100000)).
    apply round_proper.
    rewrite Ht, Eb.
    rewrite (clampQ_proper _ (inject_Z x)) by (rewrite orZero_eq; exact Ex).
    change 0%Q with (inject_Z 0). change 100000%Q with (inject_Z 100000).
    rewrite clampQ_inject_Z.
    unfold Z.sub. rewrite !inject_Z_plus, !inject_Z_opp, inject_Z_mult. ring. }
  rewrite Hn.
  set (nc := clamp (totalZ g b s - cc * b - clamp x 0 100000) 0 100000).
  rewrite (clamp_id nc) by (apply clamp_range; lia).
  assert (0 <= Math.round ((1 - St.remaining s) * St.bottleML s)) as Hcur.
  { apply round_nonneg. rewrite Eb. apply Qmult_le_0_compat; [lra|].
    now apply inject_Z_nonneg. }
  pose proof (clamp_lower (St.completedBottles s) 0
                (ceilDiv (St.goalML s) (St.bottleML s))) as Hc. fold cc in Hc.
  pose proof (clamp_lower (Math.round (orZero (St.carryML s))) 0 100000) as Hy.
  assert (0 <= cc * b) as HP by nia.
  subst nc. unfold totalZ. fold cc. rewrite Hx.
  set (P := cc * b) in *.
  set (cur := Math.round ((1 - St.remaining s) * St.bottleML s)) in *.
  set (cy := clamp (Math.round (orZero (St.carryML s))) 0 100000) in *.
  unfold clamp. lia.
Qed.

Lemma dayChecked_config (tz now : Z) (s : St.t) :
  St.goalML (dayChecked tz now s) = St.goalML s
  /\ St.bottleML (dayChecked tz now s) = St.bottleML s
  /\ (St.extraML (dayChecked tz now s) = St.extraML s
      \/ St.extraML (dayChecked tz now s) = 0%Q).
Proof.
  unfold dayChecked.
  destruct (negb (St.dayKey s =? dayKeyByWake tz now (St.wakeMins s)));
    cbn; auto.
Qed.

(** X14. Refilling keeps the total.  With a goal (at most 100000), a bottle
    size and an extra of whole millilitres, [handleRefill] leaves the total
    that tracking the pending level produced, with the bottle full again: the
    part of the open bottle that was drunk moves into the carry.  The bottle
    count, the extra, the history and the daily log are those of the tracked
    state. *)
Theorem handleRefill_keeps_total (tz now eventAt : Z) (pending : Q) (s : St.t)
    (g b x : Z) :
  (St.goalML s == inject_Z g)%Q -> g <= 100000 ->
  (St.bottleML s == inject_Z b)%Q -> 0 <= b ->
  (St.extraML s == inject_Z x)%Q ->
  let tracked := setRemaining tz now eventAt pending (Some "track"%string) s in
  let s' := handleRefill tz now eventAt pending s in
  (totalConsumedFromState s' == totalConsumedFromState tracked)%Q
  /\ St.remaining s' = 1%Q
  /\ St.completedBottles s' = St.completedBottles tracked
  /\ St.extraML s' = St.extraML tracked
  /\ St.history s' = St.history tracked
  /\ St.dailyLog s' = St.dailyLog tracked
  /\ (exists c, St.celebrate s' = Some c /\ c_type c = bottle /\ 0 <= c_pct c <= 100).
Proof.
  intros Eg Hg Eb Hb Ex tracked s'.
  destruct (setRemaining_fields tz now eventAt pending (Some "track"%string) s)
    as (Fg & Fb & _ & _ & _ & _ & Fe & _ & Fr & _).
  fold tracked in Fg, Fb, Fe, Fr.
  destruct (dayChecked_config tz now s) as (Dg & Db & De).
  destruct (levelSet_level pending (dayChecked tz now s)) as ([_ Hr] & _).
  split; [|repeat split].
  - subst s'. unfold handleRefill. fold tracked.
    destruct De as [De|De].
    + apply (refillUpdater_total tracked g b x); try assumption.
      * rewrite Fg, Dg. exact Eg.
      * rewrite Fb, Db. exact Eb.
      * rewrite Fe, De. exact Ex.
      * rewrite Fr. exact Hr.
    + apply (refillUpdater_total tracked g b 0); try assumption.
      * rewrite Fg, Dg. exact Eg.
      * rewrite Fb, Db. exact Eb.
      * rewrite Fe, De. reflexivity.
      * rewrite Fr. exact Hr.
  - subst s'. unfold handleRefill, refillUpdater. cbn.
    eexists. split; [reflexivity|]. cbn. split; [reflexivity|].
    apply clamp_range. lia.
Qed.

Lemma handleRefill_keeps_total_witness :
  let s := makeDefaultState 0 0 in
  (totalConsumedFromState (handleRefill 0 0 0 (1 # 4) s)
   == totalConsumedFromState (setRemaining 0 0 0 (1 # 4) (Some "track"%string) s))%Q.
Proof.
  intros s.
  refine (proj1 (handleRefill_keeps_total 0 0 0 (1 # 4) s 2000 500 0 _ _ _ _ _));
    vm_compute; try reflexivity; discriminate.
Defined.

(** ** Pacing *)

(** X15. The pacing tolerance has no effect on the status: whatever the
    goal, the status is [ahead] exactly when the total is at least the
    expected volume, and [behind] otherwise. *)
Theorem pacingStatus_is_sign (diffMl goalML : Q) :
  pacingStatus diffMl (pacingToleranceMl goalML)
  = if Qle_bool 0 diffMl then ahead else behind.
Proof.
  unfold pacingStatus, pacingToleranceMl, Qlt_bool.
  pose proof (Q.le_max_r (goalML * (5 # 100)) 150) as Ht.
  set (tol := Qmax _ _) in *.
  destruct (Qle_bool diffMl tol) eqn:E1, (Qle_bool (- tol) diffMl) eqn:E2,
           (Qle_bool 0 diffMl) eqn:E3; cbn; try reflexivity; qbools; lra.
Qed.

Lemma expectedPctAt_mono (tz w s d1 d2 : Z) :
  pacingNow tz d1 w <= pacingNow tz d2 w ->
  (expectedPctAt tz d1 w s <= expectedPctAt tz d2 w s)%Q.
Proof.
  intros Hle.
  pose proof (expectedPctAt_range tz d2 w s) as R2.
  pose proof (expectedPctAt_range tz d1 w s) as R1.
  destruct (expectedPctAt_cases tz d1 w s) as [[_ E1]|[(Hn1 & He1 & E1)|([Hn1 He1] & E1)]].
  - rewrite E1. lra.
  - destruct (expectedPctAt_cases tz d2 w s) as [[? _]|[(_ & _ & E2)|([_ ?] & _)]];
      [lia | rewrite E1, E2; lra | lia].
  - destruct (expectedPctAt_cases tz d2 w s) as [[? _]|[(_ & _ & E2)|([_ ?] & E2)]];
      [lia | rewrite E2; lra |].
    rewrite E1, E2, !curve_linear.
    apply curveLinear_mono, pacingProgress_mono. lia.
Qed.

Lemma round_mono (x y : Q) : (x <= y)%Q -> Math.round x <= Math.round y.
Proof. intros H. unfold Math.round. apply Qfloor_resp_le. lra. Qed.

(** X16. For a non-negative goal the expected volume lies between 0 and the
    rounded goal, never decreases as the wrapped minute of the day advances,
    is 0 at the wake minute and is the rounded goal from the end of the
    window on. *)
Theorem expectedMlAt_shape (tz w s : Z) (goalML : Q) :
  (0 <= goalML)%Q ->
  (forall d, 0 <= expectedMlAt tz goalML d w s <= Math.round goalML)
  /\ (forall d1 d2, pacingNow tz d1 w <= pacingNow tz d2 w ->
        expectedMlAt tz goalML d1 w s <= expectedMlAt tz goalML d2 w s)
  /\ (forall d, minutesSinceMidnight tz d = pacingStart w ->
        expectedMlAt tz goalML d w s = 0)
  /\ (forall d, pacingEnd w s <= pacingNow tz d w ->
        expectedMlAt tz goalML d w s = Math.round goalML).
Proof.
  intros Hg. unfold expectedMlAt. repeat split.
  - apply round_nonneg. pose proof (expectedPctAt_range tz d w s).
    apply Qmult_le_0_compat; lra.
  - apply round_mono. pose proof (expectedPctAt_range tz d w s) as [H0 H1].
    assert (goalML * expectedPctAt tz d w s <= goalML * 1)%Q
      by (apply Qmult_le_l_weak || (rewrite !(Qmult_comm goalML);
          apply Qmult_le_compat_r; assumption)).
    lra.
  - intros d1 d2 Hle. apply round_mono.
    pose proof (expectedPctAt_mono tz w s d1 d2 Hle).
    rewrite !(Qmult_comm goalML). apply Qmult_le_compat_r; assumption.
  - intros d Hd. apply pacingNow_eq_start in Hd.
    destruct (expectedPctAt_cases tz d w s) as [[_ E]|[(? & _ & _)|([? _] & _)]];
      [|lia|lia].
    rewrite E. rewrite (round_proper _ 0) by ring. reflexivity.
  - intros d Hd. pose proof (pacingEnd_after_start w s).
    destruct (expectedPctAt_cases tz d w s) as [[? _]|[(_ & _ & E)|([_ ?] & _)]];
      [lia | | lia].
    rewrite E. apply round_proper. ring.
Qed.

Lemma expectedMlAt_shape_witness :
  0 <= expectedMlAt 0 2000 (750 * 60000) 480 1320 <= Math.round 2000.
Proof.
  refine (proj1 (expectedMlAt_shape 0 480 1320 2000 _) (750 * 60000)).
  vm_compute. discriminate.
Defined.

(** ** Weekly score *)

Lemma dayKeyByWake_days_back (tz d w n : Z) :
  dayKeyByWake tz (d - n * msPerDay) w = dayKeyByWake tz d w - n.
Proof.
  unfold dayKeyByWake, dayKey. cbv zeta.
  replace (d - n * msPerDay - wakeBoundaryMins w * 60 * 1000 + tz)
    with (d - wakeBoundaryMins w * 60 * 1000 + tz + (- n) * msPerDay) by ring.
  rewrite Z.div_add by (unfold msPerDay, msPerHour, msPerMinute; lia). ring.
Qed.

Lemma spreadScoreOf_range (day : option Day.entry) : 0 <= spreadScoreOf day <= 70.
Proof.
  unfold spreadScoreOf. pose proof (readWindowHitCounts_length day) as L.
  destruct (readWindowHitCounts day) as [|a [|b [|c [|d [|e [|]]]]]]; try discriminate L.
  cbn. destruct (0 <? a), (0 <? b), (0 <? c), (0 <? d), (0 <? e); cbn; lia.
Qed.

Lemma volumeScoreOf_range (day : option Day.entry) : 0 <= volumeScoreOf day <= 30.
Proof.
  unfold volumeScoreOf. cbv zeta.
  repeat match goal with
  | |- context [if ?b then _ else _] => destruct b
  end; lia.
Qed.

Lemma dailyScoreOf_range (day : option Day.entry) : 0 <= dailyScoreOf day <= 100.
Proof.
  unfold dailyScoreOf.
  pose proof (spreadScoreOf_range day). pose proof (volumeScoreOf_range day). lia.
Qed.

(** X17. The weekly score.  The seven keys it reads are the day key of the
    present instant and the six before it, oldest first; a day's score lies
    between 0 and 100 (at most 70 for the spread and 30 for the volume) and
    is 0 for a day with no entry; the score of the week lies between 0 and
    100, depends on the log through these seven keys only, and is 0 when
    none of them has an entry. *)
Theorem debloatElo_shape (tz now : Z) (s : St.t) :
  let k := dayKeyByWake tz now (St.wakeMins s) in
  last7DayKeys tz now (St.wakeMins s) = [k - 6; k - 5; k - 4; k - 3; k - 2; k - 1; k]
  /\ (forall day, 0 <= spreadScoreOf day <= 70 /\ 0 <= volumeScoreOf day <= 30
                  /\ 0 <= dailyScoreOf day <= 100)
  /\ dailyScoreOf None = 0
  /\ 0 <= debloatElo tz now s <= 100
  /\ (forall s2, St.wakeMins s2 = St.wakeMins s ->
        (forall i, 0 <= i <= 6 -> St.dailyLog s2 !! (k - i) = St.dailyLog s !! (k - i)) ->
        debloatElo tz now s2 = debloatElo tz now s)
  /\ ((forall i, 0 <= i <= 6 -> St.dailyLog s !! (k - i) = None) ->
      debloatElo tz now s = 0).
Proof.
  intros k.
  assert (last7DayKeys tz now (St.wakeMins s)
          = [k - 6; k - 5; k - 4; k - 3; k - 2; k - 1; k]) as Hkeys.
  { unfold last7DayKeys. cbn [map].
    rewrite !dayKeyByWake_days_back. fold k. repeat f_equal; lia. }
  assert (last7DayKeys tz now (St.wakeMins s)
          = [k - 6; k - 5; k - 4; k - 3; k - 2; k - 1; k - 0]) as Hkeys0
    by (rewrite Hkeys, Z.sub_0_r; reflexivity).
  split; [exact Hkeys|].
  split; [intros day; auto using spreadScoreOf_range, volumeScoreOf_range,
                                 dailyScoreOf_range|].
  split; [reflexivity|].
  split; [|split].
  - unfold debloatElo. cbv zeta. rewrite Hkeys. cbn [map foldl].
    repeat match goal with
    | |- context [dailyScoreOf ?d] =>
        let H := fresh "R" in
        pose proof (dailyScoreOf_range d) as H;
        let v := fresh "v" in set (v := dailyScoreOf d) in *; clearbody v
    end.
    set (sum := _ + _) . assert (0 <= sum <= 700) as Hsum by (subst sum; lia).
    clearbody sum. split.
    + apply round_nonneg. apply Qle_shift_div_l; [reflexivity|].
      rewrite Qmult_0_l. now apply inject_Z_nonneg.
    + change 100 with (Math.round 100). apply round_mono.
      apply Qle_shift_div_r; [reflexivity|].
      change (100 * 7)%Q with (inject_Z 700). rewrite <- Zle_Qle. lia.
  - intros s2 Hw Hlog. unfold debloatElo. cbv zeta. rewrite Hw, Hkeys0. cbn [map].
    rewrite !Hlog by lia. reflexivity.
  - intros Hnone. unfold debloatElo. cbv zeta. rewrite Hkeys0. cbn [map].
    rewrite !Hnone by lia. reflexivity.
Qed.

(** ** Notification window and praise *)

Lemma midnight_bounds (tz now : Z) :
  let midnight := (now + tz) / msPerDay * msPerDay - tz in
  midnight <= now < midnight + msPerDay.
Proof.
  cbv zeta. assert (0 < msPerDay) as HD by reflexivity.
  pose proof (Z.div_mod (now + tz) msPerDay ltac:(lia)).
  pose proof (Z.mod_pos_bound (now + tz) msPerDay HD). lia.
Qed.

Lemma hours_minutes (m : Z) :
  0 <= m -> m / 60 * msPerHour + Z.rem m 60 * msPerMinute = m * msPerMinute.
Proof.
  intros Hm. unfold msPerHour, msPerMinute.
  rewrite Z.rem_mod_nonneg by lia.
  pose proof (Z.div_mod m 60 ltac:(lia)). lia.
Qed.

Lemma set_hours (m x : Z) :
  0 <= x -> m + x / 60 * msPerHour + Z.rem x 60 * msPerMinute = m + x * msPerMinute.
Proof. intros Hx. rewrite <- Z.add_assoc, hours_minutes by exact Hx. reflexivity. Qed.





Lemma window_progress_sleep_past_midnight (tz now wakeMins sleepMins : Z) :
  0 <= wakeMins <= 1439 -> 1440 <= sleepMins <= wakeMins + 1440 ->
  let win := getWindowForSchedule tz now wakeMins sleepMins in
  snd win <= fst win
  /\ computeWindowProgress now (fst win) (snd win) = 0%Q.
Proof.
  intros Hw Hs win.
  assert (snd win <= fst win /\ now <= fst win) as [H1 H2].
  { subst win. unfold getWindowForSchedule. cbv zeta.
    pose proof (midnight_bounds tz now) as Hm. cbv zeta in Hm.
    set (midnight := (now + tz) / msPerDay * msPerDay - tz) in *.
    assert (Z.rem sleepMins 1440 = sleepMins - 1440) as E1.
    { rewrite Z.rem_mod_nonneg by lia.
      symmetry. apply (Z.mod_unique sleepMins 1440 1); lia. }
    assert (Z.rem sleepMins 60 = Z.rem (sleepMins - 1440) 60) as E2.
    { rewrite !Z.rem_mod_nonneg by lia.
      replace sleepMins with (sleepMins - 1440 + 24 * 60) at 1 by ring.
      apply Z.mod_add. lia. }
    rewrite E1, E2.
    rewrite !set_hours by lia.
    unfold msPerDay, msPerHour, msPerMinute in *.
    destruct (Z.leb_spec sleepMins wakeMins); [lia|].
    match goal with
    | |- context [if ?a >? ?b then _ else _] => destruct (Z.gtb_spec a b)
    end; cbn [fst snd]; lia. }
  split; [exact H1|].
  unfold computeWindowProgress. destruct (Z.leb_spec now (fst win)); [reflexivity|lia].
Qed.


(** X20. With a sleep time after midnight, stored as minutes past 1440 and
    not later in the night than the wake time is in the morning, the window
    that the praise reads ends before it starts, the progress through it is
    0 at every instant, and no praise is ever decided on. *)
Theorem no_praise_with_sleep_past_midnight (tz now : Z) (fl : PraiseFlags)
    (override : option Q) (s : St.t) :
  0 <= St.wakeMins s <= 1439 ->
  1440 <= St.sleepMins s <= St.wakeMins s + 1440 ->
  let win := getWindowForSchedule tz now (St.wakeMins s) (St.sleepMins s) in
  snd win <= fst win
  /\ computeWindowProgress now (fst win) (snd win) = 0%Q
  /\ praiseNotification tz now fl override s = None.
Proof.
  intros Hw Hs win.
  destruct (window_progress_sleep_past_midnight tz now _ _ Hw Hs) as [H1 H2].
  fold win in H1, H2. split; [exact H1|]. split; [exact H2|].
  unfold praiseNotification. fold win.
  destruct win as [wake sleep]. cbn [fst snd] in H2. rewrite H2.
  change (Qlt_bool 0 (25 # 100)) with true. cbv iota.
  destruct (negb (native fl)), (Qle_bool (St.bottleML s) 0),
           (negb (openedToday fl)), (praisedToday fl), (behindNudgeFiredToday fl);
    reflexivity.
Qed.

Lemma no_praise_with_sleep_past_midnight_witness :
  let times := hydrationWindowFromInputs 8 0 AM 1 0 AM in
  let s := St.with_completedBottles 4
             {| St.goalML := 2000; St.bottleML := 500;
                St.wakeMins := fst times; St.sleepMins := snd times;
                St.dayKey := 0; St.completedBottles := 0; St.remaining := 1;
                St.carryML := 0; St.extraML := 0;
                St.dailyLog := ∅; St.history := []; St.celebrate := None |} in
  let fl := {| native := true; openedToday := true; praisedToday := false;
               behindNudgeFiredToday := false |} in
  times = (480, 1500)
  /\ praiseNotification 0 (14 * 3600000) fl None s = None.
Proof.
  intros times s fl. split; [reflexivity|].
  refine (proj2 (proj2 (no_praise_with_sleep_past_midnight 0 (14 * 3600000) fl None s _ _)));
    vm_compute; split; discriminate.
Defined.

(** ** Requests of the estimate *)




(** X21. Every run of the estimate sends one or two requests, the second
    exactly when the first answer has status 429, and sleeps once before a
    second request and never otherwise.  A returned percentage lies between
    0 and 100; a rate-limit failure means that both answers had status 429
    and always carries the wait of the second attempt; a scan failure
    carries a status that is neither 429 nor a 2xx. *)
Theorem estimate_run_shape (w : Estimate.World) :
  let r := Estimate.estimatePercentFull w in
  (Estimate.requests r = 1%nat \/ Estimate.requests r = 2%nat)
  /\ (Estimate.requests r = 2%nat <-> Estimate.status (Estimate.fetch w 1) = 429)
  /\ Estimate.sleeps r
     = (if Estimate.status (Estimate.fetch w 1) =? 429
        then [Estimate.waitMs w 1] else [])
  /\ (forall p, Estimate.outcome r = Estimate.Returned p -> (0 <= p <= 100)%Q)
  /\ (forall x, Estimate.outcome r = Estimate.RateLimitError x ->
        x = Some (Estimate.waitMs w 2)
        /\ Estimate.status (Estimate.fetch w 1) = 429
        /\ Estimate.status (Estimate.fetch w 2) = 429)
  /\ (forall st detail, Estimate.outcome r = Estimate.ScanFailed st detail ->
        st <> 429 /\ ~ (200 <= st <= 299)).
Proof.
  intros r. subst r. unfold Estimate.estimatePercentFull.
  change (Z.to_nat Estimate.MAX_ATTEMPTS) with 2%nat.
  cbn [Estimate.attempts].
  change (1 <? Estimate.MAX_ATTEMPTS) with true.
  change (1 + 1 <? Estimate.MAX_ATTEMPTS) with false.
  change (1 + 1) with 2. cbv iota. unfold Estimate.ok.
  destruct (Z.eqb_spec (Estimate.status (Estimate.fetch w 1)) 429) as [E1|E1];
    [destruct (Z.eqb_spec (Estimate.status (Estimate.fetch w 2)) 429) as [E2|E2]|];
    repeat match goal with
    | |- context [?a <=? ?b] => destruct (Z.leb_spec a b)
    end; cbn [andb negb];
    repeat match goal with
    | |- context [match ?o with Some _ => _ | None => _ end] => destruct o
    end;
    cbn [Estimate.outcome Estimate.sleeps Estimate.requests app];
    (split; [first [left; reflexivity | right; reflexivity]|]);
    (split; [split; intros HH;
             first [assumption | reflexivity | discriminate HH | contradiction]|]);
    (split; [reflexivity|]);
    (split; [intros ? Hq;
             first [discriminate Hq
                   | injection Hq as <-; apply clampQ_range; lra]|]);
    (split; [intros ? Hx;
             first [discriminate Hx
                   | injection Hx as <-; repeat split; assumption]|]);
    intros ? ? Hst;
    first [discriminate Hst | injection Hst as <- _; lia].
Qed.



(** ** The two revisions *)

Lemma sliceLast_map {A B} (f : A -> B) (n : nat) (l : list A) :
  sliceLast n (map f l) = map f (sliceLast n l).
Proof.
  destruct n; [reflexivity|].
  rewrite !sliceLast_drop by lia. rewrite List.length_map. apply List.skipn_map.
Qed.

Lemma with_dailyLog_same (s : St.t) : St.with_dailyLog (St.dailyLog s) s = s.
Proof. destruct s; reflexivity. Qed.

Ltac st_fields :=
  cbn [St.goalML St.bottleML St.wakeMins St.sleepMins St.dayKey St.completedBottles
       St.remaining St.carryML St.extraML St.dailyLog St.history St.celebrate
       St.with_remaining St.with_completedBottles St.with_carryML St.with_extraML
       St.with_dailyLog St.with_history St.with_celebrate].

(** X23. When both revisions see the same day for the clock (the key by
    sleep of [src/src/App.tsx] is the key by wake of the later revision),
    [setRemaining] and [addExtra] of the two revisions give the same state
    but for the history and the daily log: the later revision adds the
    rhythm fields to the entry it pushes and nothing else to the history,
    the earlier one leaves the daily log as it was, and so does the later
    one for [setRemaining] with an action other than track. *)
Theorem mutations_agree_across_revisions
    (tz now eventAt : Z) (r ml : Q) (action : option string) (s : St.t) :
  dayKeyBySleep tz now (St.sleepMins s) = dayKeyByWake tz now (St.wakeMins s) ->
  let a := setRemaining_App tz now eventAt r action s in
  let b := setRemaining tz now eventAt r action s in
  let xa := addExtra_App tz now eventAt ml s in
  let xb := addExtra tz now eventAt ml s in
  (St.with_dailyLog (St.dailyLog a) (St.with_history (St.history a) b) = a
   /\ map stripRhythm (St.history b) = map stripRhythm (St.history a)
   /\ St.dailyLog a = St.dailyLog s
   /\ (isTrack action = false -> St.dailyLog b = St.dailyLog s))
  /\ (St.with_dailyLog (St.dailyLog xa) (St.with_history (St.history xa) xb) = xa
      /\ map stripRhythm (St.history xb) = map stripRhythm (St.history xa)
      /\ St.dailyLog xa = St.dailyLog s).
Proof.
  intros Hday a b xa xb.
  assert (St.dailyLog (dayChecked tz now s) = St.dailyLog s) as Hlog.
  { unfold dayChecked. destruct (negb _); reflexivity. }
  split.
  - subst a b. clear xa xb. unfold setRemaining_App, setRemaining. rewrite Hday.
    fold (dayChecked tz now s). set (ss := dayChecked tz now s) in *. cbv zeta.
    split; [|split; [|split]].
    + destruct (Qle_bool (clampQ r 0 1) (1 # 10000));
        unfold advanceBottle; st_fields;
        repeat match goal with
        | |- context [if ?c <=? ?d then _ else _] => destruct (c <=? d)
        | |- context [if ?c <? ?d then _ else _] => destruct (c <? d)
        end; st_fields; unfold totalConsumedFromState; st_fields;
        destruct (isTrack action); cbn [andb orb]; st_fields;
        repeat match goal with
        | |- context [if ?c then St.with_celebrate _ _ else _] => destruct c
        end; st_fields; reflexivity.
    + assert (forall h1 h2 (x y : St.t),
                St.history x = h1 -> St.history y = h2 ->
                map stripRhythm h1 = map stripRhythm h2 ->
                map stripRhythm (St.history x) = map stripRhythm (St.history y)) as K
        by (intros; congruence).
      eapply K.
      * destruct (isTrack action); cbn [andb orb]; st_fields;
          repeat match goal with
          | |- context [if ?c then St.with_celebrate _ _ else _] => destruct c
          end; st_fields; reflexivity.
      * destruct (Qle_bool (clampQ r 0 1) (1 # 10000)); st_fields;
          repeat match goal with
          | |- context [if ?c then St.with_celebrate _ _ else _] => destruct c
          end; st_fields; reflexivity.
      * rewrite <- !sliceLast_map, !List.map_app. reflexivity.
    + rewrite <- Hlog. fold ss.
      destruct (Qle_bool (clampQ r 0 1) (1 # 10000));
        unfold advanceBottle; st_fields;
        repeat match goal with
        | |- context [if ?c <=? ?d then _ else _] => destruct (c <=? d)
        | |- context [if ?c <? ?d then _ else _] => destruct (c <? d)
        end; st_fields;
        repeat match goal with
        | |- context [if ?c then St.with_celebrate _ _ else _] => destruct c
        end; st_fields; reflexivity.
    + intros Ht. rewrite Ht. cbn [andb]. cbv iota. rewrite <- Hlog. fold ss.
      destruct (Qle_bool (clampQ r 0 1) (1 # 10000));
        unfold advanceBottle; st_fields;
        repeat match goal with
        | |- context [if ?c <=? ?d then _ else _] => destruct (c <=? d)
        | |- context [if ?c <? ?d then _ else _] => destruct (c <? d)
        end; st_fields; reflexivity.
  - subst xa xb. clear a b. unfold addExtra_App, addExtra. rewrite Hday.
    fold (dayChecked tz now s). set (ss := dayChecked tz now s) in *. cbv zeta.
    st_fields. split; [|split].
    + reflexivity.
    + rewrite <- !sliceLast_map, !List.map_app. reflexivity.
    + exact Hlog.
Qed.

Lemma mutations_agree_across_revisions_witness :
  let s := makeDefaultState 0 (23 * 3600000) in
  let a := setRemaining_App 0 (23 * 3600000) (23 * 3600000) (1 # 2) (Some "track"%string) s in
  let b := setRemaining 0 (23 * 3600000) (23 * 3600000) (1 # 2) (Some "track"%string) s in
  St.with_dailyLog (St.dailyLog a) (St.with_history (St.history a) b) = a.
Proof.
  intros s a b.
  refine (proj1 (proj1 (mutations_agree_across_revisions 0 (23 * 3600000) (23 * 3600000)
                          (1 # 2) 0 (Some "track"%string) s _))).
  reflexivity.
Defined.

(** X24. [undo] of the two revisions gives the same state but for the daily
    log, which the earlier revision leaves alone; the two give the same
    state outright when the history is empty or its last entry has no rhythm
    window, as every entry pushed by the earlier revision. *)
Theorem undo_agrees_across_revisions (tz : Z) (s : St.t) :
  St.with_dailyLog (St.dailyLog s) (undo tz s) = undo_App s
  /\ (match last (St.history s) with
      | Some e => Hist.rhythmWindowIndex e = None
      | None => True
      end -> undo tz s = undo_App s)
  /\ St.dailyLog (undo_App s) = St.dailyLog s.
Proof.
  unfold undo, undo_App. cbv zeta.
  destruct (last (St.history s)) as [e|].
  - destruct (Hist.rhythmWindowIndex e) as [i|].
    + split; [reflexivity|]. split; [intros H; discriminate H | reflexivity].
    + split; [reflexivity|]. split; [reflexivity | reflexivity].
  - split; [apply with_dailyLog_same|]. split; reflexivity.
Qed.
